(** * Workspace quality orchestrator: lint-quality and quality-gate scripts

    A shallow embedding of [scripts/lint-quality.mjs] (package discovery
    with its cache, the weighted categorizer, the tiered lint run, the
    output parser, the quality score and its trend) and of
    [scripts/quality-gate.mjs] (the gate checkers, the gate score and the
    verdict), followed by the properties proved about them.

    Conventions of the embedding.
    - A JavaScript number is an exact rational or one of the three
      non-finite values [Infinity], [-Infinity], [NaN]: division by zero
      and the propagation of [NaN] are those of the language, the rounding
      error of binary64 arithmetic is not represented, and there is no
      negative zero (every quantity of the scripts is a count or is built
      from counts).
    - Subprocesses, the clock and the file system are inputs: [execSync]
      is a function from the command line to its outcome, a file is
      either absent or holds a text, and a text is either what
      [JSON.stringify] wrote or something [JSON.parse] rejects.
    - A package object carries whatever name its manifest has
      ([Scanned]); the categorizer is given on these ([Categorize]).
      The tiered run is given on package objects whose names are
      strings ([Package]), on which the categorizer returns.
    - Console output is not represented, except for the band of the
      summary ([Summary]). *)

From Stdlib Require Import ZArith QArith Qround Qminmax Lia Lqa Bool.
From Stdlib Require Import Sorting.Permutation Sorting.Sorted.
From stdpp Require Import base option list gmap strings.

Local Open Scope Z_scope.

(** ** JavaScript numbers *)

Module JS.

Inductive number : Type :=
| Fin (q : Q)
| Infinity
| NegInfinity
| NaN.

(** Finite results are kept in lowest terms, so that two finite numbers
    are equal exactly when they denote the same rational. *)
Definition fin (q : Q) : number := Fin (Qred q).

Definition of_Z (z : Z) : number := Fin (inject_Z z).
Definition of_nat (n : nat) : number := of_Z (Z.of_nat n).

Definition Qltb (a b : Q) : bool := negb (Qle_bool b a).

(** [x + y] *)
Definition add (x y : number) : number :=
  match x, y with
  | NaN, _ | _, NaN => NaN
  | Fin a, Fin b => fin (a + b)
  | Infinity, NegInfinity | NegInfinity, Infinity => NaN
  | Infinity, _ | _, Infinity => Infinity
  | NegInfinity, _ | _, NegInfinity => NegInfinity
  end.

(** [x - y] *)
Definition sub (x y : number) : number :=
  match x, y with
  | NaN, _ | _, NaN => NaN
  | Fin a, Fin b => fin (a - b)
  | Infinity, Infinity | NegInfinity, NegInfinity => NaN
  | Infinity, _ | _, NegInfinity => Infinity
  | NegInfinity, _ | _, Infinity => NegInfinity
  end.

Definition signed_infinity (positive : bool) : number :=
  if positive then Infinity else NegInfinity.

(** [x * y] *)
Definition mul (x y : number) : number :=
  match x, y with
  | NaN, _ | _, NaN => NaN
  | Fin a, Fin b => fin (a * b)
  | Fin a, Infinity | Infinity, Fin a =>
      if Qeq_bool a 0 then NaN else signed_infinity (Qltb 0 a)
  | Fin a, NegInfinity | NegInfinity, Fin a =>
      if Qeq_bool a 0 then NaN else signed_infinity (Qltb a 0)
  | Infinity, Infinity | NegInfinity, NegInfinity => Infinity
  | Infinity, NegInfinity | NegInfinity, Infinity => NegInfinity
  end.

(** [x / y]: a finite number over zero is an infinity, zero over zero is
    [NaN]. *)
Definition div (x y : number) : number :=
  match x, y with
  | NaN, _ | _, NaN => NaN
  | Fin a, Fin b =>
      if Qeq_bool b 0
      then if Qeq_bool a 0 then NaN else signed_infinity (Qltb 0 a)
      else fin (a / b)
  | Fin _, (Infinity | NegInfinity) => Fin 0
  | Infinity, Fin b => signed_infinity (Qle_bool 0 b)
  | NegInfinity, Fin b => signed_infinity (Qltb b 0)
  | (Infinity | NegInfinity), (Infinity | NegInfinity) => NaN
  end.

(** [x <= y]; every comparison with [NaN] is false. *)
Definition leb (x y : number) : bool :=
  match x, y with
  | NaN, _ | _, NaN => false
  | NegInfinity, _ | _, Infinity => true
  | Fin a, Fin b => Qle_bool a b
  | _, _ => false
  end.

(** [x >= y] *)
Definition geb (x y : number) : bool := leb y x.

(** [x < y] *)
Definition ltb (x y : number) : bool := leb x y && negb (leb y x).

(** [Math.max(x, y)] and [Math.min(x, y)]: [NaN] if either is. *)
Definition max (x y : number) : number :=
  match x, y with
  | NaN, _ | _, NaN => NaN
  | _, _ => if leb x y then y else x
  end.

Definition min (x y : number) : number :=
  match x, y with
  | NaN, _ | _, NaN => NaN
  | _, _ => if leb x y then x else y
  end.

(** [Math.round(x)]: the nearest integer, halves going up. *)
Definition round (x : number) : number :=
  match x with
  | Fin q => of_Z (Qfloor (q + (1 # 2)))
  | _ => x
  end.

(** [x || 0] on a number: zero and [NaN] are falsy. *)
Definition or0 (x : number) : number :=
  match x with
  | Fin q => if Qeq_bool q 0 then Fin 0 else x
  | NaN => Fin 0
  | _ => x
  end.

(** What [JSON.stringify] then [JSON.parse] make of a number-valued
    property: a finite number survives, the others are written [null]. *)
Definition json (x : number) : option Q :=
  match x with
  | Fin q => Some q
  | _ => None
  end.

(** [v || 0] on a property read back from JSON. *)
Definition json_or0 (v : option Q) : number :=
  match v with
  | Some q => or0 (Fin q)
  | None => Fin 0
  end.

Definition is_finite (x : number) : bool :=
  match x with Fin _ => true | _ => false end.

End JS.

(** ** JavaScript strings and arrays *)

Module Str.

Definition newline : Ascii.ascii := Ascii.ascii_of_nat 10.
Definition lineFeed : string := String newline EmptyString.
Definition quote : string := String (Ascii.ascii_of_nat 34) EmptyString.

(** [s.startsWith(sub)] *)
Fixpoint startsWith (s sub : string) : bool :=
  match sub, s with
  | EmptyString, _ => true
  | String _ _, EmptyString => false
  | String b sub', String a s' => Ascii.eqb a b && startsWith s' sub'
  end.

(** [s.includes(sub)]: [sub] occurs somewhere in [s]; case-sensitive. *)
Fixpoint includes (s sub : string) : bool :=
  startsWith s sub ||
  match s with
  | EmptyString => false
  | String _ s' => includes s' sub
  end.

(** [s.split('\n')]: the pieces between line feeds; never empty. *)
Fixpoint split_lines (s : string) : list string :=
  match s with
  | EmptyString => [EmptyString]
  | String c s' =>
      if Ascii.eqb c newline then EmptyString :: split_lines s'
      else match split_lines s' with
           | line :: rest => String c line :: rest
           | [] => [String c EmptyString]
           end
  end.

(** [pieces.join(sep)] *)
Definition join (sep : string) (pieces : list string) : string :=
  String.concat sep pieces.

(** The text has no line feed. *)
Fixpoint single_line (s : string) : bool :=
  match s with
  | EmptyString => true
  | String c s' => negb (Ascii.eqb c newline) && single_line s'
  end.

End Str.

Module Arr.

Section Sort.
Context {A : Type} (compareFn : A -> A -> Z).

(** [x] goes in front of the first element it does not have to follow. *)
Fixpoint insert (x : A) (l : list A) : list A :=
  match l with
  | [] => [x]
  | y :: l' => if compareFn x y <=? 0 then x :: l else y :: insert x l'
  end.

(** [array.sort(compareFn)]: a stable sort. *)
Definition sort (l : list A) : list A := foldr insert [] l.
End Sort.

End Arr.

(** ** scripts/lint-quality.mjs *)

(** [packageJson.name] as [JSON.parse] gives it, told apart by what
    [name.includes(...)] does with it: a string; an array, of which the
    elements that are strings are kept (no other element equals a
    string); or a value that has no [includes] method, that is
    [undefined] when the manifest has no name, [null], a boolean, a
    number or an object. *)
Module Name.
Inductive t : Type :=
| Text (s : string)
| Items (texts : list string)
| NoIncludes.
End Name.

(** The package object that the scan pushes: [name] is copied from the
    manifest as it is. *)
Module Scanned.
Record t : Type := mk {
  name : Name.t;
  path : string;
  lastModified : Z;
  hasTypescript : bool;
  hasTests : bool;
  isPrivate : bool;
  size : Z
}.
End Scanned.

(** A package object whose name is a string, as in a workspace where
    every manifest has one. The run is modelled on these: on any other
    package object [categorizePackages] either throws before the first
    invocation or treats the name as an array ([Categorize] below). *)
Module Package.
Record t : Type := mk {
  name : string;
  path : string;
  lastModified : Z;
  hasTypescript : bool;
  hasTests : bool;
  isPrivate : bool;
  size : Z
}.

(** The same object as the scan pushes it. *)
Definition scanned (pkg : t) : Scanned.t :=
  Scanned.mk (Name.Text (name pkg)) (path pkg) (lastModified pkg)
             (hasTypescript pkg) (hasTests pkg) (isPrivate pkg) (size pkg).
End Package.

Inductive Status : Type := success | failed.

(** The object stored per package in [packageResults]; [duration] is set
    on the sequential path only. *)
Module Result.
Record t : Type := mk {
  errors : JS.number;
  warnings : JS.number;
  duration : option Z;
  status : Status
}.
End Result.

Module Counts.
Record t : Type := mk { errors : nat; warnings : nat }.
End Counts.

Module Tiers.
Record t : Type := mk {
  heavy : list Package.t;
  medium : list Package.t;
  light : list Package.t
}.
End Tiers.

Inductive Tier : Type := Heavy | Medium | Light.

Module Performance.
Record t : Type := mk {
  startTime : Z;
  endTime : option Z;
  duration : option Z
}.
End Performance.

(** The [metrics] object of a [QualityMetrics] instance. *)
Module Metrics.
Record t : Type := mk {
  timestamp : Z;
  totalPackages : nat;
  lintedPackages : nat;
  errors : JS.number;
  warnings : JS.number;
  packageResults : gmap string Result.t;
  performance : Performance.t;
  qualityScore : JS.number;
  previousScore : JS.number
}.
End Metrics.

(** Content of [lint-quality-report.json]: the text [JSON.stringify]
    wrote for a metrics object, or a text on which reading, parsing or
    the property access throws. *)
Inductive ReportText : Type :=
| ReportUnreadable
| ReportStringified (m : Metrics.t).

(** Content of [.lint-cache.json], likewise. *)
Inductive CacheText : Type :=
| CacheCorrupted
| CacheStringified (packages : list Package.t).

Inductive File : Type := QUALITY_REPORT_FILE | cacheFile.

(** Accesses to the outside, in the order they happen. *)
Inductive Event : Type :=
| Exists (f : File)
| Stat (f : File)
| Read (f : File)
| Write (f : File)
| Scan
| Spawn (command : string).

(** Outcome of one [execSync] call: [stdout = None] when the call throws
    (non-zero exit status or timeout); [elapsed] is the time it took. *)
Module Exec.
Record outcome : Type := mk { stdout : option string; elapsed : Z }.
End Exec.

Module World.
Record t : Type := mk {
  report : option ReportText;
  cache : option (Z * CacheText);   (* modification time, content *)
  packagesDir : list Package.t;     (* what scanning packages/ collects *)
  now : Z;                          (* Date.now() *)
  trace : list Event
}.

Definition log (evs : list Event) (w : t) : t :=
  mk (report w) (cache w) (packagesDir w) (now w) (trace w ++ evs).

Definition tick (dt : Z) (w : t) : t :=
  mk (report w) (cache w) (packagesDir w) (now w + dt) (trace w).

Definition writeReport (text : ReportText) (w : t) : t :=
  mk (Some text) (cache w) (packagesDir w) (now w)
     (trace w ++ [Write QUALITY_REPORT_FILE]).

Definition writeCache (text : CacheText) (w : t) : t :=
  mk (report w) (Some (now w, text)) (packagesDir w) (now w)
     (trace w ++ [Write cacheFile]).
End World.

Module LintQuality.

(** *** categorizePackages *)

Definition sizeWeight (pkg : Package.t) : Z :=
  if Package.size pkg >? 1000000 then 2
  else if Package.size pkg >? 500000 then 1 else 0.

Definition complexityWeight (pkg : Package.t) : Z :=
  (if Package.hasTypescript pkg then 1 else 0) +
  (if Package.hasTests pkg then 1 else 0).

(** The two name tests of [nameWeight]. *)
Definition criticalName (name : string) : bool :=
  Str.includes name "nodes-base" || String.eqb name "n8n"
  || Str.includes name "editor-ui".

Definition importantName (name : string) : bool :=
  Str.includes name "core" || Str.includes name "cli"
  || Str.includes name "design-system".

Definition nameWeight (pkg : Package.t) : Z :=
  let name := Package.name pkg in
  if criticalName name then 2 else if importantName name then 1 else 0.

Definition totalWeight (pkg : Package.t) : Z :=
  sizeWeight pkg + complexityWeight pkg + nameWeight pkg.

(** One iteration of the bucketing loop. *)
Definition bucket (acc : Tiers.t) (pkg : Package.t) : Tiers.t :=
  if totalWeight pkg >=? 4
  then Tiers.mk (Tiers.heavy acc ++ [pkg]) (Tiers.medium acc) (Tiers.light acc)
  else if totalWeight pkg >=? 2
  then Tiers.mk (Tiers.heavy acc) (Tiers.medium acc ++ [pkg]) (Tiers.light acc)
  else Tiers.mk (Tiers.heavy acc) (Tiers.medium acc) (Tiers.light acc ++ [pkg]).

Definition bySizeDescending (a b : Package.t) : Z :=
  Package.size b - Package.size a.

Definition categorizePackages (packages : list Package.t) : Tiers.t :=
  let sortedPackages := Arr.sort bySizeDescending packages in
  fold_left bucket sortedPackages (Tiers.mk [] [] []).

(** *** parseESLintOutput *)

Definition countLine (acc : Counts.t) (line : string) : Counts.t :=
  Counts.mk
    (if Str.includes line "error"
     then S (Counts.errors acc) else Counts.errors acc)
    (if Str.includes line "warning"
     then S (Counts.warnings acc) else Counts.warnings acc).

Definition parseESLintOutput (output : string) : Counts.t :=
  fold_left countLine (Str.split_lines output) (Counts.mk 0 0).

(** *** QualityMetrics *)

Definition loadPreviousScore (w : World.t) : JS.number * World.t :=
  match World.report w with
  | Some text =>
      let w' :=
        World.log [Exists QUALITY_REPORT_FILE; Read QUALITY_REPORT_FILE] w in
      match text with
      | ReportStringified report =>
          (JS.json_or0 (JS.json (Metrics.qualityScore report)), w')
      | ReportUnreadable => (JS.of_Z 0, w')
      end
  | None => (JS.of_Z 0, World.log [Exists QUALITY_REPORT_FILE] w)
  end.

(** [new QualityMetrics()] *)
Definition constructor (w : World.t) : Metrics.t * World.t :=
  let (previous, w') := loadPreviousScore w in
  (Metrics.mk (World.now w) 0 0 (JS.of_Z 0) (JS.of_Z 0) ∅
              (Performance.mk (World.now w) None None)
              (JS.of_Z 0) previous,
   w').

Definition setTotalPackages (n : nat) (m : Metrics.t) : Metrics.t :=
  Metrics.mk (Metrics.timestamp m) n (Metrics.lintedPackages m)
             (Metrics.errors m) (Metrics.warnings m)
             (Metrics.packageResults m) (Metrics.performance m)
             (Metrics.qualityScore m) (Metrics.previousScore m).

Definition addPackageResult (packageName : string) (result : Result.t)
    (m : Metrics.t) : Metrics.t :=
  Metrics.mk (Metrics.timestamp m) (Metrics.totalPackages m)
             (S (Metrics.lintedPackages m))
             (JS.add (Metrics.errors m) (JS.or0 (Result.errors result)))
             (JS.add (Metrics.warnings m) (JS.or0 (Result.warnings result)))
             (<[packageName := result]> (Metrics.packageResults m))
             (Metrics.performance m)
             (Metrics.qualityScore m) (Metrics.previousScore m).

(** The value [calculateQualityScore] stores and returns. *)
Definition score (m : Metrics.t) : JS.number :=
  let totalIssues := JS.add (Metrics.errors m) (Metrics.warnings m) in
  let maxIssues := JS.mul (JS.of_nat (Metrics.lintedPackages m)) (JS.of_Z 10) in
  let score :=
    JS.max (JS.of_Z 0)
      (JS.min (JS.of_Z 100)
         (JS.sub (JS.of_Z 100)
            (JS.mul (JS.div totalIssues maxIssues) (JS.of_Z 100)))) in
  JS.div (JS.round (JS.mul score (JS.of_Z 100))) (JS.of_Z 100).

Definition calculateQualityScore (m : Metrics.t) : Metrics.t :=
  Metrics.mk (Metrics.timestamp m) (Metrics.totalPackages m)
             (Metrics.lintedPackages m) (Metrics.errors m)
             (Metrics.warnings m) (Metrics.packageResults m)
             (Metrics.performance m) (score m) (Metrics.previousScore m).

Definition stopClock (endTime : Z) (m : Metrics.t) : Metrics.t :=
  let startTime := Performance.startTime (Metrics.performance m) in
  Metrics.mk (Metrics.timestamp m) (Metrics.totalPackages m)
             (Metrics.lintedPackages m) (Metrics.errors m)
             (Metrics.warnings m) (Metrics.packageResults m)
             (Performance.mk startTime (Some endTime)
                             (Some (endTime - startTime)))
             (Metrics.qualityScore m) (Metrics.previousScore m).

Definition finalize (st : Metrics.t * World.t) : Metrics.t * World.t :=
  let (m, w) := st in
  let m' := calculateQualityScore (stopClock (World.now w) m) in
  (m', World.writeReport (ReportStringified m') w).

(** *** getLintablePackages *)

Definition freshScan (w : World.t) : list Package.t * World.t :=
  let packages := World.packagesDir w in
  (packages,
   World.writeCache (CacheStringified packages) (World.log [Scan] w)).

(** The accesses made when a young cache is read. *)
Definition cacheProbe : list Event :=
  [Exists cacheFile; Stat cacheFile; Read cacheFile].

Definition getLintablePackages (w : World.t) : list Package.t * World.t :=
  match World.cache w with
  | Some (mtime, text) =>
      let cacheAge := World.now w - mtime in
      if cacheAge <? 3600000 then
        match text with
        | CacheStringified packages => (packages, World.log cacheProbe w)
        | CacheCorrupted => freshScan (World.log cacheProbe w)
        end
      else freshScan (World.log [Exists cacheFile; Stat cacheFile] w)
  | None => freshScan (World.log [Exists cacheFile] w)
  end.

(** *** runQualityLint *)

Section Run.

(** [path.relative(ROOT_DIR, p)] and the subprocess oracle. *)
Variable relative : string -> string.
Variable execSync : string -> Exec.outcome.

Definition filter (pkg : Package.t) : string :=
  ("--filter=" ++ Str.quote ++ "./" ++ relative (Package.path pkg)
     ++ Str.quote)%string.

Definition heavyCommand (pkg : Package.t) : string :=
  ("turbo run lint " ++ filter pkg ++ " --cache-dir=.turbo")%string.

Definition batchCommand (concurrency : string) (batch : list Package.t)
    : string :=
  ("turbo run lint " ++ Str.join " " (map filter batch)
     ++ " --parallel --concurrency=" ++ concurrency
     ++ " --cache-dir=.turbo")%string.

Definition spawn (command : string) (w : World.t) : World.t :=
  World.tick (Exec.elapsed (execSync command)) (World.log [Spawn command] w).

(** One iteration of the sequential loop over the heavy tier. *)
Definition lintHeavy (st : Metrics.t * World.t) (pkg : Package.t)
    : Metrics.t * World.t :=
  let (m, w) := st in
  let startTime := World.now w in
  let command := heavyCommand pkg in
  let w' := spawn command w in
  match Exec.stdout (execSync command) with
  | Some output =>
      let parsed := parseESLintOutput output in
      let result :=
        Result.mk (JS.of_nat (Counts.errors parsed))
                  (JS.of_nat (Counts.warnings parsed))
                  (Some (World.now w' - startTime)) success in
      (addPackageResult (Package.name pkg) result m, w')
  | None =>
      let result :=
        Result.mk (JS.of_Z 1) (JS.of_Z 0)
                  (Some (World.now w' - startTime)) failed in
      (addPackageResult (Package.name pkg) result m, w')
  end.

Definition recordAll (result : Result.t) (batch : list Package.t)
    (m : Metrics.t) : Metrics.t :=
  fold_left (fun m pkg => addPackageResult (Package.name pkg) result m)
            batch m.

Definition avgPerPackage (batchResult : Counts.t) (batch : list Package.t)
    : Result.t :=
  Result.mk
    (JS.round (JS.div (JS.of_nat (Counts.errors batchResult))
                      (JS.of_nat (length batch))))
    (JS.round (JS.div (JS.of_nat (Counts.warnings batchResult))
                      (JS.of_nat (length batch))))
    None success.

(** The medium and the light tier: one invocation for the whole tier,
    skipped when the tier is empty. *)
Definition lintBatch (concurrency : string) (batch : list Package.t)
    (st : Metrics.t * World.t) : Metrics.t * World.t :=
  let (m, w) := st in
  match batch with
  | [] => st
  | _ :: _ =>
      let command := batchCommand concurrency batch in
      let w' := spawn command w in
      match Exec.stdout (execSync command) with
      | Some output =>
          let batchResult := parseESLintOutput output in
          (recordAll (avgPerPackage batchResult batch) batch m, w')
      | None =>
          (recordAll (Result.mk (JS.of_Z 1) (JS.of_Z 0) None failed) batch m,
           w')
      end
  end.

(** The three stages, in their fixed order. Nothing else in the outer
    [try] block throws once [execSync] is guarded ([writeFileSync] is taken
    to succeed), so its [catch] block has no counterpart here. *)
Definition lintTiers (tiers : Tiers.t) (st : Metrics.t * World.t)
    : Metrics.t * World.t :=
  let st := fold_left lintHeavy (Tiers.heavy tiers) st in
  let st := lintBatch "4" (Tiers.medium tiers) st in
  lintBatch "8" (Tiers.light tiers) st.

Definition runQualityLint (packages : list Package.t) (w : World.t)
    : Metrics.t * World.t :=
  let (metrics, w0) := constructor w in
  let metrics := setTotalPackages (length packages) metrics in
  match packages with
  | [] => finalize (metrics, w0)
  | _ :: _ => finalize (lintTiers (categorizePackages packages) (metrics, w0))
  end.

(** [main]: discovery, the run, and the exit status. *)
Definition main (w : World.t) : Z * Metrics.t * World.t :=
  let (allPackages, w1) := getLintablePackages w in
  let (metrics, w2) := runQualityLint allPackages w1 in
  (if JS.ltb (Metrics.qualityScore metrics) (JS.of_Z 70) then 1 else 0,
   metrics, w2).

End Run.

End LintQuality.

(** *** categorizePackages on package objects as scanned

    [categorizePackages] is called by [runQualityLint] before its [try]
    block, on whatever discovery returned. Where [LintQuality] above
    takes the name to be a string, this is the function on any package
    object: evaluating [name.includes(...)] throws a [TypeError] when
    the name has no such method. *)

Module Categorize.

(** How an evaluation completes: with a value, or by throwing a
    [TypeError]. *)
Inductive completion (A : Type) : Type :=
| Value (a : A)
| TypeError.
Arguments Value {A} a.
Arguments TypeError {A}.

Record Tiers : Type := mkTiers {
  heavy : list Scanned.t;
  medium : list Scanned.t;
  light : list Scanned.t
}.

(** [name.includes(sub)]: the substring test of a string, the membership
    test of an array. *)
Definition includes (name : Name.t) (sub : string) : completion bool :=
  match name with
  | Name.Text s => Value (Str.includes s sub)
  | Name.Items texts => Value (existsb (String.eqb sub) texts)
  | Name.NoIncludes => TypeError
  end.

(** [name === text] *)
Definition equals (name : Name.t) (text : string) : bool :=
  match name with
  | Name.Text s => String.eqb s text
  | _ => false
  end.

(** [a || b], evaluated left to right. *)
Definition orElse (a b : completion bool) : completion bool :=
  match a with
  | Value true => Value true
  | Value false => b
  | TypeError => TypeError
  end.

Definition sizeWeight (pkg : Scanned.t) : Z :=
  if Scanned.size pkg >? 1000000 then 2
  else if Scanned.size pkg >? 500000 then 1 else 0.

Definition complexityWeight (pkg : Scanned.t) : Z :=
  (if Scanned.hasTypescript pkg then 1 else 0) +
  (if Scanned.hasTests pkg then 1 else 0).

(** The two conditions of [nameWeight]. *)
Definition criticalName (name : Name.t) : completion bool :=
  orElse (includes name "nodes-base")
         (orElse (Value (equals name "n8n")) (includes name "editor-ui")).

Definition importantName (name : Name.t) : completion bool :=
  orElse (includes name "core")
         (orElse (includes name "cli") (includes name "design-system")).

Definition nameWeight (pkg : Scanned.t) : completion Z :=
  let name := Scanned.name pkg in
  match criticalName name with
  | Value true => Value 2
  | Value false =>
      match importantName name with
      | Value true => Value 1
      | Value false => Value 0
      | TypeError => TypeError
      end
  | TypeError => TypeError
  end.

Definition totalWeight (pkg : Scanned.t) : completion Z :=
  match nameWeight pkg with
  | Value nameWeight =>
      Value (sizeWeight pkg + complexityWeight pkg + nameWeight)
  | TypeError => TypeError
  end.

(** One iteration of the bucketing loop. *)
Definition bucket (acc : Tiers) (pkg : Scanned.t) : completion Tiers :=
  match totalWeight pkg with
  | Value totalWeight =>
      Value
        (if totalWeight >=? 4
         then mkTiers (heavy acc ++ [pkg]) (medium acc) (light acc)
         else if totalWeight >=? 2
         then mkTiers (heavy acc) (medium acc ++ [pkg]) (light acc)
         else mkTiers (heavy acc) (medium acc) (light acc ++ [pkg]))
  | TypeError => TypeError
  end.

(** The loop: an iteration that throws ends it. *)
Fixpoint buckets (sortedPackages : list Scanned.t) (acc : Tiers)
    : completion Tiers :=
  match sortedPackages with
  | [] => Value acc
  | pkg :: rest =>
      match bucket acc pkg with
      | Value acc' => buckets rest acc'
      | TypeError => TypeError
      end
  end.

Definition bySizeDescending (a b : Scanned.t) : Z :=
  Scanned.size b - Scanned.size a.

Definition categorizePackages (packages : list Scanned.t)
    : completion Tiers :=
  let sortedPackages := Arr.sort bySizeDescending packages in
  buckets sortedPackages (mkTiers [] [] []).

(** The tiers of [LintQuality.categorizePackages] as tiers of scanned
    package objects. *)
Definition scannedTiers (tiers : Tiers.t) : Tiers :=
  mkTiers (map Package.scanned (Tiers.heavy tiers))
          (map Package.scanned (Tiers.medium tiers))
          (map Package.scanned (Tiers.light tiers)).

End Categorize.

(** *** The results a run records

    The entries a run hands to [addPackageResult], in order: used to state
    what ends up in [packageResults]. *)

Module Recorded.

Definition failure (duration : option Z) : Result.t :=
  Result.mk (JS.of_Z 1) (JS.of_Z 0) duration failed.

Definition recordList (entries : list (string * Result.t)) (m : Metrics.t)
    : Metrics.t :=
  fold_left (fun m entry =>
               LintQuality.addPackageResult (fst entry) (snd entry) m)
            entries m.

Section Entries.

Variable relative : string -> string.
Variable execSync : string -> Exec.outcome.

Definition heavyResult (pkg : Package.t) : Result.t :=
  let outcome := execSync (LintQuality.heavyCommand relative pkg) in
  match Exec.stdout outcome with
  | Some output =>
      let parsed := LintQuality.parseESLintOutput output in
      Result.mk (JS.of_nat (Counts.errors parsed))
                (JS.of_nat (Counts.warnings parsed))
                (Some (Exec.elapsed outcome)) success
  | None => failure (Some (Exec.elapsed outcome))
  end.

Definition batchResult (concurrency : string) (batch : list Package.t)
    : Result.t :=
  match Exec.stdout
          (execSync (LintQuality.batchCommand relative concurrency batch))
  with
  | Some output =>
      LintQuality.avgPerPackage (LintQuality.parseESLintOutput output) batch
  | None => failure None
  end.

Definition heavyEntries (batch : list Package.t)
    : list (string * Result.t) :=
  map (fun pkg => (Package.name pkg, heavyResult pkg)) batch.

Definition batchEntries (concurrency : string) (batch : list Package.t)
    : list (string * Result.t) :=
  map (fun pkg => (Package.name pkg, batchResult concurrency batch)) batch.

Definition entries (tiers : Tiers.t) : list (string * Result.t) :=
  heavyEntries (Tiers.heavy tiers)
  ++ batchEntries "4" (Tiers.medium tiers)
  ++ batchEntries "8" (Tiers.light tiers).

(** The command lines a run spawns, in order. *)
Definition batchCommands (concurrency : string) (batch : list Package.t)
    : list string :=
  match batch with
  | [] => []
  | _ :: _ => [LintQuality.batchCommand relative concurrency batch]
  end.

Definition commands (tiers : Tiers.t) : list string :=
  map (LintQuality.heavyCommand relative) (Tiers.heavy tiers)
  ++ batchCommands "4" (Tiers.medium tiers)
  ++ batchCommands "8" (Tiers.light tiers).

(** The world after spawning these commands one after the other. *)
Definition spawnAll (commands : list string) (w : World.t) : World.t :=
  fold_left (fun w command => LintQuality.spawn execSync command w)
            commands w.

End Entries.

(** Both counts of a result are non-negative integers. *)
Definition whole (r : Result.t) : Prop :=
  exists e w : Z,
    0 <= e /\ 0 <= w /\
    Result.errors r = JS.of_Z e /\ Result.warnings r = JS.of_Z w.

(** Both totals of a metrics object are non-negative integers. *)
Definition counted (m : Metrics.t) : Prop :=
  exists e w : Z,
    0 <= e /\ 0 <= w /\
    Metrics.errors m = JS.of_Z e /\ Metrics.warnings m = JS.of_Z w.

End Recorded.

(** ** scripts/quality-gate.mjs *)

(** Outcome of a step that may throw; [Thrown] carries [error.message]. *)
Inductive attempt (A : Type) : Type :=
| Returned (a : A)
| Thrown (message : string).
Arguments Returned {A} a.
Arguments Thrown {A} message.

Module Check.
Record t : Type := mk {
  name : string;
  passed : bool;
  message : string;
  score : option Q   (* a JSON number or [null] *)
}.
End Check.

Module Gate.
Record t : Type := mk {
  passed : bool;
  checks : list Check.t;
  score : JS.number;
  recommendations : list string
}.
End Gate.

(** The three properties the gate reads from the parsed report; [None] is
    JSON's [null]. *)
Module Report.
Record t : Type := mk {
  qualityScore : option Q;
  errors : option Q;
  warnings : option Q
}.
End Report.

Inductive SecurityPattern : Type :=
| evalUsage | innerHTMLAssignment | documentWrite
| hardcodedPassword | hardcodedApiKey.

(** What the outside answers during one gate run. *)
Module Env.
Record t : Type := mk {
  argv : list string;
  (* existsSync, lint-quality run if absent, readFileSync, JSON.parse *)
  lintReport : attempt Report.t;
  typecheck : attempt unit;
  build : attempt unit;
  (* stdout of the find pipeline, then readFileSync per listed file *)
  sourceListing : attempt string;
  sourceContent : string -> option string;
  formatCheck : attempt unit;
  (* parseInt of the trimmed stdout of the grep pipeline *)
  todoCount : attempt JS.number;
  audit : attempt unit
}.
End Env.

Module QualityGate.

Definition minQualityScore : Z := 80.
Definition maxErrors : Z := 0.
Definition maxWarnings : Z := 10.

(** [new QualityGate()] *)
Definition constructor : Gate.t := Gate.mk false [] (JS.of_Z 0) [].

(** The default of [addCheck]'s last parameter. *)
Definition noScore : option Q := Some 0%Q.

(** ToNumber of a JSON number or [null]. *)
Definition toNumber (v : option Q) : JS.number :=
  match v with
  | Some q => JS.Fin q
  | None => JS.of_Z 0
  end.

Definition securityPatterns : list SecurityPattern :=
  [evalUsage; innerHTMLAssignment; documentWrite;
   hardcodedPassword; hardcodedApiKey].

Section Checks.

(** Rendering of a number inside a template literal, and [pattern.test]:
    both belong to the language runtime. Each checker is the change it
    makes to the gate's results; the value it also returns is ignored by
    [runAllChecks]. *)
Variable toString : JS.number -> string.
Variable test : SecurityPattern -> string -> bool.

Definition show (v : option Q) : string :=
  match v with
  | Some q => toString (JS.Fin q)
  | None => "null"
  end.

Definition addCheck (name : string) (passed : bool) (message : string)
    (score : option Q) (g : Gate.t) : Gate.t :=
  Gate.mk (Gate.passed g)
          (Gate.checks g ++ [Check.mk name passed message score])
          (Gate.score g)
          (if passed then Gate.recommendations g
           else Gate.recommendations g
                  ++ [("Fix: " ++ name ++ " - " ++ message)%string]).

Definition checkLintQuality (env : Env.t) (g : Gate.t) : Gate.t :=
  match Env.lintReport env with
  | Returned report =>
      let g :=
        addCheck "Lint Quality Score"
          (JS.geb (toNumber (Report.qualityScore report))
                  (JS.of_Z minQualityScore))
          (show (Report.qualityScore report) ++ "% (min: "
             ++ toString (JS.of_Z minQualityScore) ++ "%)")%string
          (Report.qualityScore report) g in
      let g :=
        addCheck "Error Count"
          (JS.leb (toNumber (Report.errors report)) (JS.of_Z maxErrors))
          (show (Report.errors report) ++ " errors (max: "
             ++ toString (JS.of_Z maxErrors) ++ ")")%string
          noScore g in
      addCheck "Warning Count"
        (JS.leb (toNumber (Report.warnings report)) (JS.of_Z maxWarnings))
        (show (Report.warnings report) ++ " warnings (max: "
           ++ toString (JS.of_Z maxWarnings) ++ ")")%string
        noScore g
  | Thrown message =>
      addCheck "Lint Quality" false
        ("Failed to check lint quality: " ++ message)%string noScore g
  end.

Definition checkTypeScript (env : Env.t) (g : Gate.t) : Gate.t :=
  match Env.typecheck env with
  | Returned _ =>
      addCheck "TypeScript" true "All TypeScript files compile successfully"
        noScore g
  | Thrown _ =>
      addCheck "TypeScript" false "TypeScript compilation errors detected"
        noScore g
  end.

Definition checkBuild (env : Env.t) (g : Gate.t) : Gate.t :=
  match Env.build env with
  | Returned _ =>
      addCheck "Build" true "Build process completes successfully"
        noScore g
  | Thrown _ =>
      addCheck "Build" false "Build process failed or timed out"
        noScore g
  end.

Definition nonEmpty (s : string) : bool :=
  match s with EmptyString => false | String _ _ => true end.

(** The matches found in one listed file; a file that cannot be read is
    skipped. *)
Definition issuesIn (env : Env.t) (file : string) : nat :=
  match Env.sourceContent env file with
  | Some content =>
      length (List.filter (fun p => test p content) securityPatterns)
  | None => 0%nat
  end.

Definition checkSecurity (env : Env.t) (g : Gate.t) : Gate.t :=
  match Env.sourceListing env with
  | Returned listing =>
      let files := List.filter nonEmpty (Str.split_lines listing) in
      let securityIssues :=
        fold_left (fun n file => (n + issuesIn env file)%nat) files 0%nat in
      addCheck "Security Scan" (Nat.eqb securityIssues 0)
        (if Nat.eqb securityIssues 0 then "No security issues detected"
         else (toString (JS.of_nat securityIssues)
                 ++ " potential security issues found")%string)
        noScore g
  | Thrown message =>
      addCheck "Security Scan" false
        ("Security check failed: " ++ message)%string noScore g
  end.

Definition checkFormatting (env : Env.t) (g : Gate.t) : Gate.t :=
  match Env.formatCheck env with
  | Returned _ =>
      addCheck "Formatting" true "Code formatting is consistent" noScore g
  | Thrown _ =>
      addCheck "Formatting" false "Code formatting issues detected"
        noScore g
  end.

Definition checkTodoComments (env : Env.t) (g : Gate.t) : Gate.t :=
  match Env.todoCount env with
  | Returned todoCount =>
      addCheck "TODO Comments" (JS.ltb todoCount (JS.of_Z 50))
        (toString todoCount ++ " TODO/FIXME comments found")%string
        noScore g
  | Thrown _ =>
      addCheck "TODO Comments" true "Unable to check TODO comments"
        noScore g
  end.

Definition checkDependencies (env : Env.t) (g : Gate.t) : Gate.t :=
  match Env.audit env with
  | Returned _ =>
      addCheck "Dependencies" true "No critical dependency vulnerabilities"
        noScore g
  | Thrown message =>
      let isVulnerabilityIssue := Str.includes message "audit" in
      addCheck "Dependencies" false
        (if isVulnerabilityIssue then "Dependency vulnerabilities detected"
         else "Dependency check failed")
        noScore g
  end.

Definition passedChecks (g : Gate.t) : nat :=
  length (List.filter Check.passed (Gate.checks g)).

Definition totalChecks (g : Gate.t) : nat := length (Gate.checks g).

Definition calculateScore (g : Gate.t) : Gate.t :=
  let score :=
    JS.round (JS.mul (JS.div (JS.of_nat (passedChecks g))
                             (JS.of_nat (totalChecks g)))
                     (JS.of_Z 100)) in
  Gate.mk (JS.geb score (JS.of_Z 85)) (Gate.checks g) score
          (Gate.recommendations g).

Definition includeBuild (env : Env.t) : bool :=
  existsb (String.eqb "--include-build") (Env.argv env).

(** The six checkers that always run. *)
Definition standardChecks (env : Env.t) : Gate.t :=
  let g := checkLintQuality env constructor in
  let g := checkTypeScript env g in
  let g := checkSecurity env g in
  let g := checkFormatting env g in
  let g := checkTodoComments env g in
  checkDependencies env g.

(** The checks of one gate run, before the score is computed. *)
Definition runChecks (env : Env.t) : Gate.t :=
  let g := standardChecks env in
  if includeBuild env then checkBuild env g else g.

Definition runAllChecks (env : Env.t) : Gate.t :=
  calculateScore (runChecks env).

(** The exit status [main] hands to [process.exit]. *)
Definition main (env : Env.t) : Z :=
  if Gate.passed (runAllChecks env) then 0 else 1.

(** The individual checkers of a gate run, by name. *)
Inductive Checker : Type :=
| LintQuality | TypeScript | Security | Formatting | TodoComments
| Dependencies.

Definition check (c : Checker) : Env.t -> Gate.t -> Gate.t :=
  match c with
  | LintQuality => checkLintQuality
  | TypeScript => checkTypeScript
  | Security => checkSecurity
  | Formatting => checkFormatting
  | TodoComments => checkTodoComments
  | Dependencies => checkDependencies
  end.

(** The guarded step of checker [c] throws an error with this message. *)
Definition throws (c : Checker) (env : Env.t) (message : string) : Prop :=
  match c with
  | LintQuality => Env.lintReport env = Thrown message
  | TypeScript => Env.typecheck env = Thrown message
  | Security => Env.sourceListing env = Thrown message
  | Formatting => Env.formatCheck env = Thrown message
  | TodoComments => Env.todoCount env = Thrown message
  | Dependencies => Env.audit env = Thrown message
  end.

(** What the [catch] block of checker [c] reports. *)
Definition caughtName (c : Checker) : string :=
  match c with
  | LintQuality => "Lint Quality"
  | TypeScript => "TypeScript"
  | Security => "Security Scan"
  | Formatting => "Formatting"
  | TodoComments => "TODO Comments"
  | Dependencies => "Dependencies"
  end.

Definition caughtPassed (c : Checker) : bool :=
  match c with
  | TodoComments => true
  | _ => false
  end.

Definition caughtMessage (c : Checker) (message : string) : string :=
  match c with
  | LintQuality => "Failed to check lint quality: " ++ message
  | TypeScript => "TypeScript compilation errors detected"
  | Security => "Security check failed: " ++ message
  | Formatting => "Code formatting issues detected"
  | TodoComments => "Unable to check TODO comments"
  | Dependencies =>
      if Str.includes message "audit"
      then "Dependency vulnerabilities detected"
      else "Dependency check failed"
  end%string.

End Checks.

End QualityGate.

(** ** Reading a number as a rational *)

Module Denote.

(** [x] is finite and denotes the rational [q]. *)
Definition denotes (x : JS.number) (q : Q) : Prop :=
  exists q' : Q, x = JS.Fin q' /\ q' == q.

End Denote.

(** ** The documented behaviour, in the words of the specification *)

Module Spec.

(** clamp(x, lo, hi) *)
Definition clamp (x lo hi : Q) : Q := Qmax lo (Qmin hi x).

(** round(x): the nearest integer, a half going up. *)
Definition round (x : Q) : Z := Qfloor (x + (1 # 2)).

(** [r] is [x] rounded to two decimal places: a whole number of
    hundredths, no further than half a hundredth from [x]. *)
Definition roundedTo2 (x r : Q) : Prop :=
  (exists k : Z, r == inject_Z k / 100) /\
  (- (1 # 200) <= r - x <= 1 # 200)%Q.

(** x rounded to two decimal places, a half hundredth going up. *)
Definition round2 (x : Q) : Q := inject_Z (round (x * 100)) / 100.

(** clamp(100 - (errors + warnings) / (10 * lintedPackages) * 100, 0, 100) *)
Definition clampedScore (errors warnings : Z) (lintedPackages : nat) : Q :=
  clamp (100 - inject_Z (errors + warnings)
               / (10 * inject_Z (Z.of_nat lintedPackages)) * 100)
        0 100.

(** The same, rounded to two decimal places. *)
Definition qualityScore (errors warnings : Z) (lintedPackages : nat) : Q :=
  round2 (clampedScore errors warnings lintedPackages).

(** round(total / batchSize) *)
Definition share (total batchSize : nat) : Z :=
  round (inject_Z (Z.of_nat total) / inject_Z (Z.of_nat batchSize)).

(** round(100 * passedChecks / totalChecks) *)
Definition gateScore (passedChecks totalChecks : nat) : Z :=
  round (100 * inject_Z (Z.of_nat passedChecks)
           / inject_Z (Z.of_nat totalChecks)).

(** The additive weight of section 4.2. *)
Definition weight (pkg : Package.t) : Z :=
  (if 1000000 <? Package.size pkg then 2
   else if 500000 <? Package.size pkg then 1 else 0)
  + (if Package.hasTypescript pkg then 1 else 0)
  + (if Package.hasTests pkg then 1 else 0)
  + (if LintQuality.criticalName (Package.name pkg) then 2
     else if LintQuality.importantName (Package.name pkg) then 1 else 0).

Definition tier (weight : Z) : Tier :=
  if 4 <=? weight then Heavy else if 2 <=? weight then Medium else Light.

(** Largest first: [a] may come before [b]. *)
Definition largerFirst (a b : Package.t) : Prop :=
  Package.size b <= Package.size a.

(** The package belongs to tier [t]. *)
Definition inTier (t : Tier) (pkg : Package.t) : bool :=
  match t, tier (weight pkg) with
  | Heavy, Heavy | Medium, Medium | Light, Light => true
  | _, _ => false
  end.

(** The name of a scanned package object matches a critical, an
    important pattern: what the name tests of the code give where they
    give anything. *)
Definition criticalPattern (name : Name.t) : bool :=
  match Categorize.criticalName name with
  | Categorize.Value b => b
  | Categorize.TypeError => false
  end.

Definition importantPattern (name : Name.t) : bool :=
  match Categorize.importantName name with
  | Categorize.Value b => b
  | Categorize.TypeError => false
  end.

(** The additive weight of section 4.2, of a scanned package object. *)
Definition scannedWeight (pkg : Scanned.t) : Z :=
  (if 1000000 <? Scanned.size pkg then 2
   else if 500000 <? Scanned.size pkg then 1 else 0)
  + (if Scanned.hasTypescript pkg then 1 else 0)
  + (if Scanned.hasTests pkg then 1 else 0)
  + (if criticalPattern (Scanned.name pkg) then 2
     else if importantPattern (Scanned.name pkg) then 1 else 0).

(** The scanned package object belongs to tier [t]. *)
Definition scannedInTier (t : Tier) (pkg : Scanned.t) : bool :=
  match t, tier (scannedWeight pkg) with
  | Heavy, Heavy | Medium, Medium | Light, Light => true
  | _, _ => false
  end.

(** The claim that [categorizePackages] is total: on every list of
    package objects it returns tiers that hold every package once. *)
Definition categorizerTotal : Prop :=
  forall packages : list Scanned.t,
    exists tiers : Categorize.Tiers,
      Categorize.categorizePackages packages = Categorize.Value tiers /\
      Permutation
        (Categorize.heavy tiers ++ Categorize.medium tiers
           ++ Categorize.light tiers) packages.

(** [sub] occurs in [s]: [s] is some text, then [sub], then some text. *)
Definition occurs (sub s : string) : Prop :=
  exists before after : string, s = (before ++ sub ++ after)%string.

(** The claim about one checker whose guarded step has thrown: the check
    it adds has failed and its message carries the error's message. *)
Definition caughtAsFailureAt (toString : JS.number -> string)
    (test : SecurityPattern -> string -> bool) (c : QualityGate.Checker)
    (env : Env.t) (message : string) (g : Gate.t) : Prop :=
  exists failure : Check.t,
    Gate.checks (QualityGate.check toString test c env g)
      = Gate.checks g ++ [failure]
    /\ Check.passed failure = false
    /\ Str.includes (Check.message failure) message = true.

(** The claim that every checker turns a thrown error into a failed check
    whose message carries the error's message. *)
Definition caughtAsFailure (toString : JS.number -> string)
    (test : SecurityPattern -> string -> bool) : Prop :=
  forall (c : QualityGate.Checker) (env : Env.t) (message : string)
         (g : Gate.t),
    QualityGate.throws c env message ->
    caughtAsFailureAt toString test c env message g.

End Spec.

(** ** Sample inputs *)

Module Sample.

Definition pkg (name : string) (size : Z) (hasTypescript hasTests : bool)
    : Package.t :=
  Package.mk name ("packages/" ++ name) 0 hasTypescript hasTests false size.

Definition editor : Package.t := pkg "editor-ui" 2000000 true true.
Definition workflow : Package.t := pkg "workflow" 600000 true false.
Definition utils : Package.t := pkg "utils" 600000 true false.
Definition apiTypes : Package.t := pkg "api-types" 600000 false true.
Definition config : Package.t := pkg "config" 1000 false false.
Definition constants : Package.t := pkg "constants" 2000 true false.

Definition packages : list Package.t :=
  [config; workflow; editor; utils; constants; apiTypes].

(** Packages of weight exactly 4, 3 and 1. *)
Definition weight4 : Package.t := pkg "core" 2000000 true false.
Definition weight3 : Package.t := pkg "cli" 600000 true false.
Definition weight1 : Package.t := pkg "tiny" 10 true false.

Definition boundary : list Package.t := [weight1; weight3; weight4].

(** Six lines that report an error. *)
Definition sixErrors : string :=
  Str.join Str.lineFeed
    ["a.ts 1:1 error no-unused-vars"; "a.ts 2:1 error no-undef";
     "b.ts 1:1 error no-unused-vars"; "b.ts 9:3 error eqeqeq";
     "c.ts 4:2 error no-var"; "c.ts 7:7 error semi"].

(** The medium batch succeeds with six errors; the light batch and every
    single-package invocation fail. *)
Definition execSync (command : string) : Exec.outcome :=
  if Str.includes command "--concurrency=4" then Exec.mk (Some sixErrors) 40
  else if Str.includes command "--concurrency=8" then Exec.mk None 300000
  else Exec.mk None 120000.

Definition relative (p : string) : string := p.

(** No report and no cache yet. *)
Definition world : World.t := World.mk None None packages 1000 [].

(** Twenty checks of which seventeen pass, twenty-five of which
    twenty-one pass. *)
Definition someChecks (passing failing : nat) : list Check.t :=
  repeat (Check.mk "ok" true "" (Some 0%Q)) passing
  ++ repeat (Check.mk "ko" false "" (Some 0%Q)) failing.

Definition gate85 : Gate.t := Gate.mk false (someChecks 17 3) (JS.of_Z 0) [].
Definition gate84 : Gate.t := Gate.mk false (someChecks 21 4) (JS.of_Z 0) [].

Definition render (x : JS.number) : string := "n".
Definition noMatch (p : SecurityPattern) (content : string) : bool := false.

(** Every external step of the gate throws. *)
Definition allThrow : Env.t :=
  Env.mk [] (Thrown "ENOENT") (Thrown "exit 2") (Thrown "exit 1")
         (Thrown "find failed") (fun _ => None) (Thrown "exit 1")
         (Thrown "spawn failed") (Thrown "audit exit 1").

End Sample.


(** ** printSummary *)

Module Summary.

Inductive Rating : Type := EXCELLENT | GOOD | FAIR | POOR.

(** The band [printSummary] prints for the score. *)
Definition rating (m : Metrics.t) : Rating :=
  if JS.geb (Metrics.qualityScore m) (JS.of_Z 95) then EXCELLENT
  else if JS.geb (Metrics.qualityScore m) (JS.of_Z 85) then GOOD
  else if JS.geb (Metrics.qualityScore m) (JS.of_Z 70) then FAIR
  else POOR.

(** [qualityScore - previousScore] *)
Definition improvement (m : Metrics.t) : JS.number :=
  JS.sub (Metrics.qualityScore m) (Metrics.previousScore m).

(** The arrow printed next to the score points up: [improvement >= 0]. *)
Definition trendUp (m : Metrics.t) : bool :=
  JS.geb (improvement m) (JS.of_Z 0).



End Summary.

(** ** Sums over recorded results *)

Module Totals.

(** The integer a count denotes. *)
Definition count (x : JS.number) : Z :=
  match x with
  | JS.Fin q => Qfloor q
  | _ => 0
  end.

Definition sumErrors (results : list Result.t) : Z :=
  fold_right (fun r total => count (Result.errors r) + total) 0 results.

Definition sumWarnings (results : list Result.t) : Z :=
  fold_right (fun r total => count (Result.warnings r) + total) 0 results.

(** The results held by [packageResults]. *)
Definition stored (m : Metrics.t) : list Result.t :=
  map snd (map_to_list (Metrics.packageResults m)).

End Totals.


(** ** The directory scan of getLintablePackages *)

Module FS.

(** Truthiness of [scripts.lint], [scripts.test], [scripts['test:unit']]. *)
Record Scripts : Type := mkScripts {
  lint : bool;
  test : bool;
  testUnit : bool
}.

(** What [JSON.parse] gives for a [package.json], as far as it is read. *)
Record Manifest : Type := mkManifest {
  name : Name.t;
  scripts : option Scripts;
  isPrivate : bool
}.

(** A directory entry: a regular file with its size and, when its text
    parses, what it parses to; or a directory with its modification time
    and entries. *)
Inductive Node : Type :=
| File (name : string) (size : Z) (json : option Manifest)
| Dir (name : string) (mtime : Z) (entries : list Node).

Definition nodeName (n : Node) : string :=
  match n with
  | File name _ _ => name
  | Dir name _ _ => name
  end.

(** [path.join(dir, name)] for an entry name. *)
Definition join (dir name : string) : string :=
  (dir ++ "/" ++ name)%string.

(** The entry [existsSync(path.join(dir, name))] finds. *)
Definition entry (name : string) (entries : list Node) : option Node :=
  List.find (fun n => String.eqb (nodeName n) name) entries.

Definition existsSync (name : string) (entries : list Node) : bool :=
  match entry name entries with
  | Some _ => true
  | None => false
  end.

(** One iteration of the loop of [calculateDirectorySize]. *)
Definition addSize (size : Z) (n : Node) : Z :=
  match n with
  | File name bytes _ =>
      if Str.startsWith name "." then size else size + bytes
  | Dir _ _ _ => size
  end.

Definition calculateDirectorySize (entries : list Node) : Z :=
  fold_left addSize entries 0.

(** The package record pushed for a directory whose manifest declares a
    lint script. *)
Definition package (fullPath : string) (mtime : Z) (entries : list Node)
    (manifest : Manifest) (s : Scripts) : Scanned.t :=
  Scanned.mk (name manifest) fullPath mtime
             (existsSync "tsconfig.json" entries)
             (test s || testUnit s)
             (isPrivate manifest)
             (calculateDirectorySize entries).

(** What one entry of a scanned directory contributes: nothing for a file;
    for a directory with a [package.json], its package if the manifest
    parses and has a lint script (a manifest that cannot be read or parsed
    is a warning); for a directory without one, what its own entries
    contribute. *)
Fixpoint scanEntry (dir : string) (n : Node) : list Scanned.t :=
  match n with
  | File _ _ _ => []
  | Dir name mtime entries =>
      let fullPath := join dir name in
      match entry "package.json" entries with
      | Some (File _ _ (Some manifest)) =>
          match scripts manifest with
          | Some s =>
              if lint s then [package fullPath mtime entries manifest s]
              else []
          | None => []
          end
      | Some _ => []
      | None => List.flat_map (scanEntry fullPath) entries
      end
  end.

(** [scanDirectory(dir)]; [None] when [dir] does not exist. *)
Definition scanDirectory (dir : string) (entries : option (list Node))
    : list Scanned.t :=
  match entries with
  | Some entries => List.flat_map (scanEntry dir) entries
  | None => []
  end.

(** The same entry with nothing beneath it. *)
Definition prune (n : Node) : Node :=
  match n with
  | File name size json => File name size json
  | Dir name mtime _ => Dir name mtime []
  end.

(** A regular file whose name does not start with a dot. *)
Definition counted (n : Node) : bool :=
  match n with
  | File name _ _ => negb (Str.startsWith name ".")
  | Dir _ _ _ => false
  end.

Definition bytes (n : Node) : Z :=
  match n with
  | File _ size _ => size
  | Dir _ _ _ => 0
  end.

(** The number of directories of a tree. *)
Fixpoint directories (n : Node) : nat :=
  match n with
  | File _ _ _ => 0
  | Dir _ _ entries => S (list_sum (map directories entries))
  end.

Definition slash : Ascii.ascii := Ascii.ascii_of_nat 47.

(** A name without a path separator. *)
Fixpoint plain (name : string) : bool :=
  match name with
  | EmptyString => true
  | String c rest => negb (Ascii.eqb c slash) && plain rest
  end.

Fixpoint distinct (names : list string) : bool :=
  match names with
  | [] => true
  | name :: rest => negb (existsb (String.eqb name) rest) && distinct rest
  end.

(** A tree as a file system has it: names are plain and the entries of
    a directory have different names. *)
Fixpoint wellFormed (n : Node) : bool :=
  match n with
  | File name _ _ => plain name
  | Dir name _ entries =>
      plain name && distinct (map nodeName entries)
      && forallb wellFormed entries
  end.

End FS.

(** ** From the report file to the gate *)

Module Handoff.

(** What [JSON.parse(readFileSync(reportFile))] gives the gate for a
    report that [finalize] wrote. *)
Definition parsed (m : Metrics.t) : Report.t :=
  Report.mk (JS.json (Metrics.qualityScore m))
            (JS.json (Metrics.errors m))
            (JS.json (Metrics.warnings m)).

(** The text [addCheck] pushes to [recommendations] for a failed check. *)
Definition recommendation (c : Check.t) : string :=
  ("Fix: " ++ Check.name c ++ " - " ++ Check.message c)%string.

Definition failed (c : Check.t) : bool := negb (Check.passed c).

Definition failedChecks (g : Gate.t) : nat :=
  length (List.filter failed (Gate.checks g)).

(** The recommendations are those of the failed checks, in order. *)
Definition advised (g : Gate.t) : Prop :=
  Gate.recommendations g
  = map recommendation (List.filter failed (Gate.checks g)).

End Handoff.

(** ** More sample inputs *)

Module Sample2.

(** Every invocation fails. *)
Definition alwaysFail (command : string) : Exec.outcome :=
  Exec.mk None 120000.

(** A tree with a package, a directory to descend into, and a package
    whose manifest does not parse. *)
Definition cliDir : FS.Node :=
  FS.Dir "cli" 1700
    [FS.File "package.json" 900
       (Some (FS.mkManifest (Name.Text "n8n") (Some (FS.mkScripts true true false))
                false));
     FS.File "tsconfig.json" 300 None;
     FS.File ".eslintrc.js" 150 None;
     FS.File "index.ts" 4000 None;
     FS.Dir "src"  1701
       [FS.File "package.json" 10
          (Some (FS.mkManifest (Name.Text "inner") (Some (FS.mkScripts true false false))
                   false))]].

Definition tree : list FS.Node :=
  [cliDir;
   FS.Dir "@n8n" 1600
     [FS.Dir "config" 1601
        [FS.File "package.json" 500
           (Some (FS.mkManifest (Name.Text "@n8n/config")
                    (Some (FS.mkScripts true false false)) true))];
      FS.Dir "broken" 1602 [FS.File "package.json" 7 None]];
   FS.File "README.md" 100 None].

(** A report store holding an earlier run with score 85. *)
Definition earlier : Metrics.t :=
  fst (LintQuality.runQualityLint Sample.relative Sample.execSync
         Sample.packages Sample.world).

(** Every step of the gate succeeds and the lint report is the sample
    run's. *)
Definition allGood : Env.t :=
  Env.mk [] (Returned (Handoff.parsed earlier)) (Returned tt) (Returned tt)
         (Returned "a.ts") (fun _ => Some "const x = 1") (Returned tt)
         (Returned (JS.of_Z 3)) (Returned tt).

(** A directory whose manifest declares a lint script and has no name,
    and the package object the scan pushes for it under [packages]. *)
Definition anonymous : FS.Node :=
  FS.Dir "anon" 1800
    [FS.File "package.json" 120
       (Some (FS.mkManifest Name.NoIncludes
                (Some (FS.mkScripts true false false)) false));
     FS.File "index.js" 40 None].

Definition nameless : Scanned.t :=
  Scanned.mk Name.NoIncludes "packages/anon" 1800 false false false 160.

(** Three packages of one name in different directories: one for each
    tier. *)
Definition heavyTwin : Package.t :=
  Package.mk "twin" "packages/big/twin" 0 true true false 2000000.
Definition mediumTwin : Package.t :=
  Package.mk "twin" "packages/mid/twin" 0 true false false 600000.
Definition lightTwin : Package.t :=
  Package.mk "twin" "packages/small/twin" 0 false false false 10.

(** The same with the build check requested on the command line. *)
Definition withBuild : Env.t :=
  Env.mk ["node"; "scripts/quality-gate.mjs"; "--include-build"]
         (Returned (Handoff.parsed earlier)) (Returned tt) (Returned tt)
         (Returned "a.ts") (fun _ => Some "const x = 1") (Returned tt)
         (Returned (JS.of_Z 3)) (Returned tt).

End Sample2.


(** * Properties *)

(** ** Arithmetic of the number model *)

Module JSFacts.
Import Denote.

Lemma fin_eq (p q : Q) : p == q -> JS.fin p = JS.fin q.
Proof. intros H. unfold JS.fin. f_equal. now apply Qred_complete. Qed.

Lemma fin_of_Z (z : Z) : JS.fin (inject_Z z) = JS.of_Z z.
Proof. unfold JS.fin, JS.of_Z. now rewrite inject_Z_Qred. Qed.

Lemma denotes_fin (q : Q) : denotes (JS.fin q) q.
Proof. exists (Qred q). split; [reflexivity | apply Qred_correct]. Qed.

Lemma denotes_Fin (q : Q) : denotes (JS.Fin q) q.
Proof. exists q. split; reflexivity. Qed.

Lemma denotes_of_Z (z : Z) : denotes (JS.of_Z z) (inject_Z z).
Proof. apply denotes_Fin. Qed.

Lemma denotes_compat (x : JS.number) (p q : Q) :
  p == q -> denotes x p -> denotes x q.
Proof.
  intros Hpq (p' & -> & Hp). exists p'. split; [reflexivity|].
  now rewrite Hp.
Qed.

Lemma denotes_add x y a b :
  denotes x a -> denotes y b -> denotes (JS.add x y) (a + b).
Proof.
  intros (a' & -> & Ha) (b' & -> & Hb). cbn.
  eapply denotes_compat; [|apply denotes_fin]. now rewrite Ha, Hb.
Qed.

Lemma denotes_sub x y a b :
  denotes x a -> denotes y b -> denotes (JS.sub x y) (a - b).
Proof.
  intros (a' & -> & Ha) (b' & -> & Hb). cbn.
  eapply denotes_compat; [|apply denotes_fin]. now rewrite Ha, Hb.
Qed.

Lemma denotes_mul x y a b :
  denotes x a -> denotes y b -> denotes (JS.mul x y) (a * b).
Proof.
  intros (a' & -> & Ha) (b' & -> & Hb). cbn.
  eapply denotes_compat; [|apply denotes_fin]. now rewrite Ha, Hb.
Qed.

Lemma Qeq_bool_false (a b : Q) : ~ a == b -> Qeq_bool a b = false.
Proof.
  intros H. destruct (Qeq_bool a b) eqn:E; [|reflexivity].
  apply Qeq_bool_iff in E. contradiction.
Qed.

(** Division by a non-zero number is the rational quotient, in lowest
    terms. *)
Lemma div_fin x y a b :
  denotes x a -> denotes y b -> ~ b == 0 -> JS.div x y = JS.fin (a / b).
Proof.
  intros (a' & -> & Ha) (b' & -> & Hb) Hnz. cbn.
  rewrite Qeq_bool_false by (now rewrite Hb).
  apply fin_eq. now rewrite Ha, Hb.
Qed.

Lemma denotes_div x y a b :
  denotes x a -> denotes y b -> ~ b == 0 -> denotes (JS.div x y) (a / b).
Proof.
  intros Hx Hy Hnz. rewrite (div_fin x y a b) by assumption.
  apply denotes_fin.
Qed.

Lemma denotes_min x y a b :
  denotes x a -> denotes y b -> denotes (JS.min x y) (Qmin a b).
Proof.
  intros (a' & -> & Ha) (b' & -> & Hb). cbn.
  destruct (Qle_bool a' b') eqn:E.
  - apply Qle_bool_iff in E. exists a'. split; [reflexivity|].
    rewrite <- Ha, <- Hb. symmetry. now apply Q.min_l.
  - exists b'. split; [reflexivity|].
    rewrite <- Ha, <- Hb. symmetry. apply Q.min_r.
    apply Qlt_le_weak, Qnot_le_lt. intros H.
    apply Qle_bool_iff in H. congruence.
Qed.

Lemma denotes_max x y a b :
  denotes x a -> denotes y b -> denotes (JS.max x y) (Qmax a b).
Proof.
  intros (a' & -> & Ha) (b' & -> & Hb). cbn.
  destruct (Qle_bool a' b') eqn:E.
  - apply Qle_bool_iff in E. exists b'. split; [reflexivity|].
    rewrite <- Ha, <- Hb. symmetry. now apply Q.max_r.
  - exists a'. split; [reflexivity|].
    rewrite <- Ha, <- Hb. symmetry. apply Q.max_l.
    apply Qlt_le_weak, Qnot_le_lt. intros H.
    apply Qle_bool_iff in H. congruence.
Qed.

Lemma round_of_Z x a : denotes x a -> JS.round x = JS.of_Z (Spec.round a).
Proof.
  intros (a' & -> & Ha). unfold JS.round, Spec.round. f_equal.
  apply Qfloor_comp. now rewrite Ha.
Qed.

Lemma add_of_Z (a b : Z) : JS.add (JS.of_Z a) (JS.of_Z b) = JS.of_Z (a + b).
Proof.
  cbn. rewrite <- fin_of_Z. apply fin_eq. now rewrite inject_Z_plus.
Qed.

Lemma or0_of_Z (z : Z) : JS.or0 (JS.of_Z z) = JS.of_Z z.
Proof.
  unfold JS.or0, JS.of_Z. destruct (Qeq_bool (inject_Z z) 0) eqn:E;
    [|reflexivity].
  apply Qeq_bool_iff in E. f_equal.
  assert (z = 0) as -> by (now apply inject_Z_injective).
  reflexivity.
Qed.

(** A number in lowest terms that denotes zero is the zero of the model. *)
Lemma or0_fin (q : Q) : JS.or0 (JS.fin q) = JS.fin q.
Proof.
  unfold JS.or0, JS.fin. destruct (Qeq_bool (Qred q) 0) eqn:E;
    [|reflexivity].
  apply Qeq_bool_iff in E. f_equal.
  change 0%Q with (Qred 0). apply Qred_complete.
  now rewrite <- (Qred_correct q).
Qed.

Lemma round_nonneg (q : Q) : (0 <= q)%Q -> 0 <= Spec.round q.
Proof.
  intros H. unfold Spec.round. change 0 with (Qfloor 0).
  apply Qfloor_resp_le. lra.
Qed.

(** [Spec.round] is the nearest integer. *)
Lemma round_nearest (q : Q) :
  (inject_Z (Spec.round q) - (1 # 2) <= q)%Q /\
  (q < inject_Z (Spec.round q) + (1 # 2))%Q.
Proof.
  unfold Spec.round. split.
  - pose proof (Qfloor_le (q + (1 # 2))) as H. lra.
  - pose proof (Qlt_floor (q + (1 # 2))) as H.
    rewrite inject_Z_plus in H. change (inject_Z 1) with 1%Q in H. lra.
Qed.

End JSFacts.

(** ** The quality score *)

Module ScoreFacts.
Import Denote JSFacts.

Lemma clamp_bounds (x lo hi : Q) :
  (lo <= hi)%Q -> (lo <= Spec.clamp x lo hi <= hi)%Q.
Proof.
  intros H. unfold Spec.clamp. split.
  - apply Q.le_max_l.
  - apply Q.max_lub; [assumption | apply Q.le_min_l].
Qed.

Lemma clamp_low (x lo hi : Q) :
  (lo <= hi)%Q -> (x <= lo)%Q -> Spec.clamp x lo hi == lo.
Proof.
  intros H Hx. unfold Spec.clamp.
  apply Q.max_l. apply Qle_trans with x; [apply Q.le_min_r | assumption].
Qed.

Lemma clamp_high (x lo hi : Q) :
  (lo <= hi)%Q -> (hi <= x)%Q -> Spec.clamp x lo hi == hi.
Proof.
  intros H Hx. unfold Spec.clamp.
  rewrite (Q.min_l hi x) by assumption. now apply Q.max_r.
Qed.

Lemma round2_compat (x y : Q) : x == y -> Spec.round2 x == Spec.round2 y.
Proof.
  intros H. unfold Spec.round2, Spec.round.
  rewrite (Qfloor_comp (x * 100 + (1 # 2)) (y * 100 + (1 # 2)));
    [reflexivity | now rewrite H].
Qed.

Lemma round2_bounds (x : Q) :
  (0 <= x <= 100)%Q -> (0 <= Spec.round2 x <= 100)%Q.
Proof.
  intros [H0 H1]. unfold Spec.round2, Spec.round.
  assert (0 <= Qfloor (x * 100 + (1 # 2)) <= 10000) as [Hl Hu].
  { split.
    - change 0 with (Qfloor 0). apply Qfloor_resp_le. lra.
    - change 10000 with (Qfloor (10000 + (1 # 2))).
      apply Qfloor_resp_le. lra. }
  rewrite Zle_Qle in Hl, Hu.
  change (inject_Z 0) with 0%Q in Hl.
  change (inject_Z 10000) with 10000%Q in Hu.
  split.
  - apply Qle_shift_div_l; lra.
  - apply Qle_shift_div_r; lra.
Qed.

(** Within half a hundredth of the value it rounds. *)
Lemma round2_nearest (x : Q) :
  (Spec.round2 x - (1 # 200) <= x)%Q /\ (x < Spec.round2 x + (1 # 200))%Q.
Proof.
  unfold Spec.round2.
  destruct (round_nearest (x * 100)) as [Hl Hu].
  set (k := inject_Z (Spec.round (x * 100))) in *.
  assert (k / 100 == k * (1 # 100))%Q as -> by (field).
  split; lra.
Qed.

Lemma round2_roundedTo2 (x : Q) : Spec.roundedTo2 x (Spec.round2 x).
Proof.
  split.
  - exists (Spec.round (x * 100)). reflexivity.
  - destruct (round2_nearest x). split; lra.
Qed.

Lemma issues_ratio (t : Z) (n : nat) :
  (1 <= n)%nat ->
  (inject_Z t / (10 * inject_Z (Z.of_nat n)) * 100
   == inject_Z t * (10 # 1) / inject_Z (Z.of_nat n))%Q.
Proof.
  intros Hn. field.
  change 0%Q with (inject_Z 0). rewrite inject_Z_injective. lia.
Qed.

(** What [calculateQualityScore] stores, for totals that are integers
    and at least one linted package. *)
Lemma score_spec (m : Metrics.t) (e w : Z) :
  Metrics.errors m = JS.of_Z e ->
  Metrics.warnings m = JS.of_Z w ->
  (1 <= Metrics.lintedPackages m)%nat ->
  LintQuality.score m
  = JS.fin (Spec.qualityScore e w (Metrics.lintedPackages m)).
Proof.
  intros He Hw Hn. unfold LintQuality.score. rewrite He, Hw, add_of_Z.
  set (n := Metrics.lintedPackages m) in *.
  assert (~ (10 * inject_Z (Z.of_nat n) == 0)%Q) as Hnz.
  { intros H. change (10 * inject_Z (Z.of_nat n))%Q
      with (inject_Z 10 * inject_Z (Z.of_nat n))%Q in H.
    rewrite <- inject_Z_mult in H. change 0%Q with (inject_Z 0) in H.
    rewrite inject_Z_injective in H. lia. }
  assert (denotes (JS.mul (JS.of_nat n) (JS.of_Z 10))
                  (10 * inject_Z (Z.of_nat n))) as Hmax.
  { eapply denotes_compat;
      [|apply denotes_mul; [apply denotes_of_Z | apply denotes_of_Z]].
    change (inject_Z 10) with 10%Q. ring. }
  pose proof (denotes_div _ _ _ _ (denotes_of_Z (e + w)) Hmax Hnz) as Hq.
  pose proof (denotes_mul _ _ _ _ Hq (denotes_of_Z 100)) as Hp.
  pose proof (denotes_sub _ _ _ _ (denotes_of_Z 100) Hp) as Hs.
  pose proof (denotes_min _ _ _ _ (denotes_of_Z 100) Hs) as Hmin.
  pose proof (denotes_max _ _ _ _ (denotes_of_Z 0) Hmin) as Hclamp.
  pose proof (denotes_mul _ _ _ _ Hclamp (denotes_of_Z 100)) as Hscaled.
  rewrite (round_of_Z _ _ Hscaled).
  rewrite (div_fin _ _ _ _ (denotes_of_Z _) (denotes_of_Z 100))
    by discriminate.
  reflexivity.
Qed.

Lemma score_perfect (n : nat) :
  (1 <= n)%nat -> JS.fin (Spec.qualityScore 0 0 n) = JS.of_Z 100.
Proof.
  intros Hn. rewrite <- fin_of_Z. apply fin_eq.
  unfold Spec.qualityScore, Spec.clampedScore.
  rewrite (round2_compat _ 100); [reflexivity|].
  apply clamp_high; [discriminate|].
  rewrite issues_ratio by assumption.
  change (inject_Z (0 + 0)) with 0%Q.
  unfold Qdiv. rewrite !Qmult_0_l. discriminate.
Qed.

Lemma score_floor (e w : Z) (n : nat) :
  (1 <= n)%nat -> 10 * Z.of_nat n <= e + w ->
  JS.fin (Spec.qualityScore e w n) = JS.of_Z 0.
Proof.
  intros Hn Hbig. rewrite <- fin_of_Z. apply fin_eq.
  unfold Spec.qualityScore, Spec.clampedScore.
  rewrite (round2_compat _ 0); [reflexivity|].
  apply clamp_low; [discriminate|].
  rewrite issues_ratio by assumption.
  assert (100 <= inject_Z (e + w) * (10 # 1) / inject_Z (Z.of_nat n))%Q;
    [|lra].
  assert (0 < inject_Z (Z.of_nat n))%Q as Hpos.
  { change 0%Q with (inject_Z 0). rewrite <- Zlt_Qlt. lia. }
  apply Qle_shift_div_l; [assumption|].
  rewrite Zle_Qle in Hbig. rewrite inject_Z_mult in Hbig.
  change (inject_Z 10) with 10%Q in Hbig. lra.
Qed.

Lemma score_in_range (e w : Z) (n : nat) :
  (0 <= Spec.qualityScore e w n <= 100)%Q.
Proof.
  unfold Spec.qualityScore, Spec.clampedScore.
  apply round2_bounds, clamp_bounds. discriminate.
Qed.

Lemma fin_in_range (q : Q) :
  (0 <= q <= 100)%Q ->
  JS.leb (JS.of_Z 0) (JS.fin q) = true /\
  JS.leb (JS.fin q) (JS.of_Z 100) = true.
Proof.
  intros [H0 H1]. unfold JS.fin, JS.of_Z, JS.leb.
  split; apply Qle_bool_iff; rewrite Qred_correct; assumption.
Qed.

End ScoreFacts.

(** ** The categorizer *)

Module CategorizeFacts.

Lemma insert_perm {A} (cmp : A -> A -> Z) (x : A) (l : list A) :
  Permutation (Arr.insert cmp x l) (x :: l).
Proof.
  induction l as [|y l IH]; cbn; [reflexivity|].
  destruct (cmp x y <=? 0); [reflexivity|].
  rewrite IH. apply perm_swap.
Qed.

Lemma sort_perm {A} (cmp : A -> A -> Z) (l : list A) :
  Permutation (Arr.sort cmp l) l.
Proof.
  induction l as [|x l IH]; cbn; [reflexivity|].
  rewrite insert_perm. now apply perm_skip.
Qed.

Lemma insert_in {A} (cmp : A -> A -> Z) (x y : A) (l : list A) :
  In y (Arr.insert cmp x l) <-> y = x \/ In y l.
Proof.
  induction l as [|z l IH]; cbn; [intuition|].
  destruct (cmp x z <=? 0); cbn; rewrite ?IH; intuition.
Qed.

Lemma insert_sorted (x : Package.t) (l : list Package.t) :
  StronglySorted Spec.largerFirst l ->
  StronglySorted Spec.largerFirst
    (Arr.insert LintQuality.bySizeDescending x l).
Proof.
  induction 1 as [|y l Hl IH Hy]; cbn.
  - repeat constructor.
  - unfold LintQuality.bySizeDescending at 1.
    destruct (Package.size y - Package.size x <=? 0) eqn:E.
    + apply Z.leb_le in E. constructor; [now constructor|].
      constructor; [unfold Spec.largerFirst; lia|].
      eapply List.Forall_impl; [|exact Hy].
      unfold Spec.largerFirst. intros z Hz. lia.
    + apply Z.leb_gt in E. constructor; [assumption|].
      apply List.Forall_forall. intros z Hz. apply insert_in in Hz.
      destruct Hz as [-> | Hz].
      * unfold Spec.largerFirst. lia.
      * revert z Hz. now apply List.Forall_forall.
Qed.

(** The packages are bucketed in descending order of size. *)
Lemma sort_sorted (l : list Package.t) :
  StronglySorted Spec.largerFirst (Arr.sort LintQuality.bySizeDescending l).
Proof.
  induction l as [|x l IH]; cbn; [constructor | now apply insert_sorted].
Qed.

Lemma filter_sorted (f : Package.t -> bool) (l : list Package.t) :
  StronglySorted Spec.largerFirst l ->
  StronglySorted Spec.largerFirst (List.filter f l).
Proof.
  induction 1 as [|y l Hl IH Hy]; cbn; [constructor|].
  destruct (f y); [|assumption].
  constructor; [assumption|].
  apply List.Forall_forall. intros z Hz. apply filter_In in Hz.
  destruct Hz as [Hz _]. revert z Hz. now apply List.Forall_forall.
Qed.

Lemma weight_spec (pkg : Package.t) :
  LintQuality.totalWeight pkg = Spec.weight pkg.
Proof.
  unfold LintQuality.totalWeight, Spec.weight, LintQuality.sizeWeight,
    LintQuality.complexityWeight, LintQuality.nameWeight.
  rewrite !Z.gtb_ltb. lia.
Qed.

Lemma bucket_tier (acc : Tiers.t) (pkg : Package.t) :
  LintQuality.bucket acc pkg
  = match Spec.tier (Spec.weight pkg) with
    | Heavy =>
        Tiers.mk (Tiers.heavy acc ++ [pkg]) (Tiers.medium acc)
                 (Tiers.light acc)
    | Medium =>
        Tiers.mk (Tiers.heavy acc) (Tiers.medium acc ++ [pkg])
                 (Tiers.light acc)
    | Light =>
        Tiers.mk (Tiers.heavy acc) (Tiers.medium acc)
                 (Tiers.light acc ++ [pkg])
    end.
Proof.
  unfold LintQuality.bucket, Spec.tier.
  rewrite weight_spec, !Z.geb_leb.
  now destruct (4 <=? Spec.weight pkg), (2 <=? Spec.weight pkg).
Qed.

(** The bucketing loop splits its input into three filters. *)
Lemma bucket_fold (l : list Package.t) (acc : Tiers.t) :
  fold_left LintQuality.bucket l acc
  = Tiers.mk (Tiers.heavy acc ++ List.filter (Spec.inTier Heavy) l)
             (Tiers.medium acc ++ List.filter (Spec.inTier Medium) l)
             (Tiers.light acc ++ List.filter (Spec.inTier Light) l).
Proof.
  revert acc. induction l as [|pkg l IH]; intros acc; cbn [fold_left].
  - cbn. rewrite !app_nil_r. now destruct acc.
  - rewrite IH, bucket_tier. cbn [List.filter].
    set (fh := List.filter (Spec.inTier Heavy) l).
    set (fm := List.filter (Spec.inTier Medium) l).
    set (fl := List.filter (Spec.inTier Light) l).
    unfold Spec.inTier.
    destruct (Spec.tier (Spec.weight pkg)); cbn; now rewrite <- app_assoc.
Qed.

Lemma categorize_filters (packages : list Package.t) :
  LintQuality.categorizePackages packages
  = let sorted := Arr.sort LintQuality.bySizeDescending packages in
    Tiers.mk (List.filter (Spec.inTier Heavy) sorted)
             (List.filter (Spec.inTier Medium) sorted)
             (List.filter (Spec.inTier Light) sorted).
Proof. unfold LintQuality.categorizePackages. now rewrite bucket_fold. Qed.

(** Within the heavy tier, processed one by one, larger packages come
    first. *)
Lemma heavy_largest_first (packages : list Package.t) :
  StronglySorted Spec.largerFirst
    (Tiers.heavy (LintQuality.categorizePackages packages)).
Proof.
  rewrite categorize_filters. cbn. apply filter_sorted, sort_sorted.
Qed.

Lemma three_filters_perm (l : list Package.t) :
  Permutation
    (List.filter (Spec.inTier Heavy) l ++ List.filter (Spec.inTier Medium) l
       ++ List.filter (Spec.inTier Light) l) l.
Proof.
  induction l as [|pkg l IH]; cbn [List.filter]; [reflexivity|].
  revert IH.
  set (fh := List.filter (Spec.inTier Heavy) l).
  set (fm := List.filter (Spec.inTier Medium) l).
  set (fl := List.filter (Spec.inTier Light) l).
  intros IH. unfold Spec.inTier.
  destruct (Spec.tier (Spec.weight pkg)); cbn.
  - now apply perm_skip.
  - rewrite <- Permutation_middle. now apply perm_skip.
  - rewrite app_assoc, <- Permutation_middle, <- app_assoc.
    now apply perm_skip.
Qed.

Lemma tiers_perm (packages : list Package.t) :
  let tiers := LintQuality.categorizePackages packages in
  Permutation
    (Tiers.heavy tiers ++ Tiers.medium tiers ++ Tiers.light tiers) packages.
Proof.
  cbn zeta. rewrite categorize_filters. cbn.
  rewrite three_filters_perm. apply sort_perm.
Qed.

Lemma in_sort (packages : list Package.t) (pkg : Package.t) :
  In pkg (Arr.sort LintQuality.bySizeDescending packages) <-> In pkg packages.
Proof.
  split; apply Permutation_in; [|symmetry]; apply sort_perm.
Qed.

Lemma tier_membership (packages : list Package.t) (t : Tier)
    (pkg : Package.t) :
  In pkg (List.filter (Spec.inTier t)
            (Arr.sort LintQuality.bySizeDescending packages))
  <-> In pkg packages /\ Spec.tier (Spec.weight pkg) = t.
Proof.
  rewrite filter_In, in_sort. unfold Spec.inTier.
  destruct t, (Spec.tier (Spec.weight pkg)); intuition congruence.
Qed.

Lemma tier_bounds (x : Z) :
  (Spec.tier x = Heavy <-> 4 <= x) /\
  (Spec.tier x = Medium <-> 2 <= x < 4) /\
  (Spec.tier x = Light <-> x < 2).
Proof.
  unfold Spec.tier.
  destruct (4 <=? x) eqn:E4; destruct (2 <=? x) eqn:E2;
    repeat split; intros; try congruence; try lia.
Qed.

End CategorizeFacts.

(** ** What a run records *)

Module RunFacts.
Import Recorded.

Lemma recordList_app (l1 l2 : list (string * Result.t)) (m : Metrics.t) :
  recordList (l1 ++ l2) m = recordList l2 (recordList l1 m).
Proof. apply fold_left_app. Qed.

Lemma recordList_lintedPackages l m :
  Metrics.lintedPackages (recordList l m)
  = (Metrics.lintedPackages m + length l)%nat.
Proof.
  revert m. induction l as [|[k r] l IH]; intros m; cbn.
  - lia.
  - unfold recordList in IH. rewrite IH. cbn. lia.
Qed.

Lemma recordList_previousScore l m :
  Metrics.previousScore (recordList l m) = Metrics.previousScore m.
Proof.
  revert m. induction l as [|[k r] l IH]; intros m; cbn; [reflexivity|].
  unfold recordList in IH. now rewrite IH.
Qed.

Lemma recordList_totalPackages l m :
  Metrics.totalPackages (recordList l m) = Metrics.totalPackages m.
Proof.
  revert m. induction l as [|[k r] l IH]; intros m; cbn; [reflexivity|].
  unfold recordList in IH. now rewrite IH.
Qed.

Lemma addPackageResult_counted k r m :
  whole r -> counted m -> counted (LintQuality.addPackageResult k r m).
Proof.
  intros (re & rw & Hre & Hrw & Ere & Erw) (e & w & He & Hw & Ee & Ew).
  exists (e + re), (w + rw). cbn.
  rewrite Ee, Ew, Ere, Erw, !JSFacts.or0_of_Z, !JSFacts.add_of_Z.
  repeat split; lia.
Qed.

Lemma recordList_counted l m :
  Forall (fun entry => whole (snd entry)) l ->
  counted m -> counted (recordList l m).
Proof.
  revert m. induction l as [|[k r] l IH]; intros m Hl Hm; cbn;
    [assumption|].
  inversion Hl as [|? ? Hr Hl']; subst.
  apply IH; [assumption|]. now apply addPackageResult_counted.
Qed.

(** A name that no entry carries keeps what the map had for it. *)
Lemma lookup_recordList_other (k : string) l m :
  ~ In k (map fst l) ->
  Metrics.packageResults (recordList l m) !! k
  = Metrics.packageResults m !! k.
Proof.
  revert m. induction l as [|[k' r] l IH]; intros m Hk; cbn;
    [reflexivity|].
  cbn in Hk. unfold recordList in IH. rewrite IH by tauto. cbn.
  apply lookup_insert_ne. tauto.
Qed.

(** An entry that no later entry shares its name with is what the map
    holds for that name. *)
Lemma lookup_recordList_last (k : string) (r : Result.t) l1 l2 m :
  ~ In k (map fst l2) ->
  Metrics.packageResults (recordList (l1 ++ (k, r) :: l2) m) !! k = Some r.
Proof.
  intros Hk. rewrite recordList_app.
  change (recordList ((k, r) :: l2) (recordList l1 m))
    with (recordList l2
            (LintQuality.addPackageResult k r (recordList l1 m))).
  rewrite lookup_recordList_other by assumption.
  cbn. apply lookup_insert_eq.
Qed.

(** When the entries under a name all carry the same result, the map
    holds that result for the name. *)
Lemma lookup_recordList_same (k : string) (r : Result.t) l m :
  In k (map fst l) ->
  (forall r', In (k, r') l -> r' = r) ->
  Metrics.packageResults (recordList l m) !! k = Some r.
Proof.
  revert m. induction l as [|[k' r'] l IH]; intros m Hin Hsame;
    [destruct Hin|].
  change (Metrics.packageResults
            (recordList l (LintQuality.addPackageResult k' r' m)) !! k
          = Some r).
  destruct (in_dec String.string_dec k (map fst l)) as [Hlater | Hlast].
  - apply IH; [assumption|]. intros r0 H0. apply Hsame. now right.
  - destruct Hin as [E | Hin]; [|contradiction]. cbn in E. subst k'.
    rewrite (Hsame r') by now left.
    rewrite lookup_recordList_other by assumption.
    cbn. apply lookup_insert_eq.
Qed.

(** Every name an entry carries has a result in the map, and it is the
    result of an entry under that name. *)
Lemma lookup_recordList_some (k : string) l m :
  In k (map fst l) ->
  exists r, In (k, r) l /\
            Metrics.packageResults (recordList l m) !! k = Some r.
Proof.
  revert m. induction l as [|[k' r'] l IH]; intros m Hin; [destruct Hin|].
  change (exists r,
            In (k, r) ((k', r') :: l) /\
            Metrics.packageResults
              (recordList l (LintQuality.addPackageResult k' r' m)) !! k
            = Some r).
  destruct (in_dec String.string_dec k (map fst l)) as [Hlater | Hlast].
  - destruct (IH (LintQuality.addPackageResult k' r' m) Hlater)
      as (r & Hr & Hlookup).
    exists r. split; [now right | assumption].
  - destruct Hin as [E | Hin]; [|contradiction]. cbn in E. subst k'.
    exists r'. split; [now left|].
    rewrite lookup_recordList_other by assumption.
    cbn. apply lookup_insert_eq.
Qed.

(** With distinct names, every entry is what the map holds for its name. *)
Lemma lookup_recordList (k : string) (r : Result.t) l m :
  List.NoDup (map fst l) -> In (k, r) l ->
  Metrics.packageResults (recordList l m) !! k = Some r.
Proof.
  revert m. induction l as [|[k' r'] l IH]; intros m Hnd Hin; cbn;
    [destruct Hin|].
  cbn in Hnd. inversion Hnd as [|? ? Hk' Hnd']; subst.
  destruct Hin as [Heq | Hin].
  - inversion Heq; subst.
    change (Metrics.packageResults
              (recordList l (LintQuality.addPackageResult k r m)) !! k
            = Some r).
    rewrite lookup_recordList_other by assumption.
    cbn. apply lookup_insert_eq.
  - now apply IH.
Qed.

Section Tiers.

Variable relative : string -> string.
Variable execSync : string -> Exec.outcome.

Local Abbreviation lintHeavy := (LintQuality.lintHeavy relative execSync).
Local Abbreviation lintBatch := (LintQuality.lintBatch relative execSync).
Local Abbreviation lintTiers := (LintQuality.lintTiers relative execSync).
Local Abbreviation heavyCommand := (LintQuality.heavyCommand relative).
Local Abbreviation batchCommand := (LintQuality.batchCommand relative).

Lemma lintHeavy_entry (m : Metrics.t) (w : World.t) (pkg : Package.t) :
  lintHeavy (m, w) pkg
  = (LintQuality.addPackageResult (Package.name pkg)
       (heavyResult relative execSync pkg) m,
     LintQuality.spawn execSync (heavyCommand pkg) w).
Proof.
  unfold LintQuality.lintHeavy, heavyResult, failure.
  cbn [LintQuality.spawn World.tick World.log World.now].
  replace (World.now w + Exec.elapsed (execSync (heavyCommand pkg))
           - World.now w)
    with (Exec.elapsed (execSync (heavyCommand pkg))) by lia.
  now destruct (Exec.stdout (execSync (heavyCommand pkg))).
Qed.

Lemma heavy_loop (batch : list Package.t) (m : Metrics.t) (w : World.t) :
  fold_left lintHeavy batch (m, w)
  = (recordList (heavyEntries relative execSync batch) m,
     spawnAll execSync (map heavyCommand batch) w).
Proof.
  revert m w. induction batch as [|pkg batch IH]; intros m w;
    [reflexivity|].
  cbn [fold_left]. rewrite lintHeavy_entry, IH. reflexivity.
Qed.

Lemma recordAll_entries (r : Result.t) (batch : list Package.t) m :
  LintQuality.recordAll r batch m
  = recordList (map (fun pkg => (Package.name pkg, r)) batch) m.
Proof.
  unfold LintQuality.recordAll, recordList.
  revert m. induction batch as [|pkg batch IH]; intros m; [reflexivity|].
  cbn. apply IH.
Qed.

Lemma batch_stage (concurrency : string) (batch : list Package.t) m w :
  lintBatch concurrency batch (m, w)
  = (recordList (batchEntries relative execSync concurrency batch) m,
     spawnAll execSync (batchCommands relative concurrency batch) w).
Proof.
  unfold LintQuality.lintBatch, batchEntries, batchResult, batchCommands.
  destruct batch as [|pkg batch]; [reflexivity|].
  set (full := pkg :: batch).
  destruct (Exec.stdout (execSync (batchCommand concurrency full)));
    now rewrite recordAll_entries.
Qed.

Lemma spawnAll_app (c1 c2 : list string) (w : World.t) :
  spawnAll execSync (c1 ++ c2) w
  = spawnAll execSync c2 (spawnAll execSync c1 w).
Proof. apply fold_left_app. Qed.

(** The three stages record [entries] and spawn [commands]. *)
Lemma lintTiers_entries (tiers : Tiers.t) (m : Metrics.t) (w : World.t) :
  lintTiers tiers (m, w)
  = (recordList (entries relative execSync tiers) m,
     spawnAll execSync (commands relative tiers) w).
Proof.
  unfold LintQuality.lintTiers, entries, commands.
  rewrite heavy_loop, !batch_stage, !recordList_app, !spawnAll_app.
  reflexivity.
Qed.

(** Spawning touches neither file and only appends to the trace. *)
Lemma spawnAll_world (cmds : list string) (w : World.t) :
  World.report (spawnAll execSync cmds w) = World.report w /\
  World.cache (spawnAll execSync cmds w) = World.cache w /\
  World.packagesDir (spawnAll execSync cmds w) = World.packagesDir w /\
  World.trace (spawnAll execSync cmds w) = World.trace w ++ map Spawn cmds.
Proof.
  revert w. induction cmds as [|c cmds IH]; intros w; cbn.
  - now rewrite app_nil_r.
  - destruct (IH (LintQuality.spawn execSync c w)) as (Hr & Hc & Hp & Ht).
    unfold spawnAll in *. rewrite Hr, Hc, Hp, Ht. cbn.
    now rewrite <- app_assoc.
Qed.

Lemma heavyResult_whole (pkg : Package.t) :
  whole (heavyResult relative execSync pkg).
Proof.
  unfold heavyResult, failure.
  destruct (Exec.stdout (execSync (heavyCommand pkg))) as [output|].
  - exists (Z.of_nat (Counts.errors (LintQuality.parseESLintOutput output))),
      (Z.of_nat (Counts.warnings (LintQuality.parseESLintOutput output))).
    cbn. repeat split; lia.
  - exists 1, 0. cbn. repeat split; lia.
Qed.

Lemma share_nonneg (total n : nat) : (1 <= n)%nat -> 0 <= Spec.share total n.
Proof.
  intros Hn. apply JSFacts.round_nonneg.
  apply Qle_shift_div_l.
  - change 0%Q with (inject_Z 0). rewrite <- Zlt_Qlt. lia.
  - rewrite Qmult_0_l. change 0%Q with (inject_Z 0). rewrite <- Zle_Qle. lia.
Qed.

(** The per-package share of a batch total, as the code computes it. *)
Lemma rounded_share (total n : nat) :
  (1 <= n)%nat ->
  JS.round (JS.div (JS.of_nat total) (JS.of_nat n))
  = JS.of_Z (Spec.share total n).
Proof.
  intros Hn. apply JSFacts.round_of_Z.
  apply JSFacts.denotes_div; try apply JSFacts.denotes_of_Z.
  change 0%Q with (inject_Z 0). rewrite inject_Z_injective. lia.
Qed.

Lemma avgPerPackage_share (c : Counts.t) (batch : list Package.t) :
  batch <> [] ->
  LintQuality.avgPerPackage c batch
  = Result.mk (JS.of_Z (Spec.share (Counts.errors c) (length batch)))
              (JS.of_Z (Spec.share (Counts.warnings c) (length batch)))
              None success.
Proof.
  intros Hne. unfold LintQuality.avgPerPackage.
  assert (1 <= length batch)%nat by (destruct batch; cbn; [congruence|lia]).
  now rewrite !rounded_share.
Qed.

Lemma batchResult_whole (concurrency : string) (batch : list Package.t) :
  batch <> [] -> whole (batchResult relative execSync concurrency batch).
Proof.
  intros Hne. unfold batchResult, failure.
  assert (1 <= length batch)%nat by (destruct batch; cbn; [congruence|lia]).
  destruct (Exec.stdout (execSync (batchCommand concurrency batch))).
  - rewrite avgPerPackage_share by assumption.
    eexists _, _. cbn.
    split; [|split; [|split; reflexivity]]; now apply share_nonneg.
  - exists 1, 0. cbn. repeat split; lia.
Qed.

Lemma entries_whole (tiers : Tiers.t) :
  Forall (fun entry => whole (snd entry)) (entries relative execSync tiers).
Proof.
  unfold entries, heavyEntries, batchEntries.
  rewrite !Forall_app, !Forall_map. repeat split.
  - apply List.Forall_forall. intros pkg _. apply heavyResult_whole.
  - apply List.Forall_forall. intros pkg Hin. apply batchResult_whole.
    intros E. rewrite E in Hin. contradiction.
  - apply List.Forall_forall. intros pkg Hin. apply batchResult_whole.
    intros E. rewrite E in Hin. contradiction.
Qed.

Lemma entries_names (tiers : Tiers.t) :
  map fst (entries relative execSync tiers)
  = map Package.name
      (Tiers.heavy tiers ++ Tiers.medium tiers ++ Tiers.light tiers).
Proof.
  unfold entries, heavyEntries, batchEntries.
  rewrite !map_app, !map_map. reflexivity.
Qed.

Lemma entries_length (packages : list Package.t) :
  length (entries relative execSync (LintQuality.categorizePackages packages))
  = length packages.
Proof.
  rewrite <- (length_map fst), entries_names, length_map.
  apply Permutation_length, CategorizeFacts.tiers_perm.
Qed.

Lemma entries_NoDup (packages : list Package.t) :
  List.NoDup (map Package.name packages) ->
  List.NoDup
    (map fst (entries relative execSync
                (LintQuality.categorizePackages packages))).
Proof.
  intros Hnd. rewrite entries_names.
  eapply Permutation_NoDup; [|exact Hnd].
  apply Permutation_map. symmetry. apply CategorizeFacts.tiers_perm.
Qed.

End Tiers.

End RunFacts.

(** ** The shape of a run *)

Module RunShape.
Import Recorded.

Section Run.

Variable relative : string -> string.
Variable execSync : string -> Exec.outcome.

Local Abbreviation run := (LintQuality.runQualityLint relative execSync).

(** The metrics object before [finalize], and the world at that point. *)
Lemma run_shape (packages : list Package.t) (w : World.t) :
  run packages w
  = LintQuality.finalize
      (recordList
         (entries relative execSync (LintQuality.categorizePackages packages))
         (LintQuality.setTotalPackages (length packages)
            (fst (LintQuality.constructor w))),
       spawnAll execSync
         (commands relative (LintQuality.categorizePackages packages))
         (snd (LintQuality.constructor w))).
Proof.
  unfold LintQuality.runQualityLint.
  destruct (LintQuality.constructor w) as [m0 w0]. cbn [fst snd].
  destruct packages as [|pkg packages]; [reflexivity|].
  now rewrite RunFacts.lintTiers_entries.
Qed.

Lemma constructor_fresh (w : World.t) :
  let m := fst (LintQuality.constructor w) in
  Metrics.lintedPackages m = 0%nat /\
  Metrics.errors m = JS.of_Z 0 /\
  Metrics.warnings m = JS.of_Z 0 /\
  Metrics.previousScore m = fst (LintQuality.loadPreviousScore w).
Proof.
  unfold LintQuality.constructor.
  now destruct (LintQuality.loadPreviousScore w).
Qed.

Lemma run_lintedPackages (packages : list Package.t) (w : World.t) :
  Metrics.lintedPackages (fst (run packages w)) = length packages.
Proof.
  rewrite run_shape. cbn.
  rewrite RunFacts.recordList_lintedPackages, RunFacts.entries_length.
  cbn. now destruct (constructor_fresh w) as (-> & _).
Qed.

Lemma run_counted (packages : list Package.t) (w : World.t) :
  counted (fst (run packages w)).
Proof.
  rewrite run_shape.
  set (m1 := LintQuality.setTotalPackages _ _).
  assert (counted m1) as H1.
  { exists 0, 0. subst m1. cbn.
    destruct (constructor_fresh w) as (_ & -> & -> & _).
    repeat split; lia. }
  pose proof (RunFacts.recordList_counted _ _
                (RunFacts.entries_whole relative execSync
                   (LintQuality.categorizePackages packages)) H1)
    as (e & wn & He & Hw & Ee & Ew).
  exists e, wn. cbn. auto.
Qed.

Lemma run_qualityScore (packages : list Package.t) (w : World.t) :
  Metrics.qualityScore (fst (run packages w))
  = LintQuality.score (fst (run packages w)).
Proof. rewrite run_shape. reflexivity. Qed.

(** The score of a run that linted something, over its integer totals. *)
Lemma run_score (packages : list Package.t) (w : World.t) :
  let m := fst (run packages w) in
  (1 <= Metrics.lintedPackages m)%nat ->
  exists errors warnings : Z,
    0 <= errors /\ 0 <= warnings /\
    Metrics.errors m = JS.of_Z errors /\
    Metrics.warnings m = JS.of_Z warnings /\
    Metrics.qualityScore m
    = JS.fin (Spec.qualityScore errors warnings (Metrics.lintedPackages m)).
Proof.
  intros m Hn.
  destruct (run_counted packages w) as (e & wn & He & Hw & Ee & Ew).
  fold m in Ee, Ew. exists e, wn. repeat apply conj; try assumption.
  unfold m at 1. rewrite run_qualityScore. fold m.
  now apply ScoreFacts.score_spec.
Qed.

Lemma run_previousScore (packages : list Package.t) (w : World.t) :
  Metrics.previousScore (fst (run packages w))
  = fst (LintQuality.loadPreviousScore w).
Proof.
  rewrite run_shape. cbn. rewrite RunFacts.recordList_previousScore. cbn.
  now destruct (constructor_fresh w) as (_ & _ & _ & ->).
Qed.

Lemma run_packageResults (packages : list Package.t) (w : World.t) :
  Metrics.packageResults (fst (run packages w))
  = Metrics.packageResults
      (recordList
         (entries relative execSync (LintQuality.categorizePackages packages))
         (LintQuality.setTotalPackages (length packages)
            (fst (LintQuality.constructor w)))).
Proof. rewrite run_shape. reflexivity. Qed.

(** The report file holds the metrics the run returns. *)
Lemma run_report (packages : list Package.t) (w : World.t) :
  World.report (snd (run packages w))
  = Some (ReportStringified (fst (run packages w))).
Proof. rewrite run_shape. reflexivity. Qed.

Lemma loadPreviousScore_trace (w : World.t) :
  let w' := snd (LintQuality.loadPreviousScore w) in
  World.report w' = World.report w /\
  World.cache w' = World.cache w /\
  World.packagesDir w' = World.packagesDir w /\
  World.now w' = World.now w /\
  World.trace w'
  = World.trace w
      ++ Exists QUALITY_REPORT_FILE
         :: match World.report w with
            | Some _ => [Read QUALITY_REPORT_FILE]
            | None => []
            end.
Proof.
  unfold LintQuality.loadPreviousScore.
  destruct (World.report w) as [[|report]|] eqn:E; cbn; rewrite ?E; auto.
Qed.

(** Every access of a run to the outside, in order. *)
Lemma run_trace (packages : list Package.t) (w : World.t) :
  World.trace (snd (run packages w))
  = World.trace w
      ++ Exists QUALITY_REPORT_FILE
         :: match World.report w with
            | Some _ => [Read QUALITY_REPORT_FILE]
            | None => []
            end
      ++ map Spawn
           (commands relative (LintQuality.categorizePackages packages))
      ++ [Write QUALITY_REPORT_FILE].
Proof.
  rewrite run_shape. cbn.
  destruct (RunFacts.spawnAll_world execSync
              (commands relative (LintQuality.categorizePackages packages))
              (snd (LintQuality.constructor w))) as (_ & _ & _ & ->).
  unfold LintQuality.constructor.
  destruct (loadPreviousScore_trace w) as (_ & _ & _ & _ & Ht).
  destruct (LintQuality.loadPreviousScore w) as [prev w']. cbn in *.
  rewrite Ht, <- !app_assoc. reflexivity.
Qed.

Lemma run_cache (packages : list Package.t) (w : World.t) :
  World.cache (snd (run packages w)) = World.cache w.
Proof.
  rewrite run_shape. cbn.
  destruct (RunFacts.spawnAll_world execSync
              (commands relative (LintQuality.categorizePackages packages))
              (snd (LintQuality.constructor w))) as (_ & -> & _).
  unfold LintQuality.constructor.
  destruct (loadPreviousScore_trace w) as (_ & Hc & _).
  now destruct (LintQuality.loadPreviousScore w).
Qed.

(** With distinct names, the map holds for each package the result of its
    own invocation. *)
Lemma run_lookup (packages : list Package.t) (w : World.t)
    (name : string) (r : Result.t) :
  List.NoDup (map Package.name packages) ->
  In (name, r)
     (entries relative execSync (LintQuality.categorizePackages packages)) ->
  Metrics.packageResults (fst (run packages w)) !! name = Some r.
Proof.
  intros Hnd Hin. rewrite run_packageResults.
  apply RunFacts.lookup_recordList; [|assumption].
  now apply RunFacts.entries_NoDup.
Qed.

End Run.

End RunShape.

(** ** The quality score of a finalized run *)

Module Scoring.
Import Recorded.

(** C1. In a finalized run that linted at least one package the totals
    are non-negative integers [errors] and [warnings], and [qualityScore]
    is clamp(100 - (errors + warnings) / (10 * lintedPackages) * 100, 0,
    100) rounded to two decimal places; it is exactly 100 when both
    totals are zero, exactly 0 as soon as errors + warnings reaches
    10 * lintedPackages however large it grows, and it lies between 0
    and 100. *)
Theorem qualityScore_formula (relative : string -> string)
    (execSync : string -> Exec.outcome) (packages : list Package.t)
    (w : World.t) :
  let m := fst (LintQuality.runQualityLint relative execSync packages w) in
  (1 <= Metrics.lintedPackages m)%nat ->
  exists (errors warnings : Z) (score : Q),
    0 <= errors /\ 0 <= warnings /\
    Metrics.errors m = JS.of_Z errors /\
    Metrics.warnings m = JS.of_Z warnings /\
    Metrics.qualityScore m = JS.fin score /\
    Spec.roundedTo2
      (Spec.clampedScore errors warnings (Metrics.lintedPackages m)) score /\
    (errors = 0 -> warnings = 0 -> Metrics.qualityScore m = JS.of_Z 100) /\
    (10 * Z.of_nat (Metrics.lintedPackages m) <= errors + warnings ->
     Metrics.qualityScore m = JS.of_Z 0) /\
    JS.leb (JS.of_Z 0) (Metrics.qualityScore m) = true /\
    JS.leb (Metrics.qualityScore m) (JS.of_Z 100) = true.
Proof.
  intros m Hn.
  destruct (RunShape.run_score relative execSync packages w Hn)
    as (e & wn & He & Hw & Ee & Ew & Hscore).
  fold m in Ee, Ew, Hscore.
  exists e, wn, (Spec.qualityScore e wn (Metrics.lintedPackages m)).
  repeat apply conj; try assumption.
  - exists (Spec.round
              (Spec.clampedScore e wn (Metrics.lintedPackages m) * 100)).
    reflexivity.
  - apply ScoreFacts.round2_roundedTo2.
  - apply ScoreFacts.round2_roundedTo2.
  - intros -> ->. rewrite Hscore. now apply ScoreFacts.score_perfect.
  - intros Hbig. rewrite Hscore. now apply ScoreFacts.score_floor.
  - rewrite Hscore. apply ScoreFacts.fin_in_range, ScoreFacts.score_in_range.
  - rewrite Hscore. apply ScoreFacts.fin_in_range, ScoreFacts.score_in_range.
Qed.

Lemma qualityScore_formula_witness :
  exists (errors warnings : Z) (score : Q),
    let m := fst (LintQuality.runQualityLint Sample.relative Sample.execSync
                    Sample.packages Sample.world) in
    0 <= errors /\ 0 <= warnings /\
    Metrics.errors m = JS.of_Z errors /\
    Metrics.warnings m = JS.of_Z warnings /\
    Metrics.qualityScore m = JS.fin score /\
    Spec.roundedTo2
      (Spec.clampedScore errors warnings (Metrics.lintedPackages m)) score /\
    (errors = 0 -> warnings = 0 -> Metrics.qualityScore m = JS.of_Z 100) /\
    (10 * Z.of_nat (Metrics.lintedPackages m) <= errors + warnings ->
     Metrics.qualityScore m = JS.of_Z 0) /\
    JS.leb (JS.of_Z 0) (Metrics.qualityScore m) = true /\
    JS.leb (Metrics.qualityScore m) (JS.of_Z 100) = true.
Proof.
  apply (qualityScore_formula Sample.relative Sample.execSync
           Sample.packages Sample.world).
  vm_compute. lia.
Defined.

(** C2, at the input where it fails: a run over no packages divides zero
    by zero, and the report it returns and persists has [NaN] for
    [qualityScore], which is neither at least 0 nor at most 100 and is
    written to the file as [null]. *)
Theorem empty_run_score_is_NaN (relative : string -> string)
    (execSync : string -> Exec.outcome) (w : World.t) :
  let m := fst (LintQuality.runQualityLint relative execSync [] w) in
  Metrics.lintedPackages m = 0%nat /\
  Metrics.qualityScore m = JS.NaN /\
  JS.leb (JS.of_Z 0) (Metrics.qualityScore m) = false /\
  JS.leb (Metrics.qualityScore m) (JS.of_Z 100) = false /\
  JS.json (Metrics.qualityScore m) = None.
Proof.
  cbn zeta. unfold LintQuality.runQualityLint, LintQuality.constructor.
  destruct (LintQuality.loadPreviousScore w) as [previous w'].
  repeat split.
Qed.

(** The range holds whenever something was linted. *)
Lemma qualityScore_in_range (relative : string -> string)
    (execSync : string -> Exec.outcome) (packages : list Package.t)
    (w : World.t) :
  packages <> [] ->
  let m := fst (LintQuality.runQualityLint relative execSync packages w) in
  JS.leb (JS.of_Z 0) (Metrics.qualityScore m) = true /\
  JS.leb (Metrics.qualityScore m) (JS.of_Z 100) = true.
Proof.
  intros Hne m.
  assert (1 <= Metrics.lintedPackages m)%nat as Hn.
  { unfold m. rewrite RunShape.run_lintedPackages.
    destruct packages; cbn; [congruence | lia]. }
  destruct (RunShape.run_score relative execSync packages w Hn)
    as (e & wn & _ & _ & _ & _ & Hscore).
  fold m in Hscore. rewrite Hscore.
  apply ScoreFacts.fin_in_range, ScoreFacts.score_in_range.
Qed.

End Scoring.

(** ** Tiers *)

(** ** The categorizer on scanned package objects *)

Module CategorizeScanned.

Local Abbreviation hasIncludes :=
  (fun pkg : Scanned.t => Scanned.name pkg <> Name.NoIncludes).
Local Abbreviation noIncludes :=
  (fun pkg : Scanned.t => Scanned.name pkg = Name.NoIncludes).

Lemma totalWeight_value (pkg : Scanned.t) :
  hasIncludes pkg ->
  Categorize.totalWeight pkg = Categorize.Value (Spec.scannedWeight pkg).
Proof.
  intros Hname. cbv beta in Hname.
  unfold Categorize.totalWeight, Categorize.nameWeight, Spec.scannedWeight,
    Spec.criticalPattern, Spec.importantPattern, Categorize.sizeWeight,
    Categorize.complexityWeight.
  rewrite !Z.gtb_ltb.
  destruct (Scanned.name pkg) as [s | texts |]; [| |congruence];
    unfold Categorize.criticalName, Categorize.importantName,
      Categorize.includes, Categorize.orElse;
    repeat match goal with
           | |- context [if ?b then _ else _] => destruct b
           | |- context [match ?b with true => _ | false => _ end] =>
               destruct b
           end;
    f_equal; lia.
Qed.

Lemma totalWeight_throws (pkg : Scanned.t) :
  noIncludes pkg -> Categorize.totalWeight pkg = Categorize.TypeError.
Proof.
  intros Hname. unfold Categorize.totalWeight, Categorize.nameWeight.
  now rewrite Hname.
Qed.

Lemma scanned_bucket_tier (acc : Categorize.Tiers) (pkg : Scanned.t) :
  hasIncludes pkg ->
  Categorize.bucket acc pkg
  = Categorize.Value
      match Spec.tier (Spec.scannedWeight pkg) with
      | Heavy =>
          Categorize.mkTiers (Categorize.heavy acc ++ [pkg])
            (Categorize.medium acc) (Categorize.light acc)
      | Medium =>
          Categorize.mkTiers (Categorize.heavy acc)
            (Categorize.medium acc ++ [pkg]) (Categorize.light acc)
      | Light =>
          Categorize.mkTiers (Categorize.heavy acc) (Categorize.medium acc)
            (Categorize.light acc ++ [pkg])
      end.
Proof.
  intros Hname. unfold Categorize.bucket, Spec.tier.
  rewrite (totalWeight_value pkg Hname), !Z.geb_leb.
  now destruct (4 <=? Spec.scannedWeight pkg),
    (2 <=? Spec.scannedWeight pkg).
Qed.

(** Where every name has an [includes] method the loop splits its input
    into three filters. *)
Lemma buckets_value (l : list Scanned.t) (acc : Categorize.Tiers) :
  Forall hasIncludes l ->
  Categorize.buckets l acc
  = Categorize.Value
      (Categorize.mkTiers
         (Categorize.heavy acc ++ List.filter (Spec.scannedInTier Heavy) l)
         (Categorize.medium acc ++ List.filter (Spec.scannedInTier Medium) l)
         (Categorize.light acc ++ List.filter (Spec.scannedInTier Light) l)).
Proof.
  intros Hall. revert acc.
  induction Hall as [|pkg l Hpkg _ IH]; intros acc; cbn [Categorize.buckets].
  - cbn. rewrite !app_nil_r. now destruct acc.
  - rewrite (scanned_bucket_tier acc pkg Hpkg), IH. cbn [List.filter].
    set (fh := List.filter (Spec.scannedInTier Heavy) l).
    set (fm := List.filter (Spec.scannedInTier Medium) l).
    set (fl := List.filter (Spec.scannedInTier Light) l).
    unfold Spec.scannedInTier.
    destruct (Spec.tier (Spec.scannedWeight pkg)); cbn;
      now rewrite <- app_assoc.
Qed.

(** One name without an [includes] method ends the loop with a
    [TypeError]. *)
Lemma buckets_throws (l : list Scanned.t) (acc : Categorize.Tiers) :
  List.Exists noIncludes l -> Categorize.buckets l acc = Categorize.TypeError.
Proof.
  intros Hex. revert acc.
  induction l as [|pkg l IH]; intros acc; [inversion Hex|].
  cbn [Categorize.buckets].
  destruct (Categorize.bucket acc pkg) as [acc'|] eqn:Hbucket;
    [|reflexivity].
  apply IH. inversion Hex as [? ? Hhead | ? ? Htail]; subst; [|assumption].
  unfold Categorize.bucket in Hbucket.
  rewrite (totalWeight_throws pkg Hhead) in Hbucket. discriminate.
Qed.

Lemma scanned_filters_perm (l : list Scanned.t) :
  Permutation
    (List.filter (Spec.scannedInTier Heavy) l
       ++ List.filter (Spec.scannedInTier Medium) l
       ++ List.filter (Spec.scannedInTier Light) l) l.
Proof.
  induction l as [|pkg l IH]; cbn [List.filter]; [reflexivity|].
  revert IH.
  set (fh := List.filter (Spec.scannedInTier Heavy) l).
  set (fm := List.filter (Spec.scannedInTier Medium) l).
  set (fl := List.filter (Spec.scannedInTier Light) l).
  intros IH. unfold Spec.scannedInTier.
  destruct (Spec.tier (Spec.scannedWeight pkg)); cbn.
  - now apply perm_skip.
  - rewrite <- Permutation_middle. now apply perm_skip.
  - rewrite app_assoc, <- Permutation_middle, <- app_assoc.
    now apply perm_skip.
Qed.

Lemma scanned_in_sort (packages : list Scanned.t) (pkg : Scanned.t) :
  In pkg (Arr.sort Categorize.bySizeDescending packages) <-> In pkg packages.
Proof.
  split; apply Permutation_in; [|symmetry]; apply CategorizeFacts.sort_perm.
Qed.

Lemma scanned_tier_membership (packages : list Scanned.t) (t : Tier)
    (pkg : Scanned.t) :
  In pkg (List.filter (Spec.scannedInTier t)
            (Arr.sort Categorize.bySizeDescending packages))
  <-> In pkg packages /\ Spec.tier (Spec.scannedWeight pkg) = t.
Proof.
  rewrite filter_In, scanned_in_sort. unfold Spec.scannedInTier.
  destruct t, (Spec.tier (Spec.scannedWeight pkg)); intuition congruence.
Qed.

Lemma scanned_filters (packages : list Scanned.t) :
  Forall hasIncludes packages ->
  Categorize.categorizePackages packages
  = let sorted := Arr.sort Categorize.bySizeDescending packages in
    Categorize.Value
      (Categorize.mkTiers (List.filter (Spec.scannedInTier Heavy) sorted)
                          (List.filter (Spec.scannedInTier Medium) sorted)
                          (List.filter (Spec.scannedInTier Light) sorted)).
Proof.
  intros Hall. unfold Categorize.categorizePackages. cbn zeta.
  rewrite buckets_value; [reflexivity|].
  rewrite List.Forall_forall in Hall |- *.
  intros pkg Hin. apply Hall. now apply scanned_in_sort.
Qed.

Lemma categorize_throws (packages : list Scanned.t) :
  List.Exists noIncludes packages ->
  Categorize.categorizePackages packages = Categorize.TypeError.
Proof.
  intros Hex. unfold Categorize.categorizePackages. cbn zeta.
  apply buckets_throws.
  rewrite List.Exists_exists in Hex |- *.
  destruct Hex as (pkg & Hin & Hname).
  exists pkg. split; [now apply scanned_in_sort | assumption].
Qed.

(** *** Packages whose names are strings *)

Lemma scanned_weight (pkg : Package.t) :
  Spec.scannedWeight (Package.scanned pkg) = Spec.weight pkg.
Proof.
  unfold Spec.scannedWeight, Spec.weight, Spec.criticalPattern,
    Spec.importantPattern, Categorize.criticalName,
    Categorize.importantName, LintQuality.criticalName,
    LintQuality.importantName, Categorize.includes, Categorize.equals,
    Categorize.orElse.
  cbn [Package.scanned Scanned.name Scanned.size Scanned.hasTypescript
         Scanned.hasTests].
  destruct (Str.includes (Package.name pkg) "nodes-base"),
    (Package.name pkg =? "n8n")%string,
    (Str.includes (Package.name pkg) "editor-ui"),
    (Str.includes (Package.name pkg) "core"),
    (Str.includes (Package.name pkg) "cli"),
    (Str.includes (Package.name pkg) "design-system"); reflexivity.
Qed.

Lemma insert_scanned (x : Package.t) (l : list Package.t) :
  Arr.insert Categorize.bySizeDescending (Package.scanned x)
    (map Package.scanned l)
  = map Package.scanned (Arr.insert LintQuality.bySizeDescending x l).
Proof.
  induction l as [|y l IH]; cbn; [reflexivity|].
  change (Categorize.bySizeDescending (Package.scanned x) (Package.scanned y))
    with (LintQuality.bySizeDescending x y).
  destruct (LintQuality.bySizeDescending x y <=? 0); cbn; [reflexivity|].
  now rewrite IH.
Qed.

Lemma sort_scanned (l : list Package.t) :
  Arr.sort Categorize.bySizeDescending (map Package.scanned l)
  = map Package.scanned (Arr.sort LintQuality.bySizeDescending l).
Proof.
  induction l as [|x l IH]; cbn; [reflexivity|].
  unfold Arr.sort in IH. now rewrite IH, insert_scanned.
Qed.

Lemma filter_scanned (t : Tier) (l : list Package.t) :
  List.filter (Spec.scannedInTier t) (map Package.scanned l)
  = map Package.scanned (List.filter (Spec.inTier t) l).
Proof.
  induction l as [|x l IH]; cbn [map List.filter]; [reflexivity|].
  unfold Spec.scannedInTier at 1, Spec.inTier at 1.
  rewrite scanned_weight, IH.
  now destruct t, (Spec.tier (Spec.weight x)).
Qed.

(** On packages whose names are strings the categorizer returns, and
    returns the tiers of [LintQuality.categorizePackages]. *)
Lemma categorize_named (packages : list Package.t) :
  Categorize.categorizePackages (map Package.scanned packages)
  = Categorize.Value
      (Categorize.scannedTiers (LintQuality.categorizePackages packages)).
Proof.
  rewrite scanned_filters.
  - cbn zeta. rewrite sort_scanned, !filter_scanned.
    now rewrite CategorizeFacts.categorize_filters.
  - apply List.Forall_forall. intros pkg Hin.
    apply in_map_iff in Hin as (named & <- & _). discriminate.
Qed.

End CategorizeScanned.

Module Categorizer.

(** C4 as stated does not hold. The scan of a directory whose manifest
    declares a lint script and has no name pushes a package object whose
    name is [undefined]; on it [categorizePackages] throws a [TypeError]
    instead of returning tiers. *)
Lemma nameless_package_throws :
  FS.scanDirectory "packages" (Some [Sample2.anonymous])
  = [Sample2.nameless] /\
  Categorize.categorizePackages [Sample2.nameless] = Categorize.TypeError /\
  ~ Spec.categorizerTotal.
Proof.
  repeat apply conj; try reflexivity.
  intros Htotal. destruct (Htotal [Sample2.nameless]) as (tiers & H & _).
  discriminate.
Qed.

(** C4, amended. On a list of package objects whose names all have an
    [includes] method (a string; for an array the tests are membership
    tests) [categorizePackages] returns and puts every package in exactly
    one of the three lists: the lists together are a rearrangement of
    the input, the weight the code computes is the additive weight of
    the specification, and a package is in [heavy] exactly when its
    weight is at least 4, in [medium] when it is 2 or 3, in [light] when
    it is below 2; so weight 4 is heavy, weight 3 medium, weight 1 light.
    On a list that holds a package object whose name has no [includes]
    method, as when the manifest has no name, it throws a [TypeError]. *)
Theorem categorizePackages_total (packages : list Scanned.t) :
  (Forall (fun pkg => Scanned.name pkg <> Name.NoIncludes) packages ->
   exists tiers : Categorize.Tiers,
     Categorize.categorizePackages packages = Categorize.Value tiers /\
     Permutation
       (Categorize.heavy tiers ++ Categorize.medium tiers
          ++ Categorize.light tiers) packages /\
     (forall pkg,
        In pkg packages ->
        Categorize.totalWeight pkg
        = Categorize.Value (Spec.scannedWeight pkg)) /\
     (forall pkg, In pkg (Categorize.heavy tiers)
                  <-> In pkg packages /\ 4 <= Spec.scannedWeight pkg) /\
     (forall pkg, In pkg (Categorize.medium tiers)
                  <-> In pkg packages /\ 2 <= Spec.scannedWeight pkg < 4) /\
     (forall pkg, In pkg (Categorize.light tiers)
                  <-> In pkg packages /\ Spec.scannedWeight pkg < 2) /\
     (forall pkg, In pkg packages ->
        (Spec.scannedWeight pkg = 4 -> In pkg (Categorize.heavy tiers)) /\
        (Spec.scannedWeight pkg = 3 -> In pkg (Categorize.medium tiers)) /\
        (Spec.scannedWeight pkg = 1 -> In pkg (Categorize.light tiers)))) /\
  (List.Exists (fun pkg => Scanned.name pkg = Name.NoIncludes) packages ->
   Categorize.categorizePackages packages = Categorize.TypeError).
Proof.
  split; [|apply CategorizeScanned.categorize_throws].
  intros Hall.
  pose proof (CategorizeScanned.scanned_tier_membership packages) as Hin.
  pose proof CategorizeFacts.tier_bounds as Htier.
  eexists. split; [now apply CategorizeScanned.scanned_filters|].
  cbn zeta. cbn [Categorize.heavy Categorize.medium Categorize.light].
  split; [|split; [|split; [|split; [|split]]]].
  - rewrite CategorizeScanned.scanned_filters_perm.
    apply CategorizeFacts.sort_perm.
  - intros pkg Hpkg. apply CategorizeScanned.totalWeight_value.
    rewrite List.Forall_forall in Hall. now apply Hall.
  - intros pkg. rewrite Hin. now rewrite (proj1 (Htier _)).
  - intros pkg. rewrite Hin. now rewrite (proj1 (proj2 (Htier _))).
  - intros pkg. rewrite Hin. now rewrite (proj2 (proj2 (Htier _))).
  - intros pkg Hpkg. repeat split; intros Hw; apply Hin;
      (split; [assumption|]); apply Htier; lia.
Qed.

Lemma categorizePackages_total_witness :
  exists tiers : Categorize.Tiers,
    Categorize.categorizePackages (map Package.scanned Sample.boundary)
    = Categorize.Value tiers /\
    In (Package.scanned Sample.weight4) (Categorize.heavy tiers) /\
    In (Package.scanned Sample.weight3) (Categorize.medium tiers) /\
    In (Package.scanned Sample.weight1) (Categorize.light tiers).
Proof.
  destruct (categorizePackages_total (map Package.scanned Sample.boundary))
    as [Hreturns _].
  destruct Hreturns as (tiers & Htiers & _ & _ & _ & _ & _ & Hboundary).
  - repeat constructor; discriminate.
  - exists tiers. split; [exact Htiers|]. repeat apply conj.
    + apply (Hboundary (Package.scanned Sample.weight4));
        [cbn; auto | reflexivity].
    + apply (Hboundary (Package.scanned Sample.weight3));
        [cbn; auto | reflexivity].
    + apply (Hboundary (Package.scanned Sample.weight1));
        [cbn; auto | reflexivity].
Defined.

(** The tiers of packages whose names are strings: a rearrangement of
    the input, split by the additive weight at 4 and 2. *)
Lemma named_tiers_by_weight (packages : list Package.t) :
  let tiers := LintQuality.categorizePackages packages in
  Permutation
    (Tiers.heavy tiers ++ Tiers.medium tiers ++ Tiers.light tiers) packages /\
  (forall pkg, LintQuality.totalWeight pkg = Spec.weight pkg) /\
  (forall pkg, In pkg (Tiers.heavy tiers)
               <-> In pkg packages /\ 4 <= Spec.weight pkg) /\
  (forall pkg, In pkg (Tiers.medium tiers)
               <-> In pkg packages /\ 2 <= Spec.weight pkg < 4) /\
  (forall pkg, In pkg (Tiers.light tiers)
               <-> In pkg packages /\ Spec.weight pkg < 2).
Proof.
  cbn zeta.
  pose proof (CategorizeFacts.tier_membership packages) as Hin.
  pose proof CategorizeFacts.tier_bounds as Htier.
  split; [apply CategorizeFacts.tiers_perm|].
  split; [apply CategorizeFacts.weight_spec|].
  rewrite CategorizeFacts.categorize_filters. cbn.
  split; [|split].
  - intros pkg. rewrite Hin. now rewrite (proj1 (Htier _)).
  - intros pkg. rewrite Hin. now rewrite (proj1 (proj2 (Htier _))).
  - intros pkg. rewrite Hin. now rewrite (proj2 (proj2 (Htier _))).
Qed.

(** No package is in two of the lists' conditions at once. *)
Lemma tiers_exclusive (packages : list Package.t) (pkg : Package.t) :
  let tiers := LintQuality.categorizePackages packages in
  ~ (In pkg (Tiers.heavy tiers) /\ In pkg (Tiers.medium tiers)) /\
  ~ (In pkg (Tiers.heavy tiers) /\ In pkg (Tiers.light tiers)) /\
  ~ (In pkg (Tiers.medium tiers) /\ In pkg (Tiers.light tiers)).
Proof.
  cbn zeta. rewrite CategorizeFacts.categorize_filters. cbn.
  rewrite !CategorizeFacts.tier_membership. repeat split; intuition congruence.
Qed.

End Categorizer.

(** ** Failed invocations and the even split *)

Module Scheduler.
Import Recorded.

Section Run.

Variable relative : string -> string.
Variable execSync : string -> Exec.outcome.

Local Abbreviation run := (LintQuality.runQualityLint relative execSync).

Lemma in_tiers (packages : list Package.t) (pkg : Package.t) :
  let tiers := LintQuality.categorizePackages packages in
  In pkg packages <->
  In pkg (Tiers.heavy tiers) \/ In pkg (Tiers.medium tiers)
  \/ In pkg (Tiers.light tiers).
Proof.
  cbn zeta. rewrite <- !in_app_iff.
  split; apply Permutation_in; [symmetry|]; apply CategorizeFacts.tiers_perm.
Qed.

(** A heavy package keeps the result of its own invocation when no
    package recorded after it has its name. *)
Lemma heavy_recorded (packages : list Package.t) (w : World.t)
    (before after : list Package.t) (pkg : Package.t) :
  let tiers := LintQuality.categorizePackages packages in
  Tiers.heavy tiers = before ++ pkg :: after ->
  ~ In (Package.name pkg)
       (map Package.name (after ++ Tiers.medium tiers ++ Tiers.light tiers)) ->
  Metrics.packageResults (fst (run packages w)) !! Package.name pkg
  = Some (heavyResult relative execSync pkg).
Proof.
  intros tiers Hsplit Hlast. rewrite RunShape.run_packageResults.
  fold tiers. unfold entries, heavyEntries. rewrite Hsplit.
  rewrite map_app. cbn [map]. rewrite <- app_assoc. cbn [app].
  apply RunFacts.lookup_recordList_last.
  rewrite map_app in Hlast |- *. unfold batchEntries.
  rewrite !map_app, !map_map in *. exact Hlast.
Qed.

(** A member of the medium batch keeps the result of the batch when no
    light package has its name. *)
Lemma medium_recorded (packages : list Package.t) (w : World.t)
    (pkg : Package.t) :
  let tiers := LintQuality.categorizePackages packages in
  In pkg (Tiers.medium tiers) ->
  ~ In (Package.name pkg) (map Package.name (Tiers.light tiers)) ->
  Metrics.packageResults (fst (run packages w)) !! Package.name pkg
  = Some (batchResult relative execSync "4" (Tiers.medium tiers)).
Proof.
  intros tiers Hin Hlast. rewrite RunShape.run_packageResults.
  fold tiers. unfold entries.
  rewrite app_assoc, RunFacts.recordList_app.
  rewrite RunFacts.lookup_recordList_other
    by (unfold batchEntries; now rewrite map_map).
  rewrite RunFacts.recordList_app.
  apply RunFacts.lookup_recordList_same.
  - unfold batchEntries. rewrite map_map. now apply in_map.
  - intros r Hr. unfold batchEntries in Hr.
    apply in_map_iff in Hr as (other & E & _). congruence.
Qed.

(** A member of the light batch, the last to be recorded, always keeps
    the result of the batch. *)
Lemma light_recorded (packages : list Package.t) (w : World.t)
    (pkg : Package.t) :
  let tiers := LintQuality.categorizePackages packages in
  In pkg (Tiers.light tiers) ->
  Metrics.packageResults (fst (run packages w)) !! Package.name pkg
  = Some (batchResult relative execSync "8" (Tiers.light tiers)).
Proof.
  intros tiers Hin. rewrite RunShape.run_packageResults.
  fold tiers. unfold entries.
  rewrite app_assoc, RunFacts.recordList_app.
  apply RunFacts.lookup_recordList_same.
  - unfold batchEntries. rewrite map_map. now apply in_map.
  - intros r Hr. unfold batchEntries in Hr.
    apply in_map_iff in Hr as (other & E & _). congruence.
Qed.

(** Every package of the input has a result under its name. *)
Lemma every_name_recorded (packages : list Package.t) (w : World.t)
    (pkg : Package.t) :
  In pkg packages ->
  exists r,
    Metrics.packageResults (fst (run packages w)) !! Package.name pkg
    = Some r.
Proof.
  intros Hin. rewrite RunShape.run_packageResults.
  destruct (RunFacts.lookup_recordList_some (Package.name pkg)
              (entries relative execSync
                 (LintQuality.categorizePackages packages))
              (LintQuality.setTotalPackages (length packages)
                 (fst (LintQuality.constructor w))))
    as (r & _ & Hr); [|now exists r].
  rewrite RunFacts.entries_names. apply in_map.
  apply in_tiers in Hin. rewrite !in_app_iff. exact Hin.
Qed.

(** C5, amended. [packageResults] is keyed by package name and the
    tiers are recorded in the order heavy, medium, light. When the
    invocation for a heavy package throws (non-zero exit or timeout),
    the report holds status failed, 1 error and 0 warnings under that
    package's name, provided no package recorded after it (a later
    heavy package, a medium or a light package) has the same name; when
    the medium batch invocation throws, it holds that record for every
    member whose name no light package has; when the light batch
    invocation throws, it holds it for every member. Whatever fails and
    whatever the names, the run goes on: every package of the input has
    a result, [lintedPackages] is their number, every invocation of
    every tier was spawned, and the report is finalized and written. *)
Theorem invocation_failure_recorded (packages : list Package.t)
    (w : World.t) :
  let tiers := LintQuality.categorizePackages packages in
  let m := fst (run packages w) in
  let w' := snd (run packages w) in
  (forall before pkg after,
     Tiers.heavy tiers = before ++ pkg :: after ->
     Exec.stdout (execSync (LintQuality.heavyCommand relative pkg)) = None ->
     ~ In (Package.name pkg)
          (map Package.name
             (after ++ Tiers.medium tiers ++ Tiers.light tiers)) ->
     exists elapsed : Z,
       Metrics.packageResults m !! Package.name pkg
       = Some (Result.mk (JS.of_Z 1) (JS.of_Z 0) (Some elapsed) failed)) /\
  (Exec.stdout
     (execSync (LintQuality.batchCommand relative "4" (Tiers.medium tiers)))
   = None ->
   forall pkg,
     In pkg (Tiers.medium tiers) ->
     ~ In (Package.name pkg) (map Package.name (Tiers.light tiers)) ->
     Metrics.packageResults m !! Package.name pkg
     = Some (Result.mk (JS.of_Z 1) (JS.of_Z 0) None failed)) /\
  (Exec.stdout
     (execSync (LintQuality.batchCommand relative "8" (Tiers.light tiers)))
   = None ->
   forall pkg,
     In pkg (Tiers.light tiers) ->
     Metrics.packageResults m !! Package.name pkg
     = Some (Result.mk (JS.of_Z 1) (JS.of_Z 0) None failed)) /\
  (forall pkg,
     In pkg packages ->
     exists r, Metrics.packageResults m !! Package.name pkg = Some r) /\
  Metrics.lintedPackages m = length packages /\
  (forall command,
     In command (commands relative tiers) ->
     In (Spawn command) (World.trace w')) /\
  World.report w' = Some (ReportStringified m).
Proof.
  intros tiers m w'. repeat apply conj.
  - intros before pkg after Hsplit Hfail Hlast.
    exists (Exec.elapsed (execSync (LintQuality.heavyCommand relative pkg))).
    unfold m. rewrite (heavy_recorded packages w before after) by assumption.
    unfold heavyResult. now rewrite Hfail.
  - intros Hfail pkg Hin Hlast.
    unfold m. rewrite medium_recorded by assumption.
    unfold batchResult. fold tiers. now rewrite Hfail.
  - intros Hfail pkg Hin.
    unfold m. rewrite light_recorded by assumption.
    unfold batchResult. fold tiers. now rewrite Hfail.
  - intros pkg Hin. now apply every_name_recorded.
  - apply RunShape.run_lintedPackages.
  - intros command Hin. unfold w'. rewrite RunShape.run_trace.
    apply in_or_app. right. right. apply in_or_app. right.
    apply in_or_app. left. now apply in_map.
  - apply RunShape.run_report.
Qed.

(** C6, amended. When the medium batch invocation succeeds and its
    output parses to E errors and W warnings, the report holds
    round(E / n) errors and round(W / n) warnings, n being the size of
    the batch, for every member whose name no light package has; when
    the light batch invocation succeeds, it holds its shares for every
    member. Three packages and six errors give two each. *)
Theorem batch_split_evenly (packages : list Package.t) (w : World.t)
    (output : string) :
  let tiers := LintQuality.categorizePackages packages in
  let m := fst (run packages w) in
  let E := Counts.errors (LintQuality.parseESLintOutput output) in
  let W := Counts.warnings (LintQuality.parseESLintOutput output) in
  let share (batch : list Package.t) :=
    Result.mk (JS.of_Z (Spec.share E (length batch)))
              (JS.of_Z (Spec.share W (length batch))) None success in
  (Exec.stdout
     (execSync (LintQuality.batchCommand relative "4" (Tiers.medium tiers)))
   = Some output ->
   forall pkg,
     In pkg (Tiers.medium tiers) ->
     ~ In (Package.name pkg) (map Package.name (Tiers.light tiers)) ->
     Metrics.packageResults m !! Package.name pkg
     = Some (share (Tiers.medium tiers))) /\
  (Exec.stdout
     (execSync (LintQuality.batchCommand relative "8" (Tiers.light tiers)))
   = Some output ->
   forall pkg,
     In pkg (Tiers.light tiers) ->
     Metrics.packageResults m !! Package.name pkg
     = Some (share (Tiers.light tiers))) /\
  Spec.share 6 3 = 2.
Proof.
  intros tiers m E W share. subst share E W.
  split; [|split; [|reflexivity]].
  - intros Hok pkg Hin Hlast.
    assert (Tiers.medium tiers <> []) as Hne
      by (intros Hnil; rewrite Hnil in Hin; contradiction).
    rewrite <- (RunFacts.avgPerPackage_share
                  (LintQuality.parseESLintOutput output) _ Hne).
    unfold m. rewrite medium_recorded by assumption.
    unfold batchResult. fold tiers. now rewrite Hok.
  - intros Hok pkg Hin.
    assert (Tiers.light tiers <> []) as Hne
      by (intros Hnil; rewrite Hnil in Hin; contradiction).
    rewrite <- (RunFacts.avgPerPackage_share
                  (LintQuality.parseESLintOutput output) _ Hne).
    unfold m. rewrite light_recorded by assumption.
    unfold batchResult. fold tiers. now rewrite Hok.
Qed.

End Run.

(** C5 as stated does not hold. A heavy package whose invocation fails
    and a medium package of the same name whose batch succeeds with six
    errors: the report holds the medium package's record under the
    name, so the heavy package is not recorded as failed with 1
    error. *)
Lemma failed_package_overwritten :
  let packages := [Sample2.heavyTwin; Sample2.mediumTwin] in
  let tiers := LintQuality.categorizePackages packages in
  let m :=
    fst (LintQuality.runQualityLint Sample.relative Sample.execSync
           packages Sample.world) in
  Tiers.heavy tiers = [Sample2.heavyTwin] /\
  Exec.stdout
    (Sample.execSync
       (LintQuality.heavyCommand Sample.relative Sample2.heavyTwin))
  = None /\
  Metrics.packageResults m !! Package.name Sample2.heavyTwin
  = Some (Result.mk (JS.of_Z 6) (JS.of_Z 0) None success) /\
  ~ (exists elapsed : option Z,
       Metrics.packageResults m !! Package.name Sample2.heavyTwin
       = Some (Result.mk (JS.of_Z 1) (JS.of_Z 0) elapsed failed)).
Proof.
  cbv zeta.
  assert (Metrics.packageResults
            (fst (LintQuality.runQualityLint Sample.relative Sample.execSync
                    [Sample2.heavyTwin; Sample2.mediumTwin] Sample.world))
          !! Package.name Sample2.heavyTwin
          = Some (Result.mk (JS.of_Z 6) (JS.of_Z 0) None success)) as Hheld.
  { change (Package.name Sample2.heavyTwin)
      with (Package.name Sample2.mediumTwin).
    rewrite (medium_recorded Sample.relative Sample.execSync
               [Sample2.heavyTwin; Sample2.mediumTwin] Sample.world
               Sample2.mediumTwin).
    - vm_compute. reflexivity.
    - vm_compute. auto.
    - vm_compute. intros []. }
  repeat apply conj.
  - reflexivity.
  - vm_compute. reflexivity.
  - exact Hheld.
  - intros (elapsed & Hfailed). rewrite Hheld in Hfailed. discriminate.
Qed.

(** C6 as stated does not hold. A medium package whose batch succeeds
    with six errors, alone in its batch, and a light package of the same
    name whose batch fails: the report holds the light package's record
    under the name, not the share round(6 / 1) = 6 of the medium
    batch. *)
Lemma batch_member_overwritten :
  let packages := [Sample2.mediumTwin; Sample2.lightTwin] in
  let tiers := LintQuality.categorizePackages packages in
  let m :=
    fst (LintQuality.runQualityLint Sample.relative Sample.execSync
           packages Sample.world) in
  Tiers.medium tiers = [Sample2.mediumTwin] /\
  Exec.stdout
    (Sample.execSync
       (LintQuality.batchCommand Sample.relative "4" (Tiers.medium tiers)))
  = Some Sample.sixErrors /\
  Counts.errors (LintQuality.parseESLintOutput Sample.sixErrors) = 6%nat /\
  Spec.share 6 1 = 6 /\
  Metrics.packageResults m !! Package.name Sample2.mediumTwin
  = Some (Result.mk (JS.of_Z 1) (JS.of_Z 0) None failed).
Proof.
  cbv zeta. repeat apply conj; vm_compute; reflexivity.
Qed.

Lemma invocation_failure_recorded_witness :
  let run :=
    LintQuality.runQualityLint Sample.relative Sample.execSync
      Sample.packages Sample.world in
  Metrics.packageResults (fst run) !! "editor-ui"
  = Some (Result.mk (JS.of_Z 1) (JS.of_Z 0) (Some 120000) failed) /\
  Metrics.packageResults (fst run) !! "config"
  = Some (Result.mk (JS.of_Z 1) (JS.of_Z 0) None failed) /\
  Metrics.lintedPackages (fst run) = 6%nat /\
  World.report (snd run) = Some (ReportStringified (fst run)).
Proof.
  cbv zeta.
  destruct (invocation_failure_recorded Sample.relative Sample.execSync
              Sample.packages Sample.world)
    as (Hheavy & _ & Hlight & _ & Hn & _ & Hreport).
  repeat apply conj.
  - destruct (Hheavy [] Sample.editor []) as [elapsed H].
    + vm_compute. reflexivity.
    + vm_compute. reflexivity.
    + vm_compute. intuition discriminate.
    + vm_compute. reflexivity.
  - apply (Hlight eq_refl Sample.config). vm_compute. auto.
  - exact Hn.
  - exact Hreport.
Defined.

Lemma batch_split_evenly_witness :
  let m :=
    fst (LintQuality.runQualityLint Sample.relative Sample.execSync
           Sample.packages Sample.world) in
  Metrics.packageResults m !! "workflow"
  = Some (Result.mk (JS.of_Z 2) (JS.of_Z 0) None success) /\
  Metrics.packageResults m !! "utils"
  = Some (Result.mk (JS.of_Z 2) (JS.of_Z 0) None success) /\
  Metrics.packageResults m !! "api-types"
  = Some (Result.mk (JS.of_Z 2) (JS.of_Z 0) None success).
Proof.
  cbv zeta.
  destruct (batch_split_evenly Sample.relative Sample.execSync
              Sample.packages Sample.world Sample.sixErrors)
    as [Hmedium _].
  specialize (Hmedium eq_refl).
  repeat apply conj.
  - apply (Hmedium Sample.workflow);
      [vm_compute; auto | vm_compute; intuition discriminate].
  - apply (Hmedium Sample.utils);
      [vm_compute; auto | vm_compute; intuition discriminate].
  - apply (Hmedium Sample.apiTypes);
      [vm_compute; auto | vm_compute; intuition discriminate].
Defined.

End Scheduler.

(** ** The trend *)

Module Trend.

Section Run.

Variable relative : string -> string.
Variable execSync : string -> Exec.outcome.

Local Abbreviation run := (LintQuality.runQualityLint relative execSync).

(** The previous score of a run is what the report file held when the
    run started. *)
Lemma previousScore_loaded_at_construction (packages : list Package.t)
    (w : World.t) :
  Metrics.previousScore (fst (run packages w))
  = match World.report w with
    | Some (ReportStringified report) =>
        JS.json_or0 (JS.json (Metrics.qualityScore report))
    | Some ReportUnreadable | None => JS.of_Z 0
    end.
Proof.
  rewrite RunShape.run_previousScore. unfold LintQuality.loadPreviousScore.
  now destruct (World.report w) as [[|report]|].
Qed.

(** The report file is read at most once, before anything is spawned,
    and written once, last. *)
Lemma report_read_once_then_written (packages : list Package.t)
    (w : World.t) :
  exists probe spawned,
    World.trace (snd (run packages w))
    = World.trace w ++ probe ++ map Spawn spawned
        ++ [Write QUALITY_REPORT_FILE] /\
    (probe = [Exists QUALITY_REPORT_FILE]
     \/ probe = [Exists QUALITY_REPORT_FILE; Read QUALITY_REPORT_FILE]).
Proof.
  exists (Exists QUALITY_REPORT_FILE
          :: match World.report w with
             | Some _ => [Read QUALITY_REPORT_FILE]
             | None => []
             end),
    (Recorded.commands relative (LintQuality.categorizePackages packages)).
  split.
  - rewrite RunShape.run_trace. reflexivity.
  - destruct (World.report w); auto.
Qed.

End Run.

(** Two runs in a row from an empty report store, the first of which
    linted something: the second run's previous score is the first
    run's score. *)
Lemma second_run_sees_first_score
    (relative relative' : string -> string)
    (execSync execSync' : string -> Exec.outcome)
    (packages packages' : list Package.t) (w : World.t) :
  World.report w = None ->
  packages <> [] ->
  let first := LintQuality.runQualityLint relative execSync packages w in
  let second :=
    LintQuality.runQualityLint relative' execSync' packages' (snd first) in
  Metrics.previousScore (fst first) = JS.of_Z 0 /\
  Metrics.previousScore (fst second) = Metrics.qualityScore (fst first).
Proof.
  intros Hempty Hne first second. split.
  - unfold first. rewrite previousScore_loaded_at_construction.
    now rewrite Hempty.
  - unfold second. rewrite previousScore_loaded_at_construction.
    unfold first at 1. rewrite RunShape.run_report. fold first.
    assert (1 <= Metrics.lintedPackages (fst first))%nat as Hn.
    { unfold first. rewrite RunShape.run_lintedPackages.
      destruct packages; cbn; [congruence | lia]. }
    destruct (RunShape.run_score relative execSync packages w Hn)
      as (e & wn & _ & _ & _ & _ & Hscore).
    fold first in Hscore. rewrite Hscore. cbn [JS.fin JS.json JS.json_or0].
    apply JSFacts.or0_fin.
Qed.

(** C8, at the input where it fails: starting from an empty report
    store, a first run over no packages has previous score 0 and the
    score [NaN], which is persisted as [null]; whatever the second run
    lints, its previous score is 0, not the first run's score. *)
Theorem trend_lost_after_empty_run
    (relative relative' : string -> string)
    (execSync execSync' : string -> Exec.outcome)
    (packages' : list Package.t)
    (cache : option (Z * CacheText)) (packagesDir : list Package.t)
    (now : Z) (trace : list Event) :
  let w := World.mk None cache packagesDir now trace in
  let first := LintQuality.runQualityLint relative execSync [] w in
  let second :=
    LintQuality.runQualityLint relative' execSync' packages' (snd first) in
  Metrics.previousScore (fst first) = JS.of_Z 0 /\
  Metrics.qualityScore (fst first) = JS.NaN /\
  Metrics.previousScore (fst second) = JS.of_Z 0 /\
  Metrics.previousScore (fst second) <> Metrics.qualityScore (fst first).
Proof.
  intros w first second.
  assert (Metrics.previousScore (fst second) = JS.of_Z 0) as Hsecond.
  { unfold second. rewrite previousScore_loaded_at_construction.
    reflexivity. }
  repeat apply conj; try reflexivity; try assumption.
  rewrite Hsecond. discriminate.
Qed.

End Trend.

(** ** Discovery and its cache *)

Module Discovery.

(** C9. A cache younger than one hour whose content deserializes is
    returned as it is, and the only accesses are to the cache file: no
    traversal, no write. A young cache that does not deserialize leads
    to a fresh scan, whose result is returned and cached. Hence a cache
    written now, and read again before an hour has passed, gives back
    the packages that were written, without a scan. *)
Theorem cache_round_trip (w : World.t) :
  (forall mtime packages,
     World.cache w = Some (mtime, CacheStringified packages) ->
     World.now w - mtime < 3600000 ->
     LintQuality.getLintablePackages w
     = (packages, World.log LintQuality.cacheProbe w)) /\
  (forall mtime,
     World.cache w = Some (mtime, CacheCorrupted) ->
     World.now w - mtime < 3600000 ->
     let (found, w') := LintQuality.getLintablePackages w in
     found = World.packagesDir w /\
     World.cache w' = Some (World.now w, CacheStringified found) /\
     World.trace w'
     = World.trace w ++ LintQuality.cacheProbe ++ [Scan; Write cacheFile]) /\
  (forall packages dt,
     dt < 3600000 ->
     let written :=
       World.tick dt (World.writeCache (CacheStringified packages) w) in
     LintQuality.getLintablePackages written
     = (packages, World.log LintQuality.cacheProbe written) /\
     ~ In Scan LintQuality.cacheProbe).
Proof.
  repeat apply conj.
  - intros mtime packages Hcache Hage.
    unfold LintQuality.getLintablePackages. rewrite Hcache.
    apply Z.ltb_lt in Hage. now rewrite Hage.
  - intros mtime Hcache Hage.
    unfold LintQuality.getLintablePackages. rewrite Hcache.
    apply Z.ltb_lt in Hage. rewrite Hage. cbn.
    repeat split. now rewrite <- !app_assoc.
  - intros packages dt Hdt written. split.
    + unfold LintQuality.getLintablePackages. cbn.
      replace (World.now w + dt - World.now w) with dt by lia.
      apply Z.ltb_lt in Hdt. now rewrite Hdt.
    + cbn. intuition discriminate.
Qed.

Lemma cache_round_trip_witness :
  LintQuality.getLintablePackages
    (World.tick 0
       (World.writeCache (CacheStringified Sample.packages) Sample.world))
  = (Sample.packages,
     World.log LintQuality.cacheProbe
       (World.tick 0
          (World.writeCache (CacheStringified Sample.packages)
             Sample.world))).
Proof.
  destruct (cache_round_trip Sample.world) as (_ & _ & H).
  apply (H Sample.packages 0). lia.
Defined.

(** Discovering twice in a row: the second call returns what the first
    returned and scans nothing. *)
Lemma rediscovery_hits_cache (w : World.t) :
  let (found, w1) := LintQuality.getLintablePackages w in
  LintQuality.getLintablePackages w1
  = (found, World.log LintQuality.cacheProbe w1).
Proof.
  unfold LintQuality.getLintablePackages at 1.
  destruct (World.cache w) as [[mtime [|packages]]|] eqn:Hcache; cbn.
  - destruct (World.now w - mtime <? 3600000) eqn:Hage; cbn;
      unfold LintQuality.getLintablePackages; cbn;
      now rewrite Z.sub_diag.
  - destruct (World.now w - mtime <? 3600000) eqn:Hage; cbn;
      unfold LintQuality.getLintablePackages; cbn.
    + now rewrite Hcache, Hage.
    + now rewrite Z.sub_diag.
  - unfold LintQuality.getLintablePackages; cbn. now rewrite Z.sub_diag.
Qed.

End Discovery.

(** ** The output parser *)

Module Parser.

Lemma append_empty (s : string) : (s ++ EmptyString)%string = s.
Proof.
  induction s as [|c s IH]; [reflexivity|].
  change (String c s ++ EmptyString)%string
    with (String c (s ++ EmptyString))%string.
  now rewrite IH.
Qed.

Lemma startsWith_prefix (s sub : string) :
  Str.startsWith s sub = true <-> exists after, s = (sub ++ after)%string.
Proof.
  revert s. induction sub as [|b sub IH]; intros s; cbn.
  - split; [intros _; now exists s | now destruct s].
  - destruct s as [|a s]; cbn.
    + split; [discriminate | intros [after H]; discriminate].
    + rewrite andb_true_iff, IH, Ascii.eqb_eq. split.
      * intros [-> [after ->]]. now exists after.
      * intros [after H]. injection H as -> ->. split; [reflexivity|].
        now exists after.
Qed.

(** [includes] is the substring test. *)
Lemma includes_occurs (s sub : string) :
  Str.includes s sub = true <-> Spec.occurs sub s.
Proof.
  unfold Spec.occurs. induction s as [|a s IH].
  - cbn [Str.includes]. rewrite orb_false_r, startsWith_prefix. split.
    + intros [after H]. now exists EmptyString, after.
    + intros [[|c before] [after H]]; [now exists after|discriminate].
  - cbn [Str.includes]. rewrite orb_true_iff, startsWith_prefix, IH. split.
    + intros [[after H] | [before [after H]]].
      * now exists EmptyString, after.
      * exists (String a before), after. cbn. now rewrite H.
    + intros [[|c before] [after H]].
      * left. now exists after.
      * right. cbn in H. injection H as -> ->. now exists before, after.
Qed.

Lemma split_single (line : string) :
  Str.single_line line = true -> Str.split_lines line = [line].
Proof.
  induction line as [|c line IH]; [reflexivity|].
  cbn [Str.single_line Str.split_lines].
  rewrite andb_true_iff, negb_true_iff. intros [-> Hline].
  now rewrite IH.
Qed.

Lemma split_cons (line rest : string) :
  Str.single_line line = true ->
  Str.split_lines (line ++ Str.lineFeed ++ rest)
  = line :: Str.split_lines rest.
Proof.
  induction line as [|c line IH].
  - intros _. reflexivity.
  - change (String c line ++ Str.lineFeed ++ rest)%string
      with (String c (line ++ Str.lineFeed ++ rest))%string.
    cbn [Str.single_line Str.split_lines].
    rewrite andb_true_iff, negb_true_iff. intros [-> Hline].
    now rewrite IH.
Qed.

(** Splitting undoes joining, for pieces without a line feed. *)
Lemma split_join (lines : list string) :
  lines <> [] ->
  Forall (fun line => Str.single_line line = true) lines ->
  Str.split_lines (Str.join Str.lineFeed lines) = lines.
Proof.
  induction lines as [|line lines IH]; [congruence|].
  intros _ Hall. inversion Hall as [|? ? Hline Hrest]; subst.
  destruct lines as [|line' lines].
  - cbn. now apply split_single.
  - change (Str.join Str.lineFeed (line :: line' :: lines))
      with (line ++ Str.lineFeed
              ++ Str.join Str.lineFeed (line' :: lines))%string.
    rewrite split_cons by assumption. f_equal. now apply IH.
Qed.

Lemma count_fold (lines : list string) (acc : Counts.t) :
  fold_left LintQuality.countLine lines acc
  = Counts.mk
      (Counts.errors acc
       + length (List.filter (fun line => Str.includes line "error") lines))
      (Counts.warnings acc
       + length (List.filter (fun line => Str.includes line "warning") lines)).
Proof.
  revert acc. induction lines as [|line lines IH]; intros acc;
    cbn [fold_left List.filter].
  - destruct acc. cbn. f_equal; lia.
  - rewrite IH. unfold LintQuality.countLine.
    cbn [Counts.errors Counts.warnings].
    destruct (Str.includes line "error"), (Str.includes line "warning");
      cbn [length]; f_equal; lia.
Qed.

(** C10. The parser counts lines, not occurrences: for an output made of
    lines, the error count is the number of lines in which the text
    "error" occurs and the warning count the number of lines in which
    "warning" occurs, occurrence being the case-sensitive substring test;
    a line with both texts counts once for each, a line with "error"
    several times counts once, a line with only "Error" counts for
    neither. *)
Theorem parser_counts_lines :
  (forall lines,
     lines <> [] ->
     Forall (fun line => Str.single_line line = true) lines ->
     LintQuality.parseESLintOutput (Str.join Str.lineFeed lines)
     = Counts.mk
         (length (List.filter (fun line => Str.includes line "error") lines))
         (length
            (List.filter (fun line => Str.includes line "warning") lines))) /\
  (forall line sub, Str.includes line sub = true <-> Spec.occurs sub line) /\
  LintQuality.parseESLintOutput "2 errors, 3 warnings" = Counts.mk 1 1 /\
  LintQuality.parseESLintOutput "error: unexpected error in error handler"
  = Counts.mk 1 0 /\
  LintQuality.parseESLintOutput "Error" = Counts.mk 0 0.
Proof.
  repeat apply conj; try reflexivity.
  - intros lines Hne Hall. unfold LintQuality.parseESLintOutput.
    rewrite split_join by assumption. now rewrite count_fold.
  - intros line sub. apply includes_occurs.
Qed.

Lemma parser_counts_lines_witness :
  LintQuality.parseESLintOutput
    (Str.join Str.lineFeed
       ["a.ts 1:1 error no-undef"; "2 errors, 3 warnings"; "Error"])
  = Counts.mk 2 1.
Proof.
  apply (proj1 parser_counts_lines
           ["a.ts 1:1 error no-undef"; "2 errors, 3 warnings"; "Error"]).
  - discriminate.
  - repeat constructor.
Defined.

End Parser.

(** ** The gate *)

Module GateFacts.

Lemma Qle_bool_inject_Z (a b : Z) :
  Qle_bool (inject_Z a) (inject_Z b) = (a <=? b).
Proof. unfold Qle_bool. cbn. now rewrite !Z.mul_1_r. Qed.

Lemma gateScore_ratio (p t k : Z) :
  0 < t -> 100 * p = k * t ->
  (100 * inject_Z p / inject_Z t == inject_Z k)%Q.
Proof.
  intros Ht H.
  assert (~ inject_Z t == 0)%Q as Hnz.
  { change 0%Q with (inject_Z 0). rewrite inject_Z_injective. lia. }
  apply (Qmult_inj_r _ _ (inject_Z t) Hnz).
  unfold Qdiv. rewrite <- Qmult_assoc, (Qmult_comm (/ inject_Z t)).
  rewrite Qmult_inv_r, Qmult_1_r by assumption.
  change 100%Q with (inject_Z 100). rewrite <- !inject_Z_mult.
  now rewrite H.
Qed.

Lemma round_inject_Z (k : Z) : Spec.round (inject_Z k) = k.
Proof.
  unfold Spec.round.
  pose proof (Qfloor_le (inject_Z k + (1 # 2))) as Hl.
  pose proof (Qlt_floor (inject_Z k + (1 # 2))) as Hu.
  set (f := Qfloor (inject_Z k + (1 # 2))) in *.
  assert (inject_Z f <= inject_Z k + (1 # 2))%Q as Hl' by exact Hl.
  assert (inject_Z f < inject_Z (k + 1))%Q as H1.
  { rewrite inject_Z_plus. change (inject_Z 1) with 1%Q. lra. }
  assert (inject_Z k < inject_Z (f + 1))%Q as H2.
  { lra. }
  rewrite <- Zlt_Qlt in H1, H2. lia.
Qed.

(** [process.argv.includes('--include-build')] *)
Lemma includeBuild_argv (env : Env.t) :
  QualityGate.includeBuild env = true
  <-> In "--include-build"%string (Env.argv env).
Proof.
  unfold QualityGate.includeBuild. rewrite existsb_exists. split.
  - intros (arg & Hin & E). apply String.eqb_eq in E. now subst arg.
  - intros Hin. exists "--include-build"%string. split; [assumption|].
    apply String.eqb_refl.
Qed.

Section Checks.

Variable toString : JS.number -> string.
Variable test : SecurityPattern -> string -> bool.

Local Abbreviation addCheck := QualityGate.addCheck.
Local Abbreviation check := (QualityGate.check toString test).

(** What calculateScore stores when the list of checks is not empty. *)
Lemma calculateScore_spec (g : Gate.t) :
  (1 <= QualityGate.totalChecks g)%nat ->
  let k := Spec.gateScore (QualityGate.passedChecks g)
                          (QualityGate.totalChecks g) in
  Gate.score (QualityGate.calculateScore g) = JS.of_Z k /\
  Gate.passed (QualityGate.calculateScore g) = (85 <=? k) /\
  Gate.checks (QualityGate.calculateScore g) = Gate.checks g.
Proof.
  intros Ht k. unfold QualityGate.calculateScore. cbn [Gate.score Gate.passed
    Gate.checks].
  set (p := QualityGate.passedChecks g) in *.
  set (t := QualityGate.totalChecks g) in *.
  assert (~ inject_Z (Z.of_nat t) == 0)%Q as Hnz.
  { change 0%Q with (inject_Z 0). rewrite inject_Z_injective. lia. }
  pose proof (JSFacts.denotes_div _ _ _ _ (JSFacts.denotes_of_Z (Z.of_nat p))
                (JSFacts.denotes_of_Z (Z.of_nat t)) Hnz) as Hq.
  pose proof (JSFacts.denotes_mul _ _ _ _ Hq (JSFacts.denotes_of_Z 100))
    as Hs.
  assert (JS.round (JS.mul (JS.div (JS.of_nat p) (JS.of_nat t)) (JS.of_Z 100))
          = JS.of_Z k) as ->.
  { unfold JS.of_nat. rewrite (JSFacts.round_of_Z _ _ Hs).
    unfold k, Spec.gateScore, Spec.round. apply f_equal.
    apply Qfloor_comp. change (inject_Z 100) with 100%Q.
    now field. }
  repeat split. unfold JS.geb, JS.leb, JS.of_Z.
  apply Qle_bool_inject_Z.
Qed.

Lemma addCheck_checks name passed message score (g : Gate.t) :
  Gate.checks (addCheck name passed message score g)
  = Gate.checks g ++ [Check.mk name passed message score].
Proof. reflexivity. Qed.

(** Closes a goal that lists what a run of [addCheck] calls appended. *)
Ltac appended :=
  rewrite !addCheck_checks, <- ?app_assoc;
  eexists; split; [reflexivity|];
  split; [discriminate | repeat constructor; discriminate].

(** Each of the six checkers appends at least one check, none of them
    named Build. *)
Lemma check_appends (c : QualityGate.Checker) (env : Env.t) (g : Gate.t) :
  exists added,
    Gate.checks (check c env g) = Gate.checks g ++ added /\
    added <> [] /\
    Forall (fun added => Check.name added <> "Build"%string) added.
Proof.
  destruct c; cbn [QualityGate.check].
  - unfold QualityGate.checkLintQuality.
    destruct (Env.lintReport env) as [report|message]; appended.
  - unfold QualityGate.checkTypeScript.
    destruct (Env.typecheck env); appended.
  - unfold QualityGate.checkSecurity.
    destruct (Env.sourceListing env); appended.
  - unfold QualityGate.checkFormatting.
    destruct (Env.formatCheck env); appended.
  - unfold QualityGate.checkTodoComments.
    destruct (Env.todoCount env); appended.
  - unfold QualityGate.checkDependencies.
    destruct (Env.audit env); appended.
Qed.

Lemma standardChecks_checks (env : Env.t) :
  let checks := Gate.checks (QualityGate.standardChecks toString test env) in
  checks <> [] /\
  Forall (fun added => Check.name added <> "Build"%string) checks.
Proof.
  cbn zeta. unfold QualityGate.standardChecks.
  change (QualityGate.checkDependencies env)
    with (check QualityGate.Dependencies env).
  change (QualityGate.checkTodoComments toString env)
    with (check QualityGate.TodoComments env).
  change (QualityGate.checkFormatting env)
    with (check QualityGate.Formatting env).
  change (QualityGate.checkSecurity toString test env)
    with (check QualityGate.Security env).
  change (QualityGate.checkTypeScript env)
    with (check QualityGate.TypeScript env).
  change (QualityGate.checkLintQuality toString env)
    with (check QualityGate.LintQuality env).
  set (g0 := QualityGate.constructor).
  destruct (check_appends QualityGate.LintQuality env g0)
    as (a1 & E1 & N1 & F1).
  set (g1 := check QualityGate.LintQuality env g0) in *.
  destruct (check_appends QualityGate.TypeScript env g1) as (a2 & E2 & _ & F2).
  set (g2 := check QualityGate.TypeScript env g1) in *.
  destruct (check_appends QualityGate.Security env g2) as (a3 & E3 & _ & F3).
  set (g3 := check QualityGate.Security env g2) in *.
  destruct (check_appends QualityGate.Formatting env g3) as (a4 & E4 & _ & F4).
  set (g4 := check QualityGate.Formatting env g3) in *.
  destruct (check_appends QualityGate.TodoComments env g4)
    as (a5 & E5 & _ & F5).
  set (g5 := check QualityGate.TodoComments env g4) in *.
  destruct (check_appends QualityGate.Dependencies env g5)
    as (a6 & E6 & _ & F6).
  rewrite E6, E5, E4, E3, E2, E1. cbn [Gate.checks g0 QualityGate.constructor
    app].
  split.
  - destruct a1; [congruence | discriminate].
  - rewrite !Forall_app. tauto.
Qed.

End Checks.

End GateFacts.

Module GateVerdict.

(** C3. The gate score is round(100 * passedChecks / totalChecks) over
    the checks that were added: those of the six standard checkers, none
    of which is the build check, followed by the build check exactly
    when --include-build is among the arguments of the process; the
    verdict is passed exactly when that score is at least 85. So
    whenever exactly 85% of the checks of a list pass the verdict is
    passed, and whenever exactly 84% pass it is not. *)
Theorem gate_score_and_verdict (toString : JS.number -> string)
    (test : SecurityPattern -> string -> bool) (env : Env.t) :
  let standard := Gate.checks (QualityGate.standardChecks toString test env) in
  let result := QualityGate.runAllChecks toString test env in
  let passedChecks := length (List.filter Check.passed (Gate.checks result)) in
  let totalChecks := length (Gate.checks result) in
  Forall (fun c => Check.name c <> "Build"%string) standard /\
  (~ In "--include-build"%string (Env.argv env) ->
   Gate.checks result = standard) /\
  (In "--include-build"%string (Env.argv env) ->
   exists build,
     Gate.checks result = standard ++ [build] /\
     Check.name build = "Build"%string) /\
  (QualityGate.includeBuild env = true
   <-> In "--include-build"%string (Env.argv env)) /\
  Gate.score result = JS.of_Z (Spec.gateScore passedChecks totalChecks) /\
  Gate.passed result = (85 <=? Spec.gateScore passedChecks totalChecks) /\
  (forall g : Gate.t,
     (1 <= QualityGate.totalChecks g)%nat ->
     100 * Z.of_nat (QualityGate.passedChecks g)
     = 85 * Z.of_nat (QualityGate.totalChecks g) ->
     Gate.passed (QualityGate.calculateScore g) = true) /\
  (forall g : Gate.t,
     (1 <= QualityGate.totalChecks g)%nat ->
     100 * Z.of_nat (QualityGate.passedChecks g)
     = 84 * Z.of_nat (QualityGate.totalChecks g) ->
     Gate.passed (QualityGate.calculateScore g) = false).
Proof.
  intros standard result passedChecks totalChecks.
  destruct (GateFacts.standardChecks_checks toString test env)
    as [Hne Hnames]. fold standard in Hne, Hnames.
  assert (Gate.checks (QualityGate.runChecks toString test env)
          = standard
              ++ (if QualityGate.includeBuild env
                  then [Check.mk "Build"
                          (match Env.build env with
                           | Returned _ => true | Thrown _ => false end)
                          (match Env.build env with
                           | Returned _ =>
                               "Build process completes successfully"
                           | Thrown _ =>
                               "Build process failed or timed out"
                           end)
                          QualityGate.noScore]
                  else [])) as Hran.
  { unfold QualityGate.runChecks, QualityGate.checkBuild.
    destruct (QualityGate.includeBuild env).
    - now destruct (Env.build env).
    - now rewrite app_nil_r. }
  assert (1 <= QualityGate.totalChecks
                 (QualityGate.runChecks toString test env))%nat as Htotal.
  { unfold QualityGate.totalChecks. rewrite Hran, length_app.
    destruct standard; [congruence | cbn; lia]. }
  destruct (GateFacts.calculateScore_spec _ Htotal)
    as (Hscore & Hpassed & Hchecks).
  fold (QualityGate.runAllChecks toString test env) in Hscore, Hpassed, Hchecks.
  fold result in Hscore, Hpassed, Hchecks.
  assert (passedChecks
          = QualityGate.passedChecks (QualityGate.runChecks toString test env))
    as Hp
    by (unfold passedChecks, QualityGate.passedChecks; now rewrite Hchecks).
  assert (totalChecks
          = QualityGate.totalChecks (QualityGate.runChecks toString test env))
    as Ht by (unfold totalChecks, QualityGate.totalChecks; now rewrite Hchecks).
  pose proof (GateFacts.includeBuild_argv env) as Hargv.
  repeat apply conj.
  - exact Hnames.
  - intros Hflag. rewrite Hchecks, Hran.
    destruct (QualityGate.includeBuild env); [|apply app_nil_r].
    exfalso. now apply Hflag, Hargv.
  - intros Hflag. apply Hargv in Hflag.
    rewrite Hchecks, Hran, Hflag. eexists. split; reflexivity.
  - apply Hargv.
  - apply Hargv.
  - now rewrite Hp, Ht.
  - now rewrite Hp, Ht.
  - intros g Hg H85.
    destruct (GateFacts.calculateScore_spec g Hg) as (_ & -> & _).
    unfold Spec.gateScore.
    assert (Spec.round (100 * inject_Z (Z.of_nat (QualityGate.passedChecks g))
                          / inject_Z (Z.of_nat (QualityGate.totalChecks g)))
            = 85) as ->; [|reflexivity].
    rewrite <- (GateFacts.round_inject_Z 85). unfold Spec.round.
    apply Qfloor_comp. rewrite (GateFacts.gateScore_ratio _ _ 85);
      [reflexivity | lia | assumption].
  - intros g Hg H84.
    destruct (GateFacts.calculateScore_spec g Hg) as (_ & -> & _).
    unfold Spec.gateScore.
    assert (Spec.round (100 * inject_Z (Z.of_nat (QualityGate.passedChecks g))
                          / inject_Z (Z.of_nat (QualityGate.totalChecks g)))
            = 84) as ->; [|reflexivity].
    rewrite <- (GateFacts.round_inject_Z 84). unfold Spec.round.
    apply Qfloor_comp. rewrite (GateFacts.gateScore_ratio _ _ 84);
      [reflexivity | lia | assumption].
Qed.

Lemma gate_score_and_verdict_witness :
  Gate.passed (QualityGate.calculateScore Sample.gate85) = true /\
  Gate.passed (QualityGate.calculateScore Sample.gate84) = false.
Proof.
  destruct (gate_score_and_verdict Sample.render Sample.noMatch
              Sample.allThrow) as (_ & _ & _ & _ & _ & _ & H85 & H84).
  split.
  - apply H85; vm_compute; [lia | reflexivity].
  - apply H84; vm_compute; [lia | reflexivity].
Defined.

(** C7 as stated does not hold. In a gate run where every guarded step
    throws, the check the TODO checker adds has passed, and the checks
    the TypeScript, formatting and dependency checkers add have failed
    with messages that do not carry the message of the exception. *)
Lemma checkers_drop_the_exception :
  (QualityGate.throws QualityGate.TodoComments Sample.allThrow "spawn failed" /\
   ~ Spec.caughtAsFailureAt Sample.render Sample.noMatch
       QualityGate.TodoComments Sample.allThrow "spawn failed"
       QualityGate.constructor) /\
  (QualityGate.throws QualityGate.TypeScript Sample.allThrow "exit 2" /\
   ~ Spec.caughtAsFailureAt Sample.render Sample.noMatch
       QualityGate.TypeScript Sample.allThrow "exit 2"
       QualityGate.constructor) /\
  (QualityGate.throws QualityGate.Formatting Sample.allThrow "exit 1" /\
   ~ Spec.caughtAsFailureAt Sample.render Sample.noMatch
       QualityGate.Formatting Sample.allThrow "exit 1"
       QualityGate.constructor) /\
  (QualityGate.throws QualityGate.Dependencies Sample.allThrow "audit exit 1" /\
   ~ Spec.caughtAsFailureAt Sample.render Sample.noMatch
       QualityGate.Dependencies Sample.allThrow "audit exit 1"
       QualityGate.constructor) /\
  ~ Spec.caughtAsFailure Sample.render Sample.noMatch.
Proof.
  assert (~ Spec.caughtAsFailureAt Sample.render Sample.noMatch
            QualityGate.TodoComments Sample.allThrow "spawn failed"
            QualityGate.constructor) as Htodo.
  { intros (failure & Hchecks & Hpassed & _).
    cbn in Hchecks. injection Hchecks as <-. discriminate. }
  repeat apply conj; try reflexivity; try exact Htodo.
  - intros (failure & Hchecks & _ & Hmessage).
    cbn in Hchecks. injection Hchecks as <-.
    vm_compute in Hmessage. discriminate.
  - intros (failure & Hchecks & _ & Hmessage).
    cbn in Hchecks. injection Hchecks as <-.
    vm_compute in Hmessage. discriminate.
  - intros (failure & Hchecks & _ & Hmessage).
    cbn in Hchecks. injection Hchecks as <-.
    vm_compute in Hmessage. discriminate.
  - intros H. apply Htodo. now apply H.
Qed.

(** C7, amended. When the guarded step of a checker throws, the checker
    returns normally having added exactly one check, under the checker's
    name; that check has failed for the lint quality, TypeScript,
    security, formatting and dependency checkers and has passed for the
    TODO checker. Its message contains the message of the exception for
    the lint quality and security checkers; it is a fixed text for the
    TypeScript, formatting and TODO checkers; for the dependency checker
    it is one of two fixed texts, chosen by whether the message of the
    exception contains "audit". A recommendation is added exactly when
    the check failed. *)
Theorem caught_exception_outcome (toString : JS.number -> string)
    (test : SecurityPattern -> string -> bool) (c : QualityGate.Checker)
    (env : Env.t) (message : string) (g : Gate.t) :
  QualityGate.throws c env message ->
  let g' := QualityGate.check toString test c env g in
  exists added : Check.t,
    Gate.checks g' = Gate.checks g ++ [added] /\
    Check.name added = QualityGate.caughtName c /\
    (Check.passed added = false <-> c <> QualityGate.TodoComments) /\
    (Check.passed added = true <-> c = QualityGate.TodoComments) /\
    match c with
    | QualityGate.LintQuality =>
        Check.message added
        = ("Failed to check lint quality: " ++ message)%string
        /\ Str.includes (Check.message added) message = true
    | QualityGate.Security =>
        Check.message added = ("Security check failed: " ++ message)%string
        /\ Str.includes (Check.message added) message = true
    | QualityGate.TypeScript =>
        Check.message added = "TypeScript compilation errors detected"%string
    | QualityGate.Formatting =>
        Check.message added = "Code formatting issues detected"%string
    | QualityGate.TodoComments =>
        Check.message added = "Unable to check TODO comments"%string
    | QualityGate.Dependencies =>
        Check.message added
        = if Str.includes message "audit"
          then "Dependency vulnerabilities detected"%string
          else "Dependency check failed"%string
    end /\
    length (Gate.recommendations g')
    = (length (Gate.recommendations g)
       + (if Check.passed added then 0 else 1))%nat.
Proof.
  intros Hthrows g'. subst g'.
  exists (Check.mk (QualityGate.caughtName c) (QualityGate.caughtPassed c)
            (QualityGate.caughtMessage c message) QualityGate.noScore).
  repeat apply conj.
  - destruct c; cbn in Hthrows |- *;
      [ unfold QualityGate.checkLintQuality
      | unfold QualityGate.checkTypeScript
      | unfold QualityGate.checkSecurity
      | unfold QualityGate.checkFormatting
      | unfold QualityGate.checkTodoComments
      | unfold QualityGate.checkDependencies ];
      rewrite Hthrows; reflexivity.
  - reflexivity.
  - destruct c; cbn; congruence.
  - destruct c; cbn; congruence.
  - destruct c; cbn; congruence.
  - destruct c; cbn; congruence.
  - destruct c; cbn [Check.message QualityGate.caughtMessage];
      try reflexivity; (split; [reflexivity|]);
      apply Parser.includes_occurs.
    + now exists "Failed to check lint quality: "%string, EmptyString;
        rewrite Parser.append_empty.
    + now exists "Security check failed: "%string, EmptyString;
        rewrite Parser.append_empty.
  - destruct c; cbn in Hthrows |- *;
      [ unfold QualityGate.checkLintQuality
      | unfold QualityGate.checkTypeScript
      | unfold QualityGate.checkSecurity
      | unfold QualityGate.checkFormatting
      | unfold QualityGate.checkTodoComments
      | unfold QualityGate.checkDependencies ];
      rewrite Hthrows; cbn; rewrite ?length_app; cbn; lia.
Qed.

Lemma caught_exception_outcome_witness :
  exists added : Check.t,
    Gate.checks
      (QualityGate.check Sample.render Sample.noMatch
         QualityGate.Dependencies Sample.allThrow QualityGate.constructor)
    = [added] /\
    Check.passed added = false /\
    Check.message added = "Dependency vulnerabilities detected"%string.
Proof.
  destruct (caught_exception_outcome Sample.render Sample.noMatch
              QualityGate.Dependencies Sample.allThrow "audit exit 1"
              QualityGate.constructor eq_refl)
    as (added & Hchecks & _ & Hfailed & _ & Hmessage & _).
  exists added. repeat split.
  - exact Hchecks.
  - apply Hfailed. discriminate.
  - exact Hmessage.
Defined.

End GateVerdict.


(** * Further properties of the scripts *)

(** ** Totals of a run *)

Module RunTotals.
Import Recorded Totals.

Lemma count_of_Z (z : Z) : count (JS.of_Z z) = z.
Proof. apply Qfloor_Z. Qed.

Lemma whole_errors (r : Result.t) :
  whole r -> Result.errors r = JS.of_Z (count (Result.errors r))
             /\ 0 <= count (Result.errors r).
Proof.
  intros (e & w & He & Hw & Ee & Ew). rewrite Ee, count_of_Z. now split.
Qed.

Lemma whole_warnings (r : Result.t) :
  whole r -> Result.warnings r = JS.of_Z (count (Result.warnings r))
             /\ 0 <= count (Result.warnings r).
Proof.
  intros (e & w & He & Hw & Ee & Ew). rewrite Ew, count_of_Z. now split.
Qed.

(** Recording adds the counts of the entries to the totals. *)
Lemma recordList_totals (l : list (string * Result.t)) (m : Metrics.t)
    (e w : Z) :
  Forall (fun entry => whole (snd entry)) l ->
  Metrics.errors m = JS.of_Z e ->
  Metrics.warnings m = JS.of_Z w ->
  Metrics.errors (recordList l m) = JS.of_Z (e + sumErrors (map snd l)) /\
  Metrics.warnings (recordList l m) = JS.of_Z (w + sumWarnings (map snd l)).
Proof.
  revert m e w. induction l as [|[k r] l IH]; intros m e w Hall He Hw.
  - cbn. now rewrite !Z.add_0_r.
  - inversion Hall as [|? ? Hr Hl]; subst. cbn [snd] in Hr.
    destruct (whole_errors r Hr) as [Er _].
    destruct (whole_warnings r Hr) as [Wr _].
    cbn [recordList fold_left map fst snd sumErrors sumWarnings fold_right].
    destruct (IH (LintQuality.addPackageResult k r m)
                 (e + count (Result.errors r))
                 (w + count (Result.warnings r)) Hl) as [IHe IHw].
    + cbn. rewrite He, Er, JSFacts.or0_of_Z, JSFacts.add_of_Z.
      now rewrite count_of_Z.
    + cbn. rewrite Hw, Wr, JSFacts.or0_of_Z, JSFacts.add_of_Z.
      now rewrite count_of_Z.
    + unfold recordList in IHe, IHw. rewrite IHe, IHw.
      fold (sumErrors (map snd l)). fold (sumWarnings (map snd l)).
      split; f_equal; lia.
Qed.

Lemma sumErrors_perm (l1 l2 : list Result.t) :
  Permutation l1 l2 -> sumErrors l1 = sumErrors l2.
Proof.
  unfold sumErrors. induction 1; cbn in *; lia.
Qed.

Lemma sumWarnings_perm (l1 l2 : list Result.t) :
  Permutation l1 l2 -> sumWarnings l1 = sumWarnings l2.
Proof.
  unfold sumWarnings. induction 1; cbn in *; lia.
Qed.

End RunTotals.


(** ** The stored results of a run *)

Module RunStore.
Import Recorded Totals.

Lemma fmap_map {A B} (f : A -> B) (l : list A) : f <$> l = map f l.
Proof. reflexivity. Qed.

Lemma recordList_store (l : list (string * Result.t)) (m : Metrics.t) :
  List.NoDup (map fst l) ->
  Metrics.packageResults (recordList l m)
  = (list_to_map l : gmap string Result.t) ∪ Metrics.packageResults m.
Proof.
  revert m. induction l as [|[k r] l IH]; intros m Hnd.
  - cbn. now rewrite (left_id_L ∅ (∪)).
  - cbn in Hnd. inversion Hnd as [|? ? Hk Hl]; subst.
    change (recordList ((k, r) :: l) m)
      with (recordList l (LintQuality.addPackageResult k r m)).
    rewrite IH by assumption. cbn [LintQuality.addPackageResult
      Metrics.packageResults list_to_map foldr].
    rewrite <- insert_union_r, insert_union_l; [reflexivity|].
    apply not_elem_of_list_to_map_1. rewrite fmap_map.
    now rewrite list_elem_of_In.
Qed.

Section Run.

Variable relative : string -> string.
Variable execSync : string -> Exec.outcome.

Local Abbreviation run := (LintQuality.runQualityLint relative execSync).

Lemma run_store (packages : list Package.t) (w : World.t) :
  List.NoDup (map Package.name packages) ->
  Metrics.packageResults (fst (run packages w))
  = list_to_map
      (entries relative execSync (LintQuality.categorizePackages packages)).
Proof.
  intros Hnd. rewrite RunShape.run_packageResults.
  rewrite recordList_store by now apply RunFacts.entries_NoDup.
  unfold LintQuality.setTotalPackages, LintQuality.constructor.
  destruct (LintQuality.loadPreviousScore w). cbn.
  now rewrite (right_id_L ∅ (∪)).
Qed.

Lemma run_totals (packages : list Package.t) (w : World.t) :
  let all :=
    map snd
      (entries relative execSync (LintQuality.categorizePackages packages)) in
  Metrics.errors (fst (run packages w)) = JS.of_Z (sumErrors all) /\
  Metrics.warnings (fst (run packages w)) = JS.of_Z (sumWarnings all).
Proof.
  cbn zeta. rewrite RunShape.run_shape.
  cbn [LintQuality.finalize fst LintQuality.calculateQualityScore
       LintQuality.stopClock Metrics.errors Metrics.warnings].
  destruct (RunShape.constructor_fresh w) as (_ & He & Hw & _).
  apply (RunTotals.recordList_totals _ _ 0 0).
  - apply RunFacts.entries_whole.
  - exact He.
  - exact Hw.
Qed.

End Run.

End RunStore.


(** ** The report of a run *)

Module RunReport.
Import Recorded Totals.

Lemma size_recordList (l : list (string * Result.t)) (m : Metrics.t) :
  (size (Metrics.packageResults (recordList l m))
   <= size (Metrics.packageResults m) + length l)%nat.
Proof.
  revert m. induction l as [|[k r] l IH]; intros m; [cbn; lia|].
  change (recordList ((k, r) :: l) m)
    with (recordList l (LintQuality.addPackageResult k r m)).
  etransitivity; [apply IH|].
  cbn [LintQuality.addPackageResult Metrics.packageResults length].
  rewrite map_size_insert.
  destruct (Metrics.packageResults m !! k); unfold id; lia.
Qed.

Lemma ltb_fin (q : Q) (z : Z) :
  JS.ltb (JS.fin q) (JS.of_Z z) = true <-> (q < inject_Z z)%Q.
Proof.
  unfold JS.ltb, JS.leb, JS.fin, JS.of_Z.
  rewrite andb_true_iff, negb_true_iff, Qle_bool_iff.
  rewrite <- not_true_iff_false, Qle_bool_iff, !Qred_correct.
  split.
  - intros [_ H]. now apply Qnot_le_lt.
  - intros H. split; [now apply Qlt_le_weak | now apply Qlt_not_le].
Qed.

Lemma geb_fin (q : Q) (z : Z) :
  JS.geb (JS.fin q) (JS.of_Z z) = true <-> (inject_Z z <= q)%Q.
Proof.
  unfold JS.geb, JS.leb, JS.fin, JS.of_Z.
  now rewrite Qle_bool_iff, Qred_correct.
Qed.


(** Below 70 exactly when there are more than 3.0005 issues per linted
    package. *)
Lemma score_below_70 (e w : Z) (n : nat) :
  (1 <= n)%nat ->
  (Spec.qualityScore e w n < inject_Z 70)%Q
  <-> 6001 * Z.of_nat n < 2000 * (e + w).
Proof.
  intros Hn. unfold Spec.qualityScore, Spec.round2.
  set (c := Spec.clampedScore e w n).
  set (k := Spec.round (c * 100)).
  assert (0 < inject_Z (Z.of_nat n))%Q as Hpos.
  { change 0%Q with (inject_Z 0). rewrite <- Zlt_Qlt. lia. }
  assert ((inject_Z k / 100 < inject_Z 70)%Q <-> k < 7000) as ->.
  { rewrite (Zlt_Qlt k 7000). change (inject_Z 7000) with (70 * 100)%Q.
    change (inject_Z 70) with 70%Q. split; intros H.
    - apply (Qmult_lt_r _ _ 100) ; [reflexivity|].
      assert (inject_Z k / 100 * 100 == inject_Z k)%Q as E by field.
      lra.
    - apply Qlt_shift_div_r; [reflexivity | exact H]. }
  assert (k < 7000 <-> (c * 100 + (1 # 2) < 7000)%Q) as ->.
  { unfold k, Spec.round.
    pose proof (Qfloor_le (c * 100 + (1 # 2))) as Hl.
    pose proof (Qlt_floor (c * 100 + (1 # 2))) as Hu.
    set (f := Qfloor (c * 100 + (1 # 2))) in *.
    rewrite inject_Z_plus in Hu. change (inject_Z 1) with 1%Q in Hu.
    split; intros H.
    - assert (f + 1 <= 7000) as H' by lia.
      rewrite Zle_Qle, inject_Z_plus in H'.
      change (inject_Z 1) with 1%Q in H'.
      change (inject_Z 7000) with 7000%Q in H'. lra.
    - rewrite Zlt_Qlt. change (inject_Z 7000) with 7000%Q. lra. }
  set (x := (100 - inject_Z (e + w)
                   / (10 * inject_Z (Z.of_nat n)) * 100)%Q).
  assert ((c * 100 + (1 # 2) < 7000)%Q <-> (x < 69995 # 1000)%Q) as ->.
  { unfold c, Spec.clampedScore. fold x. unfold Spec.clamp.
    split; intros H.
    - assert (Qmax 0 (Qmin 100 x) < 69995 # 1000)%Q as H' by lra.
      apply Q.max_lub_lt_iff in H' as [_ H'].
      apply Q.min_lt_iff in H' as [H' | H']; [lra | exact H'].
    - assert (Qmax 0 (Qmin 100 x) < 69995 # 1000)%Q; [|lra].
      apply Q.max_lub_lt; [reflexivity|].
      apply Q.min_lt_iff. now right. }
  unfold x. rewrite ScoreFacts.issues_ratio by assumption.
  set (t := inject_Z (e + w)). set (d := inject_Z (Z.of_nat n)) in *.
  assert ((100 - t * (10 # 1) / d < 69995 # 1000)%Q
          <-> (inject_Z 6001 * d < inject_Z 2000 * t)%Q) as ->.
  { change (inject_Z 6001) with 6001%Q. change (inject_Z 2000) with 2000%Q.
    split; intros H.
    - assert ((30005 # 1000) < t * (10 # 1) / d)%Q as H' by lra.
      apply (Qmult_lt_r _ _ d Hpos) in H'.
      assert (t * (10 # 1) / d * d == t * (10 # 1))%Q as E.
      { field. intros Hd. rewrite Hd in Hpos. discriminate. }
      lra.
    - assert ((30005 # 1000) < t * (10 # 1) / d)%Q; [|lra].
      apply Qlt_shift_div_l; [assumption | lra]. }
  unfold t, d. rewrite <- !inject_Z_mult, <- Zlt_Qlt. reflexivity.
Qed.

Section Run.

Variable relative : string -> string.
Variable execSync : string -> Exec.outcome.

Local Abbreviation run := (LintQuality.runQualityLint relative execSync).

Lemma run_totalPackages (packages : list Package.t) (w : World.t) :
  Metrics.totalPackages (fst (run packages w)) = length packages.
Proof.
  rewrite RunShape.run_shape. cbn.
  now rewrite RunFacts.recordList_totalPackages.
Qed.

(** X1. Whatever the invocations do, a run counts every package it was
    given: [totalPackages] and [lintedPackages] are both the number of
    packages, and [packageResults] never holds more entries than that. *)
Theorem every_package_counted (packages : list Package.t) (w : World.t) :
  let m := fst (run packages w) in
  Metrics.totalPackages m = length packages /\
  Metrics.lintedPackages m = length packages /\
  (size (Metrics.packageResults m) <= length packages)%nat.
Proof.
  cbn zeta. split; [apply run_totalPackages|].
  split; [apply RunShape.run_lintedPackages|].
  rewrite RunShape.run_packageResults.
  etransitivity; [apply size_recordList|].
  rewrite RunFacts.entries_length.
  unfold LintQuality.setTotalPackages, LintQuality.constructor.
  destruct (LintQuality.loadPreviousScore w). cbn.
  rewrite map_size_empty. lia.
Qed.

(** X2. With distinct package names the report is consistent with
    itself: [packageResults] has one entry per linted package, and
    [errors] and [warnings] are the sums of the counts stored in it. *)
Theorem report_totals_consistent (packages : list Package.t)
    (w : World.t) :
  List.NoDup (map Package.name packages) ->
  let m := fst (run packages w) in
  size (Metrics.packageResults m) = Metrics.lintedPackages m /\
  Metrics.errors m = JS.of_Z (sumErrors (stored m)) /\
  Metrics.warnings m = JS.of_Z (sumWarnings (stored m)).
Proof.
  intros Hnd m.
  pose proof (RunFacts.entries_NoDup relative execSync packages Hnd) as He.
  assert (Permutation
            (map_to_list (Metrics.packageResults m))
            (entries relative execSync
               (LintQuality.categorizePackages packages))) as Hperm.
  { unfold m. rewrite RunStore.run_store by assumption.
    apply map_to_list_to_map.
    rewrite (RunStore.fmap_map fst
               (entries relative execSync
                  (LintQuality.categorizePackages packages))).
    now apply NoDup_ListNoDup. }
  destruct (RunStore.run_totals relative execSync packages w) as [Herr Hwarn].
  fold m in Herr, Hwarn. repeat apply conj.
  - unfold m at 2. rewrite RunShape.run_lintedPackages.
    rewrite <- (RunFacts.entries_length relative execSync packages).
    rewrite <- (Permutation_length Hperm).
    symmetry. apply length_map_to_list.
  - rewrite Herr. f_equal. apply RunTotals.sumErrors_perm.
    unfold stored. apply Permutation_map. now symmetry.
  - rewrite Hwarn. f_equal. apply RunTotals.sumWarnings_perm.
    unfold stored. apply Permutation_map. now symmetry.
Qed.

End Run.

Lemma sample_distinct : List.NoDup (map Package.name Sample.packages).
Proof.
  cbn. repeat (apply List.NoDup_cons; [cbn; intuition discriminate|]).
  apply List.NoDup_nil.
Defined.

Lemma report_totals_consistent_witness :
  let m :=
    fst (LintQuality.runQualityLint Sample.relative Sample.execSync
           Sample.packages Sample.world) in
  size (Metrics.packageResults m) = Metrics.lintedPackages m /\
  Metrics.errors m = JS.of_Z (sumErrors (stored m)) /\
  Metrics.warnings m = JS.of_Z (sumWarnings (stored m)).
Proof.
  exact (report_totals_consistent Sample.relative Sample.execSync
           Sample.packages Sample.world sample_distinct).
Defined.

End RunReport.


(** ** Scores, exit status and trend *)

Module RunOutcome.
Import Recorded Totals.

Lemma sum_failures (l : list (string * Result.t)) :
  Forall (fun entry => exists d, snd entry = failure d) l ->
  sumErrors (map snd l) = Z.of_nat (length l) /\
  sumWarnings (map snd l) = 0.
Proof.
  induction 1 as [|[k r] l [d Hr] Hl [IHe IHw]]; [now split|].
  cbn [snd] in Hr. subst r.
  unfold sumErrors, sumWarnings in *. cbn [map snd fold_right length].
  rewrite IHe, IHw. cbn [failure Result.errors Result.warnings].
  rewrite !RunTotals.count_of_Z. split; lia.
Qed.

Lemma score_90 (n : nat) :
  (1 <= n)%nat ->
  JS.fin (Spec.qualityScore (Z.of_nat n) 0 n) = JS.of_Z 90.
Proof.
  intros Hn. rewrite <- JSFacts.fin_of_Z. apply JSFacts.fin_eq.
  unfold Spec.qualityScore, Spec.clampedScore.
  assert (100 - inject_Z (Z.of_nat n + 0)
                / (10 * inject_Z (Z.of_nat n)) * 100 == 90)%Q as Hx.
  { rewrite Z.add_0_r. field.
    change 0%Q with (inject_Z 0). rewrite inject_Z_injective. lia. }
  rewrite (ScoreFacts.round2_compat _ 90); [reflexivity|].
  unfold Spec.clamp. rewrite Hx. reflexivity.
Qed.

(** The drift of one rounded share from the exact share. *)
Lemma share_drift (total n : nat) :
  (1 <= n)%nat ->
  2 * Z.abs (Z.of_nat n * Spec.share total n - Z.of_nat total)
  <= Z.of_nat n.
Proof.
  intros Hn. unfold Spec.share.
  set (x := (inject_Z (Z.of_nat total) / inject_Z (Z.of_nat n))%Q).
  destruct (JSFacts.round_nearest x) as [Hl Hu].
  set (k := Spec.round x) in *.
  assert (0 < inject_Z (Z.of_nat n))%Q as Hpos.
  { change 0%Q with (inject_Z 0). rewrite <- Zlt_Qlt. lia. }
  assert (x * inject_Z (Z.of_nat n) == inject_Z (Z.of_nat total))%Q as Hx.
  { unfold x. field. intros H. rewrite H in Hpos. discriminate. }
  set (d := inject_Z (Z.of_nat n)) in *.
  set (t := inject_Z (Z.of_nat total)) in *.
  assert ((inject_Z k - (1 # 2)) * d <= x * d)%Q as H1
    by (apply Qmult_le_compat_r; [exact Hl | now apply Qlt_le_weak]).
  assert (x * d < (inject_Z k + (1 # 2)) * d)%Q as H2
    by (apply Qmult_lt_r; assumption).
  assert (inject_Z (2 * (Z.of_nat n * k - Z.of_nat total))
          <= inject_Z (Z.of_nat n))%Q as Hup.
  { rewrite inject_Z_mult, <- Z.add_opp_r, inject_Z_plus, inject_Z_mult,
      inject_Z_opp. fold d t. change (inject_Z 2) with 2%Q. lra. }
  assert (inject_Z (- Z.of_nat n)
          < inject_Z (2 * (Z.of_nat n * k - Z.of_nat total)))%Q as Hlow.
  { rewrite inject_Z_mult, <- Z.add_opp_r, inject_Z_plus, inject_Z_mult,
      !inject_Z_opp. fold d t. change (inject_Z 2) with 2%Q. lra. }
  rewrite <- Zle_Qle in Hup. rewrite <- Zlt_Qlt in Hlow. lia.
Qed.

Lemma share_zero (total n : nat) :
  (2 * total < n)%nat -> Spec.share total n = 0.
Proof.
  intros Hsmall.
  assert (1 <= n)%nat as Hn by lia.
  pose proof (share_drift total n Hn) as Hd.
  pose proof (RunFacts.share_nonneg total n Hn) as H0.
  nia.
Qed.

(** X3. One rounded share per member replaces the batch count: for a
    batch of n >= 1 packages whose output parses to E errors and W
    warnings, each member is given whole numbers e and w with
    |n * e - E| <= n / 2 and |n * w - W| <= n / 2, so the batch as
    recorded can differ from what was parsed; in particular fewer than
    n / 2 error lines are recorded as no error at all. *)
Theorem even_split_drift (parsed : Counts.t) (batch : list Package.t) :
  batch <> [] ->
  exists e w : Z,
    LintQuality.avgPerPackage parsed batch
    = Result.mk (JS.of_Z e) (JS.of_Z w) None success /\
    0 <= e /\ 0 <= w /\
    2 * Z.abs (Z.of_nat (length batch) * e - Z.of_nat (Counts.errors parsed))
    <= Z.of_nat (length batch) /\
    2 * Z.abs (Z.of_nat (length batch) * w
               - Z.of_nat (Counts.warnings parsed))
    <= Z.of_nat (length batch) /\
    ((2 * Counts.errors parsed < length batch)%nat -> e = 0) /\
    ((2 * Counts.warnings parsed < length batch)%nat -> w = 0).
Proof.
  intros Hne.
  assert (1 <= length batch)%nat as Hn
    by (destruct batch; cbn; [congruence | lia]).
  exists (Spec.share (Counts.errors parsed) (length batch)),
    (Spec.share (Counts.warnings parsed) (length batch)).
  repeat apply conj.
  - now apply RunFacts.avgPerPackage_share.
  - now apply RunFacts.share_nonneg.
  - now apply RunFacts.share_nonneg.
  - now apply share_drift.
  - now apply share_drift.
  - apply share_zero.
  - apply share_zero.
Qed.

Lemma even_split_drift_witness :
  LintQuality.avgPerPackage (Counts.mk 1 4)
    [Sample.workflow; Sample.utils; Sample.apiTypes]
  = Result.mk (JS.of_Z 0) (JS.of_Z 1) None success.
Proof.
  destruct (even_split_drift (Counts.mk 1 4)
              [Sample.workflow; Sample.utils; Sample.apiTypes])
    as (e & w & -> & He & Hw & _ & Hdw & He0 & _).
  - discriminate.
  - cbn in Hdw, He0. rewrite He0 by lia.
    assert (w = 1) as -> by lia. reflexivity.
Defined.

Section Run.

Variable relative : string -> string.
Variable execSync : string -> Exec.outcome.

Local Abbreviation run := (LintQuality.runQualityLint relative execSync).
Local Abbreviation main := (LintQuality.main relative execSync).

Lemma entries_all_fail (tiers : Tiers.t) :
  (forall command, Exec.stdout (execSync command) = None) ->
  Forall (fun entry => exists d, snd entry = failure d)
         (entries relative execSync tiers).
Proof.
  intros Hfail. unfold entries, heavyEntries, batchEntries.
  rewrite !Forall_app, !Forall_map. repeat split;
    apply List.Forall_forall; intros pkg _; cbn [snd];
    unfold heavyResult, batchResult; rewrite Hfail; eauto.
Qed.

(** X4. When every invocation of a run over at least one package fails,
    each package counts as one error and no warning, so the score is
    exactly 90 whatever the number of packages, and the band printed is
    GOOD. *)
Theorem all_failed_scores_90 (packages : list Package.t) (w : World.t) :
  packages <> [] ->
  (forall command, Exec.stdout (execSync command) = None) ->
  let m := fst (run packages w) in
  Metrics.errors m = JS.of_nat (length packages) /\
  Metrics.warnings m = JS.of_Z 0 /\
  Metrics.qualityScore m = JS.of_Z 90 /\
  Summary.rating m = Summary.GOOD.
Proof.
  intros Hne Hfail m.
  destruct (RunStore.run_totals relative execSync packages w) as [He Hw].
  destruct (sum_failures _ (entries_all_fail
                              (LintQuality.categorizePackages packages) Hfail))
    as [Se Sw].
  rewrite Se, RunFacts.entries_length in He. rewrite Sw in Hw.
  fold m in He, Hw.
  assert (Metrics.lintedPackages m = length packages) as Hn
    by apply RunShape.run_lintedPackages.
  assert (1 <= Metrics.lintedPackages m)%nat as Hpos
    by (rewrite Hn; destruct packages; cbn; [congruence | lia]).
  assert (Metrics.qualityScore m = JS.of_Z 90) as Hscore.
  { unfold m at 1. rewrite RunShape.run_qualityScore. fold m.
    rewrite (ScoreFacts.score_spec m _ _ He Hw Hpos), Hn.
    apply score_90. now rewrite <- Hn. }
  repeat apply conj; try assumption.
  unfold Summary.rating. now rewrite Hscore.
Qed.

(** X5. The exit status of [main]: with nothing linted it is 0; with n
    >= 1 packages linted and totals e and w it is 1 exactly when
    2000 * (e + w) > 6001 * n, that is when the clamped score rounds
    below 70, and 0 otherwise. *)
Theorem exit_status_threshold (w : World.t) :
  let code := fst (fst (main w)) in
  let m := snd (fst (main w)) in
  (Metrics.lintedPackages m = 0%nat -> code = 0) /\
  ((1 <= Metrics.lintedPackages m)%nat ->
   exists e wn : Z,
     Metrics.errors m = JS.of_Z e /\ Metrics.warnings m = JS.of_Z wn /\
     (code = 1 <-> 6001 * Z.of_nat (Metrics.lintedPackages m)
                   < 2000 * (e + wn)) /\
     (code = 0 <-> 2000 * (e + wn)
                   <= 6001 * Z.of_nat (Metrics.lintedPackages m))).
Proof.
  cbn zeta. unfold LintQuality.main.
  destruct (LintQuality.getLintablePackages w) as [packages w1].
  destruct (run packages w1) as [m w2] eqn:Hrun. cbn [fst snd].
  assert (m = fst (run packages w1)) as Hm by now rewrite Hrun.
  split.
  - intros Hzero. rewrite Hm, RunShape.run_lintedPackages in Hzero.
    destruct packages; [|discriminate].
    rewrite Hm. unfold LintQuality.runQualityLint, LintQuality.constructor.
    now destruct (LintQuality.loadPreviousScore w1).
  - intros Hn. rewrite Hm in Hn.
    destruct (RunShape.run_score relative execSync packages w1 Hn)
      as (e & wn & _ & _ & He & Hw & Hscore).
    rewrite <- Hm in He, Hw, Hscore, Hn.
    exists e, wn. split; [assumption|]. split; [assumption|].
    rewrite Hscore.
    pose proof (RunReport.ltb_fin
                  (Spec.qualityScore e wn (Metrics.lintedPackages m)) 70)
      as Hlt.
    pose proof (RunReport.score_below_70 e wn _ Hn) as Hthr.
    destruct (JS.ltb _ _) eqn:E.
    + assert (6001 * Z.of_nat (Metrics.lintedPackages m) < 2000 * (e + wn))
        by (apply Hthr, Hlt; reflexivity).
      split; split; intros; try lia; try reflexivity.
    + assert (~ 6001 * Z.of_nat (Metrics.lintedPackages m) < 2000 * (e + wn)).
      { intros H. apply Hthr, Hlt in H. congruence. }
      split; split; intros; try lia; try reflexivity.
Qed.

End Run.

Lemma exit_status_threshold_witness :
  fst (fst (LintQuality.main Sample.relative Sample.execSync Sample.world))
  = 0.
Proof.
  destruct (exit_status_threshold Sample.relative Sample.execSync Sample.world)
    as [_ H].
  destruct H as (e & wn & He & Hw & _ & H0).
  - vm_compute. lia.
  - apply H0.
    assert (e = 9) as ->.
    { apply (proj1 (inject_Z_injective e 9)).
      assert (JS.of_Z e = JS.of_Z 9) as E
        by (rewrite <- He; vm_compute; reflexivity).
      injection E as E. now rewrite E. }
    assert (wn = 0) as ->.
    { apply (proj1 (inject_Z_injective wn 0)).
      assert (JS.of_Z wn = JS.of_Z 0) as E
        by (rewrite <- Hw; vm_compute; reflexivity).
      injection E as E. now rewrite E. }
    vm_compute. discriminate.
Defined.

Lemma all_failed_scores_90_witness :
  Metrics.qualityScore
    (fst (LintQuality.runQualityLint Sample.relative Sample2.alwaysFail
            Sample.packages Sample.world))
  = JS.of_Z 90.
Proof.
  apply (all_failed_scores_90 Sample.relative Sample2.alwaysFail
           Sample.packages Sample.world).
  - discriminate.
  - reflexivity.
Defined.

End RunOutcome.


(** ** The printed summary and the trend *)

Module RunSummary.
Import Recorded.


Lemma sub_fin (p q : Q) :
  JS.sub (JS.fin p) (JS.fin q) = JS.fin (p - q).
Proof.
  unfold JS.sub, JS.fin at 1 2. apply JSFacts.fin_eq.
  now rewrite !Qred_correct.
Qed.

Lemma previousScore_cases (x : JS.number) :
  exists p : Q, JS.json_or0 (JS.json x) = JS.Fin p.
Proof.
  destruct x as [q| | |]; cbn; eauto.
  destruct (Qeq_bool q 0); eauto.
Qed.

Section Run.

Variable relative : string -> string.
Variable execSync : string -> Exec.outcome.

Local Abbreviation run := (LintQuality.runQualityLint relative execSync).
Local Abbreviation main := (LintQuality.main relative execSync).


(** X7. The baseline of a run is the score stored in the report file as
    it was when the run started, or 0 when the file is absent, cannot be
    read, or holds [null] or 0 for the score; it is always a finite
    number, and no stage of the run changes it. *)
Theorem baseline_from_store (packages : list Package.t) (w : World.t) :
  let m := fst (run packages w) in
  Metrics.previousScore m
  = match World.report w with
    | Some (ReportStringified report) =>
        match Metrics.qualityScore report with
        | JS.Fin q => if Qeq_bool q 0 then JS.of_Z 0 else JS.Fin q
        | _ => JS.of_Z 0
        end
    | Some ReportUnreadable | None => JS.of_Z 0
    end /\
  JS.is_finite (Metrics.previousScore m) = true.
Proof.
  cbn zeta. rewrite RunShape.run_previousScore.
  unfold LintQuality.loadPreviousScore.
  destruct (World.report w) as [[|report]|]; cbn [fst]; try (now split).
  destruct (Metrics.qualityScore report) as [q| | |]; cbn; try (now split).
  destruct (Qeq_bool q 0); now split.
Qed.

(** X8. The arrow printed next to the score points up exactly when the
    score is at least the baseline; on a first run (no report file) over
    at least one package the improvement is the score itself and the
    arrow points up. *)
Theorem trend_arrow (packages : list Package.t) (w : World.t) :
  let m := fst (run packages w) in
  Summary.trendUp m
  = JS.geb (Metrics.qualityScore m) (Metrics.previousScore m) /\
  (World.report w = None -> packages <> [] ->
   Summary.improvement m = Metrics.qualityScore m /\
   Summary.trendUp m = true).
Proof.
  intros m.
  assert (exists p, Metrics.previousScore m = JS.Fin p) as [p Hp].
  { unfold m. rewrite RunShape.run_previousScore.
    unfold LintQuality.loadPreviousScore.
    destruct (World.report w) as [[|report]|]; cbn [fst];
      [now exists 0%Q | | now exists 0%Q].
    apply previousScore_cases. }
  split.
  - unfold Summary.trendUp, Summary.improvement. rewrite Hp.
    destruct (Metrics.qualityScore m) as [q| | |]; try reflexivity.
    unfold JS.sub, JS.geb, JS.leb, JS.fin, JS.of_Z.
    apply eq_true_iff_eq. rewrite !Qle_bool_iff, Qred_correct.
    change (inject_Z 0) with 0%Q. split; intros; lra.
  - intros Hempty Hne.
    assert (1 <= Metrics.lintedPackages m)%nat as Hn.
    { unfold m. rewrite RunShape.run_lintedPackages.
      destruct packages; cbn; [congruence | lia]. }
    destruct (RunShape.run_score relative execSync packages w Hn)
      as (e & wn & _ & _ & _ & _ & Hscore).
    fold m in Hscore.
    assert (Metrics.previousScore m = JS.fin 0) as Hprev.
    { unfold m. rewrite RunShape.run_previousScore.
      unfold LintQuality.loadPreviousScore. now rewrite Hempty. }
    unfold Summary.trendUp, Summary.improvement.
    rewrite Hscore, Hprev, sub_fin.
    split.
    + apply JSFacts.fin_eq. ring.
    + apply RunReport.geb_fin.
      pose proof (ScoreFacts.score_in_range e wn (Metrics.lintedPackages m)).
      change (inject_Z 0) with 0%Q. lra.
Qed.

(** X9. Every access of a run to the outside, in order: the report file
    is probed, and read only if it exists; then one process is spawned
    per heavy package, in the order of the heavy tier, one for the medium
    tier if it is not empty and one for the light tier if it is not
    empty; the report file is written last. The cache file and the
    packages directory are not touched. *)
Theorem run_accesses (packages : list Package.t) (w : World.t) :
  let tiers := LintQuality.categorizePackages packages in
  let w' := snd (run packages w) in
  World.trace w'
  = World.trace w
      ++ Exists QUALITY_REPORT_FILE
         :: match World.report w with
            | Some _ => [Read QUALITY_REPORT_FILE]
            | None => []
            end
      ++ map Spawn
           (map (LintQuality.heavyCommand relative) (Tiers.heavy tiers)
            ++ match Tiers.medium tiers with
               | [] => []
               | _ :: _ =>
                   [LintQuality.batchCommand relative "4" (Tiers.medium tiers)]
               end
            ++ match Tiers.light tiers with
               | [] => []
               | _ :: _ =>
                   [LintQuality.batchCommand relative "8" (Tiers.light tiers)]
               end)
      ++ [Write QUALITY_REPORT_FILE] /\
  World.cache w' = World.cache w /\
  World.packagesDir w' = World.packagesDir w.
Proof.
  cbn zeta. split; [|split].
  - rewrite RunShape.run_trace. reflexivity.
  - apply RunShape.run_cache.
  - rewrite RunShape.run_shape. cbn.
    destruct (RunFacts.spawnAll_world execSync
                (commands relative (LintQuality.categorizePackages packages))
                (snd (LintQuality.constructor w))) as (_ & _ & -> & _).
    unfold LintQuality.constructor.
    destruct (RunShape.loadPreviousScore_trace w) as (_ & _ & Hp & _).
    now destruct (LintQuality.loadPreviousScore w).
Qed.

End Run.

(** X10. Two runs in a row starting without a report file, the first
    over at least one package: the first has baseline 0 and the second
    has the first run's score as its baseline, whatever either run
    lints. *)
Theorem baseline_of_second_run
    (relative relative' : string -> string)
    (execSync execSync' : string -> Exec.outcome)
    (packages packages' : list Package.t) (w : World.t) :
  World.report w = None ->
  packages <> [] ->
  let first := LintQuality.runQualityLint relative execSync packages w in
  let second :=
    LintQuality.runQualityLint relative' execSync' packages' (snd first) in
  Metrics.previousScore (fst first) = JS.of_Z 0 /\
  Metrics.previousScore (fst second) = Metrics.qualityScore (fst first).
Proof.
  intros Hempty Hne first second. split.
  - unfold first. rewrite RunShape.run_previousScore.
    unfold LintQuality.loadPreviousScore. now rewrite Hempty.
  - unfold second. rewrite RunShape.run_previousScore.
    unfold LintQuality.loadPreviousScore.
    unfold first at 1. rewrite RunShape.run_report. fold first.
    cbn [fst].
    assert (1 <= Metrics.lintedPackages (fst first))%nat as Hn.
    { unfold first. rewrite RunShape.run_lintedPackages.
      destruct packages; cbn; [congruence | lia]. }
    destruct (RunShape.run_score relative execSync packages w Hn)
      as (e & wn & _ & _ & _ & _ & Hscore).
    fold first in Hscore. rewrite Hscore. cbn [JS.fin JS.json JS.json_or0].
    apply JSFacts.or0_fin.
Qed.

Lemma baseline_of_second_run_witness :
  let first :=
    LintQuality.runQualityLint Sample.relative Sample.execSync
      Sample.packages Sample.world in
  let second :=
    LintQuality.runQualityLint Sample.relative Sample2.alwaysFail
      Sample.boundary (snd first) in
  Metrics.previousScore (fst first) = JS.of_Z 0 /\
  Metrics.previousScore (fst second) = JS.of_Z 85.
Proof.
  cbv zeta.
  destruct (baseline_of_second_run Sample.relative Sample.relative
              Sample.execSync Sample2.alwaysFail Sample.packages
              Sample.boundary Sample.world eq_refl) as [H1 H2].
  - discriminate.
  - split; [exact H1|]. rewrite H2. vm_compute. reflexivity.
Defined.

Lemma trend_arrow_witness :
  Summary.trendUp
    (fst (LintQuality.runQualityLint Sample.relative Sample.execSync
            Sample.packages Sample.world))
  = true.
Proof.
  destruct (trend_arrow Sample.relative Sample.execSync Sample.packages
              Sample.world) as [_ H].
  apply H; [reflexivity | discriminate].
Defined.


End RunSummary.


(** ** The cache after discovery *)

Module CacheFacts.

(** X11. Whatever path discovery takes, afterwards the cache file exists,
    holds exactly the packages that were returned, and is younger than
    an hour; so calling discovery again at once returns the same
    packages from the cache. *)
Theorem discovery_leaves_fresh_cache (w : World.t) :
  let found := fst (LintQuality.getLintablePackages w) in
  let w' := snd (LintQuality.getLintablePackages w) in
  (exists mtime,
     World.cache w' = Some (mtime, CacheStringified found) /\
     World.now w' - mtime < 3600000) /\
  World.now w' = World.now w /\
  LintQuality.getLintablePackages w'
  = (found, World.log LintQuality.cacheProbe w').
Proof.
  cbn zeta. pose proof (Discovery.rediscovery_hits_cache w) as Hagain.
  destruct (LintQuality.getLintablePackages w) as [found w'] eqn:E.
  cbn [fst snd]. split; [|split; [|exact Hagain]].
  - unfold LintQuality.getLintablePackages in E.
    destruct (World.cache w) as [[mtime [|packages]]|] eqn:Hcache.
    + destruct (World.now w - mtime <? 3600000); injection E as <- <-;
        cbn; eexists; (split; [reflexivity | lia]).
    + destruct (World.now w - mtime <? 3600000) eqn:Hage;
        injection E as <- <-; cbn.
      * exists mtime. split; [assumption | now apply Z.ltb_lt].
      * eexists; (split; [reflexivity | lia]).
    + injection E as <- <-. cbn. eexists; (split; [reflexivity | lia]).
  - unfold LintQuality.getLintablePackages in E.
    destruct (World.cache w) as [[mtime [|packages]]|];
      try destruct (World.now w - mtime <? 3600000);
      injection E as <- <-; reflexivity.
Qed.

(** X12. A cache that is an hour old or older is never read: even if it
    would parse, discovery scans the packages directory, returns what the
    scan finds and overwrites the cache with it, stamped with the current
    time. The limit is strict: an age of exactly 3600000 ms is stale. *)
Theorem stale_cache_is_rescanned (w : World.t) (mtime : Z)
    (text : CacheText) :
  World.cache w = Some (mtime, text) ->
  3600000 <= World.now w - mtime ->
  let found := fst (LintQuality.getLintablePackages w) in
  let w' := snd (LintQuality.getLintablePackages w) in
  found = World.packagesDir w /\
  World.cache w' = Some (World.now w, CacheStringified (World.packagesDir w)) /\
  World.trace w'
  = World.trace w
      ++ [Exists cacheFile; Stat cacheFile; Scan; Write cacheFile] /\
  World.report w' = World.report w.
Proof.
  intros Hcache Hage. cbn zeta.
  unfold LintQuality.getLintablePackages. rewrite Hcache.
  apply Z.ltb_ge in Hage. rewrite Hage. cbn.
  repeat split. now rewrite <- !app_assoc.
Qed.

Lemma stale_cache_is_rescanned_witness :
  fst (LintQuality.getLintablePackages
         (World.mk None (Some (0, CacheStringified [Sample.editor]))
                   Sample.packages 3600000 []))
  = Sample.packages.
Proof.
  apply (stale_cache_is_rescanned
           (World.mk None (Some (0, CacheStringified [Sample.editor]))
                     Sample.packages 3600000 [])
           0 (CacheStringified [Sample.editor]) eq_refl).
  cbn. lia.
Defined.

End CacheFacts.

(** ** The order inside the tiers *)

Module TierOrder.

(** X13. Each tier lists its packages by size, largest first, and every
    tier is taken from the input: so the heavy packages, linted one by
    one, are linted in descending order of size. *)
Theorem tiers_largest_first (packages : list Package.t) :
  let tiers := LintQuality.categorizePackages packages in
  StronglySorted Spec.largerFirst (Tiers.heavy tiers) /\
  StronglySorted Spec.largerFirst (Tiers.medium tiers) /\
  StronglySorted Spec.largerFirst (Tiers.light tiers) /\
  (length (Tiers.heavy tiers) + length (Tiers.medium tiers)
   + length (Tiers.light tiers))%nat = length packages.
Proof.
  cbn zeta. repeat apply conj.
  - rewrite CategorizeFacts.categorize_filters. cbn.
    apply CategorizeFacts.filter_sorted, CategorizeFacts.sort_sorted.
  - rewrite CategorizeFacts.categorize_filters. cbn.
    apply CategorizeFacts.filter_sorted, CategorizeFacts.sort_sorted.
  - rewrite CategorizeFacts.categorize_filters. cbn.
    apply CategorizeFacts.filter_sorted, CategorizeFacts.sort_sorted.
  - rewrite <- (Permutation_length (CategorizeFacts.tiers_perm packages)).
    rewrite !length_app. lia.
Qed.

End TierOrder.

(** ** More on the parser *)

Module ParserFacts.

Lemma split_nonempty (s : string) : Str.split_lines s <> [].
Proof.
  destruct s as [|c s]; cbn [Str.split_lines]; [discriminate|].
  destruct (Ascii.eqb c Str.newline); [discriminate|].
  destruct (Str.split_lines s); discriminate.
Qed.

Lemma split_append (a b : string) :
  Str.split_lines (a ++ Str.lineFeed ++ b)
  = Str.split_lines a ++ Str.split_lines b.
Proof.
  induction a as [|c a IH]; [reflexivity|].
  change (String c a ++ Str.lineFeed ++ b)%string
    with (String c (a ++ Str.lineFeed ++ b))%string.
  cbn [Str.split_lines]. rewrite IH.
  destruct (Ascii.eqb c Str.newline); [reflexivity|].
  pose proof (split_nonempty a) as Hne.
  destruct (Str.split_lines a) as [|line rest]; [congruence | reflexivity].
Qed.

Lemma split_length (s : string) :
  (1 <= length (Str.split_lines s) <= 1 + String.length s)%nat.
Proof.
  induction s as [|c s IH]; cbn [Str.split_lines String.length];
    [cbn; lia|].
  destruct (Ascii.eqb c Str.newline); [cbn; lia|].
  destruct (Str.split_lines s); cbn in *; lia.
Qed.

(** X14. Parsing the outputs of two invocations joined by a line feed
    gives the sums of their counts; and neither count of an output ever
    exceeds its number of lines, which is at most its length plus one:
    an empty output counts nothing. *)
Theorem parse_adds_up (a b : string) :
  let joined := LintQuality.parseESLintOutput (a ++ Str.lineFeed ++ b) in
  let pa := LintQuality.parseESLintOutput a in
  let pb := LintQuality.parseESLintOutput b in
  Counts.errors joined = (Counts.errors pa + Counts.errors pb)%nat /\
  Counts.warnings joined = (Counts.warnings pa + Counts.warnings pb)%nat /\
  (Counts.errors pa <= length (Str.split_lines a) <= 1 + String.length a)%nat /\
  (Counts.warnings pa <= length (Str.split_lines a))%nat /\
  LintQuality.parseESLintOutput "" = Counts.mk 0 0.
Proof.
  cbn zeta. unfold LintQuality.parseESLintOutput.
  rewrite split_append, !Parser.count_fold, !List.filter_app, !length_app.
  cbn [Counts.errors Counts.warnings].
  repeat apply conj; try reflexivity; try lia.
  - apply filter_length_le || apply List.filter_length_le.
  - apply split_length.
  - apply filter_length_le || apply List.filter_length_le.
Qed.

End ParserFacts.


(** ** The directory scan *)

Module ScanFacts.

(** Induction over a tree: a property of every entry of a directory may
    be assumed for the directory. *)
Lemma Node_induction (P : FS.Node -> Prop) :
  (forall name size json, P (FS.File name size json)) ->
  (forall name mtime entries,
     Forall P entries -> P (FS.Dir name mtime entries)) ->
  forall n, P n.
Proof.
  intros Hfile Hdir. fix IH 1. intros [name size json | name mtime entries].
  - apply Hfile.
  - apply Hdir. induction entries as [|n entries IHentries].
    + constructor.
    + constructor; [apply IH | exact IHentries].
Qed.

Lemma addSize_fold (entries : list FS.Node) (start : Z) :
  fold_left FS.addSize entries start
  = start + FS.calculateDirectorySize entries.
Proof.
  unfold FS.calculateDirectorySize.
  revert start. induction entries as [|n entries IH]; intros start; cbn.
  - lia.
  - rewrite IH, (IH (FS.addSize 0 n)).
    destruct n as [name size json|]; cbn; [|lia].
    destruct (Str.startsWith name "."); lia.
Qed.

Lemma size_cons (n : FS.Node) (entries : list FS.Node) :
  FS.calculateDirectorySize (n :: entries)
  = (if FS.counted n then FS.bytes n else 0)
    + FS.calculateDirectorySize entries.
Proof.
  unfold FS.calculateDirectorySize at 1. cbn [fold_left].
  rewrite addSize_fold.
  destruct n as [name size json|]; cbn; [|reflexivity].
  now destruct (Str.startsWith name ".").
Qed.

(** X15. The size of a package directory is the sum of the sizes of its
    regular files whose names do not start with a dot: subdirectories and
    dot files add nothing, the size of two listings put together is the
    sum of their sizes, and it is never negative when no file size is. *)
Theorem directory_size_counts_visible_files (l1 l2 : list FS.Node) :
  FS.calculateDirectorySize (l1 ++ l2)
  = FS.calculateDirectorySize l1 + FS.calculateDirectorySize l2 /\
  FS.calculateDirectorySize l1
  = FS.calculateDirectorySize (List.filter FS.counted l1) /\
  FS.calculateDirectorySize l1
  = fold_right Z.add 0 (map FS.bytes (List.filter FS.counted l1)) /\
  (Forall (fun n => 0 <= FS.bytes n) l1 ->
   0 <= FS.calculateDirectorySize l1).
Proof.
  repeat apply conj.
  - unfold FS.calculateDirectorySize at 1.
    rewrite fold_left_app, addSize_fold. reflexivity.
  - induction l1 as [|n l1 IH]; [reflexivity|].
    cbn [List.filter]. rewrite size_cons.
    destruct (FS.counted n) eqn:E; [rewrite size_cons, E|]; lia.
  - induction l1 as [|n l1 IH]; [reflexivity|].
    cbn [List.filter]. rewrite size_cons.
    destruct (FS.counted n); cbn [map fold_right]; lia.
  - induction 1 as [|n l Hn Hl IH]; [reflexivity|].
    rewrite size_cons. destruct (FS.counted n); lia.
Qed.

Lemma directory_size_counts_visible_files_witness :
  0 <= FS.calculateDirectorySize
         [FS.File "index.ts" 4000 None; FS.File ".env" 50 None;
          FS.Dir "src" 1 [FS.File "big.ts" 900000 None]].
Proof.
  apply (directory_size_counts_visible_files
           [FS.File "index.ts" 4000 None; FS.File ".env" 50 None;
            FS.Dir "src" 1 [FS.File "big.ts" 900000 None]] []).
  repeat constructor; cbn; lia.
Defined.

Lemma entry_prune (name : string) (entries : list FS.Node) :
  FS.entry name (map FS.prune entries)
  = option_map FS.prune (FS.entry name entries).
Proof.
  unfold FS.entry. induction entries as [|n entries IH]; [reflexivity|].
  cbn [map List.find].
  assert (FS.nodeName (FS.prune n) = FS.nodeName n) as -> by now destruct n.
  destruct (String.eqb (FS.nodeName n) name); [reflexivity | exact IH].
Qed.

Lemma size_prune (entries : list FS.Node) :
  FS.calculateDirectorySize (map FS.prune entries)
  = FS.calculateDirectorySize entries.
Proof.
  induction entries as [|n entries IH]; [reflexivity|].
  cbn [map]. rewrite !size_cons, IH. now destruct n.
Qed.

(** X16. The scan stops at a directory that has a [package.json]: such
    a directory yields at most one package, and what it yields does not
    depend on what its subdirectories contain, so a package nested
    inside another package's directory is never discovered. *)
Theorem scan_stops_at_manifest (dir name : string) (mtime : Z)
    (entries : list FS.Node) :
  FS.existsSync "package.json" entries = true ->
  (length (FS.scanEntry dir (FS.Dir name mtime entries)) <= 1)%nat /\
  FS.scanEntry dir (FS.Dir name mtime entries)
  = FS.scanEntry dir (FS.Dir name mtime (map FS.prune entries)).
Proof.
  unfold FS.existsSync. intros Hexists.
  cbn [FS.scanEntry]. rewrite entry_prune.
  destruct (FS.entry "package.json" entries) as [[pname psize [manifest|] | ]|];
    cbn [option_map FS.prune]; try discriminate; try (split; [cbn; lia | reflexivity]).
  destruct (FS.scripts manifest) as [s|]; [|split; [cbn; lia | reflexivity]].
  destruct (FS.lint s); [|split; [cbn; lia | reflexivity]].
  split; [cbn; lia|].
  unfold FS.package, FS.existsSync.
  rewrite size_prune, (entry_prune "tsconfig.json").
  now destruct (FS.entry "tsconfig.json" entries).
Qed.

Lemma scan_stops_at_manifest_witness :
  FS.scanEntry "packages" Sample2.cliDir
  = [Scanned.mk (Name.Text "n8n") "packages/cli" 1700 true true false 5200].
Proof.
  destruct (scan_stops_at_manifest "packages" "cli" 1700
              [FS.File "package.json" 900
                 (Some (FS.mkManifest (Name.Text "n8n")
                          (Some (FS.mkScripts true true false)) false));
               FS.File "tsconfig.json" 300 None;
               FS.File ".eslintrc.js" 150 None;
               FS.File "index.ts" 4000 None;
               FS.Dir "src"  1701
                 [FS.File "package.json" 10
                    (Some (FS.mkManifest (Name.Text "inner")
                             (Some (FS.mkScripts true false false))
                             false))]] eq_refl) as [_ H].
  unfold Sample2.cliDir. rewrite H. reflexivity.
Defined.

Lemma append_assoc (a b c : string) :
  ((a ++ b) ++ c)%string = (a ++ b ++ c)%string.
Proof.
  induction a as [|x a IH]; [reflexivity|].
  change (String x (((a ++ b) ++ c))%string = String x (a ++ b ++ c)%string).
  now rewrite IH.
Qed.

Lemma in_flat_map_scan (dir : string) (entries : list FS.Node)
    (pkg : Scanned.t) :
  In pkg (List.flat_map (FS.scanEntry dir) entries) ->
  exists n, In n entries /\ In pkg (FS.scanEntry dir n).
Proof. intros H. apply in_flat_map in H. exact H. Qed.

Lemma scanEntry_path (n : FS.Node) :
  forall dir pkg,
    In pkg (FS.scanEntry dir n) ->
    exists rest, Scanned.path pkg = (FS.join dir (FS.nodeName n) ++ rest)%string.
Proof.
  induction n as [name size json | name mtime entries IH] using Node_induction;
    intros dir pkg Hin; [destruct Hin|].
  cbn [FS.scanEntry FS.nodeName] in *.
  destruct (FS.entry "package.json" entries) as [[pname psize [manifest|] | ]|].
  - destruct (FS.scripts manifest) as [s|]; [|destruct Hin].
    destruct (FS.lint s); [|destruct Hin].
    destruct Hin as [<- | []]. exists EmptyString. cbn.
    now rewrite Parser.append_empty.
  - destruct Hin.
  - destruct Hin.
  - apply in_flat_map_scan in Hin as (child & Hchild & Hin).
    rewrite List.Forall_forall in IH.
    destruct (IH child Hchild _ _ Hin) as [rest Hrest].
    exists ("/" ++ FS.nodeName child ++ rest)%string.
    rewrite Hrest. unfold FS.join.
    rewrite (append_assoc _ ("/" ++ FS.nodeName child) rest).
    reflexivity.
Qed.

End ScanFacts.


(** ** More on the gate *)

Module GateRun.
Import Handoff.

Lemma filter_split {A} (f : A -> bool) (l : list A) :
  (length (List.filter f l) + length (List.filter (fun x => negb (f x)) l)
   = length l)%nat.
Proof.
  induction l as [|x l IH]; [reflexivity|].
  cbn [List.filter]. destruct (f x); cbn; lia.
Qed.

Lemma passed_failed_total (g : Gate.t) :
  (QualityGate.passedChecks g + failedChecks g
   = QualityGate.totalChecks g)%nat.
Proof. apply filter_split. Qed.

Lemma addCheck_advised name passed message score (g : Gate.t) :
  advised g -> advised (QualityGate.addCheck name passed message score g).
Proof.
  unfold advised. intros H. cbn [QualityGate.addCheck Gate.recommendations
    Gate.checks].
  rewrite List.filter_app, map_app, <- H.
  destruct passed; cbn; [now rewrite app_nil_r | reflexivity].
Qed.

Section Checks.

Variable toString : JS.number -> string.
Variable test : SecurityPattern -> string -> bool.

Local Abbreviation check := (QualityGate.check toString test).
Local Abbreviation runAllChecks := (QualityGate.runAllChecks toString test).

Lemma check_advised (c : QualityGate.Checker) (env : Env.t) (g : Gate.t) :
  advised g -> advised (check c env g).
Proof.
  intros H. destruct c; cbn [QualityGate.check].
  - unfold QualityGate.checkLintQuality.
    destruct (Env.lintReport env); repeat apply addCheck_advised; exact H.
  - unfold QualityGate.checkTypeScript.
    destruct (Env.typecheck env); now apply addCheck_advised.
  - unfold QualityGate.checkSecurity.
    destruct (Env.sourceListing env); now apply addCheck_advised.
  - unfold QualityGate.checkFormatting.
    destruct (Env.formatCheck env); now apply addCheck_advised.
  - unfold QualityGate.checkTodoComments.
    destruct (Env.todoCount env); now apply addCheck_advised.
  - unfold QualityGate.checkDependencies.
    destruct (Env.audit env); now apply addCheck_advised.
Qed.

Lemma runChecks_advised (env : Env.t) :
  advised (QualityGate.runChecks toString test env).
Proof.
  unfold QualityGate.runChecks, QualityGate.standardChecks.
  assert (advised QualityGate.constructor) as H0 by reflexivity.
  pose proof (check_advised QualityGate.LintQuality env _ H0) as H1.
  pose proof (check_advised QualityGate.TypeScript env _ H1) as H2.
  pose proof (check_advised QualityGate.Security env _ H2) as H3.
  pose proof (check_advised QualityGate.Formatting env _ H3) as H4.
  pose proof (check_advised QualityGate.TodoComments env _ H4) as H5.
  pose proof (check_advised QualityGate.Dependencies env _ H5) as H6.
  cbn [QualityGate.check] in H6.
  destruct (QualityGate.includeBuild env); [|exact H6].
  unfold QualityGate.checkBuild.
  destruct (Env.build env); now apply addCheck_advised.
Qed.

(** X17. After a gate run the recommendations are exactly the lines
    "Fix: <name> - <message>" of the failed checks, in the order of the
    checks: one per failed check, none for a check that passed. *)
Theorem recommendations_follow_failures (env : Env.t) :
  let g := runAllChecks env in
  Gate.recommendations g
  = map recommendation (List.filter failed (Gate.checks g)) /\
  length (Gate.recommendations g) = failedChecks g.
Proof.
  cbn zeta.
  assert (advised (runAllChecks env)) as H by apply runChecks_advised.
  split; [exact H|].
  rewrite H, length_map. reflexivity.
Qed.

Lemma addCheck_total name passed message score (g : Gate.t) :
  QualityGate.totalChecks (QualityGate.addCheck name passed message score g)
  = S (QualityGate.totalChecks g).
Proof.
  unfold QualityGate.totalChecks. cbn. rewrite length_app. cbn. lia.
Qed.

Lemma checks_count (env : Env.t) :
  QualityGate.totalChecks (runAllChecks env)
  = ((match Env.lintReport env with Returned _ => 3 | Thrown _ => 1 end)
     + 5 + (if QualityGate.includeBuild env then 1 else 0))%nat.
Proof.
  unfold QualityGate.runAllChecks.
  change (QualityGate.totalChecks (QualityGate.calculateScore ?g))
    with (QualityGate.totalChecks g).
  unfold QualityGate.runChecks, QualityGate.standardChecks,
    QualityGate.checkBuild, QualityGate.checkDependencies,
    QualityGate.checkTodoComments, QualityGate.checkFormatting,
    QualityGate.checkSecurity, QualityGate.checkTypeScript,
    QualityGate.checkLintQuality.
  destruct (QualityGate.includeBuild env), (Env.build env),
    (Env.audit env), (Env.todoCount env), (Env.formatCheck env),
    (Env.sourceListing env), (Env.typecheck env), (Env.lintReport env);
    rewrite !addCheck_total; reflexivity.
Qed.

Lemma checks_range (env : Env.t) :
  (6 <= QualityGate.totalChecks (runAllChecks env) <= 9)%nat.
Proof.
  rewrite checks_count.
  destruct (Env.lintReport env), (QualityGate.includeBuild env); lia.
Qed.

(** X18. A gate run makes three checks from the lint report, or one if
    the report cannot be obtained, one for each of the five other
    checkers, and one more for the build exactly when --include-build is
    among the arguments of the process: between 6 and 9 checks in
    all. *)
Theorem number_of_checks (env : Env.t) :
  let fromReport :=
    match Env.lintReport env with Returned _ => 3 | Thrown _ => 1 end%nat in
  (In "--include-build"%string (Env.argv env) ->
   QualityGate.totalChecks (runAllChecks env) = (fromReport + 5 + 1)%nat) /\
  (~ In "--include-build"%string (Env.argv env) ->
   QualityGate.totalChecks (runAllChecks env) = (fromReport + 5)%nat) /\
  (6 <= QualityGate.totalChecks (runAllChecks env) <= 9)%nat.
Proof.
  cbn zeta. pose proof (GateFacts.includeBuild_argv env) as Hargv.
  split; [|split].
  - intros Hflag. apply Hargv in Hflag.
    rewrite checks_count, Hflag. reflexivity.
  - intros Hflag. rewrite checks_count.
    destruct (QualityGate.includeBuild env); [|lia].
    exfalso. now apply Hflag, Hargv.
  - apply checks_range.
Qed.

(** X19. The verdict of a gate run in terms of failed checks: the gate
    passes exactly when no check failed, or when a single check failed
    and there are at least 7 checks; with the minimum of 6 checks one
    failure is enough to fail the gate. The exit status is 0 in exactly
    these cases. *)
Theorem gate_tolerates_one_failure (env : Env.t) :
  let g := runAllChecks env in
  (Gate.passed g = true
   <-> failedChecks g = 0%nat
       \/ (failedChecks g = 1%nat /\ (7 <= QualityGate.totalChecks g)%nat)) /\
  (QualityGate.main toString test env = 0 <-> Gate.passed g = true).
Proof.
  cbn zeta. split.
  - pose proof (checks_range env) as Hrange.
    pose proof (passed_failed_total (runAllChecks env)) as Hsplit.
    assert (failedChecks (runAllChecks env)
            = failedChecks (QualityGate.runChecks toString test env)) as Hf
      by reflexivity.
    assert (QualityGate.totalChecks (runAllChecks env)
            = QualityGate.totalChecks (QualityGate.runChecks toString test env))
      as Ht by reflexivity.
    assert (QualityGate.passedChecks (runAllChecks env)
            = QualityGate.passedChecks
                (QualityGate.runChecks toString test env)) as Hp
      by reflexivity.
    rewrite Hf, Ht in *. rewrite Hp in Hsplit.
    destruct (GateFacts.calculateScore_spec
                (QualityGate.runChecks toString test env))
      as (_ & Hpassed & _); [lia|].
    fold (runAllChecks env) in Hpassed. rewrite Hpassed.
    set (p := QualityGate.passedChecks _) in *.
    set (t := QualityGate.totalChecks _) in *.
    set (f := failedChecks _) in *.
    assert (t = 6 \/ t = 7 \/ t = 8 \/ t = 9)%nat as Ht' by lia.
    assert (p = t - f)%nat as -> by lia.
    assert (f <= t)%nat as Hle by lia.
    clear Hsplit Hpassed Hrange Hf Ht Hp.
    destruct Ht' as [-> | [-> | [-> | ->]]];
      do 10 (destruct f as [|f];
             [vm_compute; split; [intros; try discriminate; lia
                                 | intros [H | [H H']];
                                   try discriminate; try reflexivity; lia]|]);
      lia.
  - unfold QualityGate.main.
    destruct (Gate.passed (runAllChecks env)); split; intros;
      try reflexivity; discriminate.
Qed.

End Checks.

Lemma number_of_checks_witness :
  QualityGate.totalChecks
    (QualityGate.runAllChecks Sample.render Sample.noMatch Sample2.withBuild)
  = 9%nat.
Proof.
  apply (number_of_checks Sample.render Sample.noMatch Sample2.withBuild).
  cbn. auto.
Defined.

End GateRun.


(** ** The security scan and the lint report *)

Module GateInputs.
Import Handoff.

Lemma sum_zero {A} (f : A -> nat) (l : list A) (start : nat) :
  fold_left (fun n x => (n + f x)%nat) l start = 0%nat
  <-> start = 0%nat /\ forall x, In x l -> f x = 0%nat.
Proof.
  revert start. induction l as [|y l IH]; intros start; cbn.
  - intuition.
  - rewrite IH. split.
    + intros [H0 Hall]. split; [lia|].
      intros x [<- | Hx]; [lia | now apply Hall].
    + intros [-> Hall]. split; [now rewrite Hall; auto | auto].
Qed.

Lemma every_pattern (p : SecurityPattern) :
  In p QualityGate.securityPatterns.
Proof. destruct p; cbn; auto 10. Qed.

Section Checks.

Variable toString : JS.number -> string.
Variable test : SecurityPattern -> string -> bool.

Lemma issuesIn_zero (env : Env.t) (file : string) :
  QualityGate.issuesIn test env file = 0%nat
  <-> forall content,
        Env.sourceContent env file = Some content ->
        forall p, test p content = false.
Proof.
  unfold QualityGate.issuesIn.
  destruct (Env.sourceContent env file) as [content|].
  - rewrite length_zero_iff_nil. split.
    + intros Hnil c [= <-] p.
      destruct (test p content) eqn:E; [|reflexivity].
      assert (In p (List.filter (fun p => test p content)
                      QualityGate.securityPatterns)) as Hin
        by (apply filter_In; split; [apply every_pattern | exact E]).
      rewrite Hnil in Hin. destruct Hin.
    + intros H. specialize (H content eq_refl).
      induction QualityGate.securityPatterns as [|p l IH]; [reflexivity|].
      cbn. now rewrite H.
  - split; [intros _ c [=] | reflexivity].
Qed.

(** X20. When the file listing is obtained, the security check passes
    exactly when no listed file that can be read matches any of the five
    patterns; empty lines of the listing are not files, and a listed
    file that cannot be read is skipped and never fails the check. *)
Theorem security_scan_verdict (env : Env.t) (listing : string)
    (g : Gate.t) :
  Env.sourceListing env = Returned listing ->
  exists added,
    Gate.checks (QualityGate.checkSecurity toString test env g)
    = Gate.checks g ++ [added] /\
    Check.name added = "Security Scan"%string /\
    (Check.passed added = true
     <-> forall file content,
           In file (Str.split_lines listing) ->
           file <> EmptyString ->
           Env.sourceContent env file = Some content ->
           forall p, test p content = false).
Proof.
  intros Hlisting. unfold QualityGate.checkSecurity. rewrite Hlisting.
  eexists. split; [reflexivity|]. split; [reflexivity|].
  cbn [Check.passed]. rewrite Nat.eqb_eq, sum_zero. split.
  - intros [_ Hall] file content Hin Hne Hread p.
    assert (In file (List.filter QualityGate.nonEmpty
                       (Str.split_lines listing))) as Hfile.
    { apply filter_In. split; [assumption|]. now destruct file. }
    exact (proj1 (issuesIn_zero env file) (Hall file Hfile) content Hread p).
  - intros Hclean. split; [reflexivity|].
    intros file Hfile. apply filter_In in Hfile as [Hin Hne].
    apply issuesIn_zero. intros content Hread p.
    apply (Hclean file content); try assumption.
    intros ->. discriminate.
Qed.

Section Handoff.

Variable relative : string -> string.
Variable execSync : string -> Exec.outcome.

(** X21. The gate on a report written by a run: the three checks it
    makes are, in order, "Lint Quality Score", passed exactly when the
    run's score is at least 80, "Error Count", passed exactly when the
    run's error total is 0, and "Warning Count", passed exactly when its
    warning total is at most 10. The report of a run that linted nothing
    holds [null] for the score and fails the first check while passing
    the other two. *)
Theorem gate_reads_run_report (packages : list Package.t) (w : World.t)
    (env : Env.t) (g : Gate.t) :
  let m := fst (LintQuality.runQualityLint relative execSync packages w) in
  Env.lintReport env = Returned (parsed m) ->
  exists score errors warnings : Check.t,
    Gate.checks (QualityGate.checkLintQuality toString env g)
    = Gate.checks g ++ [score; errors; warnings] /\
    Check.name score = "Lint Quality Score"%string /\
    Check.name errors = "Error Count"%string /\
    Check.name warnings = "Warning Count"%string /\
    Check.passed score = JS.geb (Metrics.qualityScore m) (JS.of_Z 80) /\
    Check.passed errors = JS.leb (Metrics.errors m) (JS.of_Z 0) /\
    Check.passed warnings = JS.leb (Metrics.warnings m) (JS.of_Z 10) /\
    (packages = [] ->
     Check.passed score = false /\ Check.passed errors = true
     /\ Check.passed warnings = true).
Proof.
  intros m Hreport. unfold QualityGate.checkLintQuality. rewrite Hreport.
  do 3 eexists. split.
  { rewrite !GateFacts.addCheck_checks, <- !app_assoc. reflexivity. }
  destruct (RunShape.run_counted relative execSync packages w)
    as (e & wn & _ & _ & He & Hw). fold m in He, Hw.
  cbn [Check.name Check.passed parsed Report.qualityScore Report.errors
       Report.warnings].
  repeat apply conj; try reflexivity.
  - destruct packages as [|pkg packages].
    + unfold m, LintQuality.runQualityLint, LintQuality.constructor.
      now destruct (LintQuality.loadPreviousScore w).
    + assert (1 <= Metrics.lintedPackages m)%nat as Hn
        by (unfold m; rewrite RunShape.run_lintedPackages; cbn; lia).
      destruct (RunShape.run_score relative execSync _ w Hn)
        as (e' & wn' & _ & _ & _ & _ & Hscore).
      fold m in Hscore. now rewrite Hscore.
  - now rewrite He.
  - now rewrite Hw.
  - intros ->. unfold m, LintQuality.runQualityLint, LintQuality.constructor.
    destruct (LintQuality.loadPreviousScore w). repeat split.
Qed.

End Handoff.

End Checks.

Lemma security_scan_verdict_witness :
  exists added,
    Gate.checks
      (QualityGate.checkSecurity Sample.render Sample.noMatch
         Sample2.allGood QualityGate.constructor)
    = [added] /\
    Check.name added = "Security Scan"%string.
Proof.
  destruct (security_scan_verdict Sample.render Sample.noMatch
              Sample2.allGood "a.ts" QualityGate.constructor eq_refl)
    as (added & Hchecks & Hname & _).
  exists added. split; assumption.
Defined.

Lemma gate_reads_run_report_witness :
  exists score errors warnings : Check.t,
    Gate.checks
      (QualityGate.checkLintQuality Sample.render Sample2.allGood
         QualityGate.constructor)
    = [score; errors; warnings] /\
    Check.passed score = true /\ Check.passed errors = false.
Proof.
  destruct (gate_reads_run_report Sample.render Sample.relative
              Sample.execSync Sample.packages Sample.world Sample2.allGood
              QualityGate.constructor eq_refl)
    as (score & errors & warnings & Hchecks & _ & _ & _ & Hs & He & _).
  exists score, errors, warnings. split; [exact Hchecks|].
  rewrite Hs, He. split; vm_compute; reflexivity.
Defined.

End GateInputs.


(** ** Paths reported by the scan *)

Module ScanPaths.

Lemma append_cancel (a b c : string) :
  (a ++ b)%string = (a ++ c)%string -> b = c.
Proof.
  induction a as [|x a IH]; [trivial|].
  change (String x (a ++ b)%string = String x (a ++ c)%string -> b = c).
  intros [= H]. now apply IH.
Qed.

(** Nothing, or a separator and more. *)
Definition tail (rest : string) : Prop :=
  rest = EmptyString \/ exists more, rest = String FS.slash more.

Lemma plain_head (x y r1 r2 : string) :
  FS.plain x = true -> FS.plain y = true -> tail r1 -> tail r2 ->
  (x ++ r1)%string = (y ++ r2)%string -> x = y.
Proof.
  revert y. induction x as [|c x IH]; intros [|d y] Hx Hy H1 H2 E.
  - reflexivity.
  - change (r1 = String d (y ++ r2)%string) in E.
    cbn [FS.plain] in Hy. apply andb_true_iff in Hy as [Hd _].
    apply negb_true_iff in Hd.
    destruct H1 as [-> | [more ->]]; [discriminate|].
    injection E as Ed _. rewrite <- Ed in Hd.
    now rewrite Ascii.eqb_refl in Hd.
  - change (String c (x ++ r1)%string = r2) in E.
    cbn [FS.plain] in Hx. apply andb_true_iff in Hx as [Hc _].
    apply negb_true_iff in Hc.
    destruct H2 as [-> | [more ->]]; [discriminate|].
    injection E as Ec _. rewrite Ec in Hc.
    now rewrite Ascii.eqb_refl in Hc.
  - change (String c (x ++ r1)%string = String d (y ++ r2)%string) in E.
    injection E as -> E.
    cbn [FS.plain] in Hx, Hy.
    apply andb_true_iff in Hx as [_ Hx]. apply andb_true_iff in Hy as [_ Hy].
    f_equal. now apply (IH y).
Qed.

Lemma scanEntry_below (n : FS.Node) :
  forall dir pkg,
    In pkg (FS.scanEntry dir n) ->
    exists rest,
      tail rest /\
      Scanned.path pkg = (FS.join dir (FS.nodeName n) ++ rest)%string.
Proof.
  induction n as [name size json | name mtime entries IH]
    using ScanFacts.Node_induction;
    intros dir pkg Hin; [destruct Hin|].
  cbn [FS.scanEntry FS.nodeName] in *.
  destruct (FS.entry "package.json" entries) as [[pname psize [manifest|] | ]|].
  - destruct (FS.scripts manifest) as [s|]; [|destruct Hin].
    destruct (FS.lint s); [|destruct Hin].
    destruct Hin as [<- | []]. exists EmptyString. split; [now left|].
    cbn. now rewrite Parser.append_empty.
  - destruct Hin.
  - destruct Hin.
  - apply in_flat_map in Hin as (child & Hchild & Hin).
    rewrite List.Forall_forall in IH.
    destruct (IH child Hchild _ _ Hin) as (rest & _ & Hrest).
    exists ("/" ++ FS.nodeName child ++ rest)%string.
    split; [right; eexists; reflexivity|].
    rewrite Hrest. unfold FS.join.
    rewrite (ScanFacts.append_assoc _ ("/" ++ FS.nodeName child) rest).
    reflexivity.
Qed.

Lemma scanEntry_count (n : FS.Node) :
  forall dir, (length (FS.scanEntry dir n) <= FS.directories n)%nat.
Proof.
  induction n as [name size json | name mtime entries IH]
    using ScanFacts.Node_induction; intros dir; [cbn; lia|].
  cbn [FS.scanEntry FS.directories].
  destruct (FS.entry "package.json" entries) as [[pname psize [manifest|] | ]|];
    try (cbn; lia).
  - destruct (FS.scripts manifest) as [s|]; [|cbn; lia].
    destruct (FS.lint s); cbn; lia.
  - assert (length (List.flat_map (FS.scanEntry (FS.join dir name)) entries)
            <= list_sum (map FS.directories entries))%nat; [|lia].
    induction IH as [|child entries Hchild _ IHentries]; [cbn; lia|].
    cbn [List.flat_map map list_sum fold_right]. rewrite length_app.
    specialize (Hchild (FS.join dir name)).
    change (fold_right Nat.add 0%nat (map FS.directories entries))
      with (list_sum (map FS.directories entries)).
    lia.
Qed.

Lemma distinct_cons (name : string) (names : list string) :
  FS.distinct (name :: names) = true ->
  ~ In name names /\ FS.distinct names = true.
Proof.
  cbn [FS.distinct]. rewrite andb_true_iff, negb_true_iff.
  intros [Hnot Hrest]. split; [|assumption].
  intros Hin.
  assert (existsb (String.eqb name) names = true) as H.
  { apply existsb_exists. exists name. split; [assumption|].
    apply String.eqb_refl. }
  congruence.
Qed.

(** Packages found under siblings with different plain names have
    different paths. *)
Lemma siblings_apart (dir : string) (a b : FS.Node) (p q : Scanned.t) :
  FS.plain (FS.nodeName a) = true -> FS.plain (FS.nodeName b) = true ->
  FS.nodeName a <> FS.nodeName b ->
  In p (FS.scanEntry dir a) -> In q (FS.scanEntry dir b) ->
  Scanned.path p <> Scanned.path q.
Proof.
  intros Ha Hb Hab Hp Hq E.
  destruct (scanEntry_below a dir p Hp) as (r1 & T1 & E1).
  destruct (scanEntry_below b dir q Hq) as (r2 & T2 & E2).
  rewrite E1, E2 in E. unfold FS.join in E.
  rewrite !ScanFacts.append_assoc in E.
  apply append_cancel in E.
  change (String FS.slash (FS.nodeName a ++ r1)%string
          = String FS.slash (FS.nodeName b ++ r2)%string) in E.
  injection E as E.
  apply Hab. exact (plain_head _ _ _ _ Ha Hb T1 T2 E).
Qed.

Lemma plain_of_wellFormed (n : FS.Node) :
  FS.wellFormed n = true -> FS.plain (FS.nodeName n) = true.
Proof.
  destruct n; cbn [FS.wellFormed FS.nodeName]; [trivial|].
  rewrite !andb_true_iff. tauto.
Qed.

Lemma scanEntry_unique (n : FS.Node) :
  forall dir,
    FS.wellFormed n = true ->
    List.NoDup (map Scanned.path (FS.scanEntry dir n)).
Proof.
  induction n as [name size json | name mtime entries IH]
    using ScanFacts.Node_induction; intros dir Hwf; [constructor|].
  cbn [FS.scanEntry].
  destruct (FS.entry "package.json" entries) as [[pname psize [manifest|] | ]|];
    try constructor.
  - destruct (FS.scripts manifest) as [s|]; [|constructor].
    destruct (FS.lint s); [|constructor].
    cbn. constructor; [intros [] | constructor].
  - cbn [FS.wellFormed] in Hwf. rewrite !andb_true_iff in Hwf.
    destruct Hwf as [[_ Hdistinct] Hall].
    set (full := FS.join dir name). clearbody full.
    induction IH as [|child entries Hchild _ IHentries]; [constructor|].
    cbn [map] in Hdistinct. apply distinct_cons in Hdistinct as [Hnew Hrest].
    cbn [forallb] in Hall. apply andb_true_iff in Hall as [Hwfc Hwfs].
    cbn [List.flat_map]. rewrite map_app.
    apply NoDup_app_iff || apply List.NoDup_app.
    + now apply Hchild.
    + now apply IHentries.
    + intros path Hin1 Hin2.
      apply in_map_iff in Hin1 as (p & <- & Hp).
      apply in_map_iff in Hin2 as (q & Eq & Hq).
      apply in_flat_map in Hq as (other & Hother & Hq).
      revert Eq. apply not_eq_sym.
      apply (siblings_apart full child other p q); try assumption.
      * now apply plain_of_wellFormed.
      * apply plain_of_wellFormed.
        rewrite forallb_forall in Hwfs. now apply Hwfs.
      * intros E. apply Hnew. rewrite E. now apply in_map.
Qed.

(** X22. What the scan reports: nothing when the directory does not
    exist; otherwise only paths strictly below the scanned directory, at
    most one package per directory of the tree, and, when names are
    plain and the entries of each directory have different names, no
    path twice. *)
Theorem scan_reports_distinct_paths_below_root (dir : string)
    (entries : list FS.Node) :
  FS.scanDirectory dir None = [] /\
  (forall pkg,
     In pkg (FS.scanDirectory dir (Some entries)) ->
     exists name rest,
       Scanned.path pkg = (dir ++ "/" ++ name ++ rest)%string) /\
  (length (FS.scanDirectory dir (Some entries))
   <= list_sum (map FS.directories entries))%nat /\
  (FS.distinct (map FS.nodeName entries) = true ->
   forallb FS.wellFormed entries = true ->
   List.NoDup (map Scanned.path (FS.scanDirectory dir (Some entries)))).
Proof.
  split; [reflexivity|]. split; [|split].
  - intros pkg Hin. cbn [FS.scanDirectory] in Hin.
    apply in_flat_map in Hin as (n & _ & Hin).
    destruct (scanEntry_below n dir pkg Hin) as (rest & _ & Hrest).
    exists (FS.nodeName n), rest. rewrite Hrest. unfold FS.join.
    now rewrite !ScanFacts.append_assoc.
  - cbn [FS.scanDirectory].
    induction entries as [|n entries IH]; [cbn; lia|].
    cbn [List.flat_map map list_sum fold_right]. rewrite length_app.
    pose proof (scanEntry_count n dir).
    change (fold_right Nat.add 0%nat (map FS.directories entries))
      with (list_sum (map FS.directories entries)).
    lia.
  - intros Hdistinct Hall. cbn [FS.scanDirectory].
    induction entries as [|child entries IH]; [constructor|].
    cbn [map] in Hdistinct. apply distinct_cons in Hdistinct as [Hnew Hrest].
    cbn [forallb] in Hall. apply andb_true_iff in Hall as [Hwfc Hwfs].
    cbn [List.flat_map]. rewrite map_app.
    apply List.NoDup_app.
    + now apply scanEntry_unique.
    + now apply IH.
    + intros path Hin1 Hin2.
      apply in_map_iff in Hin1 as (p & <- & Hp).
      apply in_map_iff in Hin2 as (q & Eq & Hq).
      apply in_flat_map in Hq as (other & Hother & Hq).
      revert Eq. apply not_eq_sym.
      apply (siblings_apart dir child other p q); try assumption.
      * now apply plain_of_wellFormed.
      * apply plain_of_wellFormed.
        rewrite forallb_forall in Hwfs. now apply Hwfs.
      * intros E. apply Hnew. rewrite E. now apply in_map.
Qed.

Lemma scan_reports_distinct_paths_below_root_witness :
  List.NoDup
    (map Scanned.path (FS.scanDirectory "packages" (Some Sample2.tree))).
Proof.
  apply (scan_reports_distinct_paths_below_root "packages" Sample2.tree);
    reflexivity.
Defined.

End ScanPaths.
